(** * gohypo: FMCSA lead scoring, CSV parsing and the Kalshi arbitrage finder

    A shallow embedding of
      - [python_data_functions/lead_scoring.py] (class [FMCALeadScorer] and
        [score_leads_template]),
      - [python_data_functions/parsers.py] ([FMCSADataParser.validate_data],
        [FMCSACSVParser.parse_to_dataframe], [FMCSAFixedWidthParser], the
        food safety filter of [FMCSAInspectionParser], the filters and
        [get_lead_scoring_data] of [FMCSACensusParser], and
        [FMCSASMSParser.get_safety_ratings]),
      - [app.py] (classes [ArbitrageDetector] and [ArbitrageFinder]),
    together with the part of the Python and pandas run time these functions
    call.

    Conventions of the embedding.
      - A Python call that can raise returns a [result]; exceptions carry the
        class that Python raises.
      - A [float64] is an exact rational, one of the two infinities, or NaN;
        rounding is not modelled, so equations on scores are equations on
        rationals.
      - Frames carry the default [RangeIndex] (what [pd.read_csv] and
        [DataFrame.merge] produce), so label alignment of two series is
        alignment by position; only [sort_values] permutes the index.
      - The column labels of a frame are distinct; [lookup_column] finds
        the first column of a name.
      - Text is ASCII. *)

From Stdlib Require Import QArith Qround Lqa Lia ZArith List String Ascii Bool Permutation Sorted
  DecimalString.
From stdpp Require Import gmap strings list.
Import ListNotations.

Local Open Scope string_scope.

(* ===================================================================== *)
(** ** Python run time: exceptions and results *)
(* ===================================================================== *)

Module Py.

Inductive exn : Type :=
| KeyError (key : string)
| AttributeError (msg : string)
| ValueError (msg : string)
| TypeError (msg : string)
| CsvError (msg : string)
| OSError (msg : string).

Inductive result (A : Type) : Type :=
| Ok (a : A)
| Raise (e : exn).
Arguments Ok {A} a.
Arguments Raise {A} e.

Definition bind {A B : Type} (r : result A) (k : A -> result B) : result B :=
  match r with
  | Ok a => k a
  | Raise e => Raise e
  end.

Definition raises {A : Type} (r : result A) : Prop :=
  exists e, r = Raise e.

(** [xs[:k]]: the first [k] items, or all but the last [-k] when [k] is
    negative. *)
Definition slice_to {A : Type} (k : Z) (xs : list A) : list A :=
  if (0 <=? k)%Z then firstn (Z.to_nat k) xs
  else firstn (length xs - Z.to_nat (- k)) xs.

End Py.
Export Py.

Notation "'let*' x ':=' e1 'in' e2" := (Py.bind e1 (fun x => e2))
  (at level 10, x name, e1 at level 100, e2 at level 200).

(* ===================================================================== *)
(** ** float64 *)
(* ===================================================================== *)

Module Float.

Inductive float64 : Type :=
| NaN
| NInf
| PInf
| Fin (q : Q).

Definition sign_choose (q : Q) (neg zero pos : float64) : float64 :=
  match (q ?= 0)%Q with
  | Lt => neg
  | Eq => zero
  | Gt => pos
  end.

Definition fadd (x y : float64) : float64 :=
  match x, y with
  | NaN, _ | _, NaN => NaN
  | PInf, NInf | NInf, PInf => NaN
  | PInf, _ | _, PInf => PInf
  | NInf, _ | _, NInf => NInf
  | Fin a, Fin b => Fin (a + b)
  end.

Definition fneg (x : float64) : float64 :=
  match x with
  | NaN => NaN
  | NInf => PInf
  | PInf => NInf
  | Fin a => Fin (- a)
  end.

Definition fsub (x y : float64) : float64 := fadd x (fneg y).

Definition fmul (x y : float64) : float64 :=
  match x, y with
  | NaN, _ | _, NaN => NaN
  | Fin a, Fin b => Fin (a * b)
  | Fin a, PInf | PInf, Fin a => sign_choose a NInf NaN PInf
  | Fin a, NInf | NInf, Fin a => sign_choose a PInf NaN NInf
  | PInf, PInf | NInf, NInf => PInf
  | PInf, NInf | NInf, PInf => NInf
  end.

(** numpy division: a finite value over zero is an infinity, 0/0 is NaN. *)
Definition fdiv (x y : float64) : float64 :=
  match x, y with
  | NaN, _ | _, NaN => NaN
  | Fin a, Fin b =>
      if Qeq_bool b 0 then sign_choose a NInf NaN PInf else Fin (a / b)
  | Fin _, (PInf | NInf) => Fin 0
  | PInf, Fin b => sign_choose b NInf PInf PInf
  | NInf, Fin b => sign_choose b PInf NInf NInf
  | (PInf | NInf), (PInf | NInf) => NaN
  end.

Definition fle (x y : float64) : bool :=
  match x, y with
  | NaN, _ | _, NaN => false
  | NInf, _ => true
  | _, PInf => true
  | Fin a, Fin b => Qle_bool a b
  | _, _ => false
  end.

Definition feq (x y : float64) : bool := fle x y && fle y x.
Definition flt (x y : float64) : bool := fle x y && negb (fle y x).
Definition fge (x y : float64) : bool := fle y x.

Definition isna (x : float64) : bool :=
  match x with NaN => true | _ => false end.

Definition fmin (x y : float64) : float64 := if fle x y then x else y.

Definition of_bool (b : bool) : float64 := Fin (if b then 1 else 0).
Definition of_nat (n : nat) : float64 := Fin (inject_Z (Z.of_nat n)).
Definition of_Z (z : Z) : float64 := Fin (inject_Z z).

End Float.
Export Float.

(* ===================================================================== *)
(** ** str methods and the regular expressions the code uses *)
(* ===================================================================== *)

Module Str.

Definition code (c : ascii) : nat := nat_of_ascii c.

(** [str.isspace] on ASCII. *)
Definition is_space (c : ascii) : bool :=
  let n := code c in
  ((9 <=? n) && (n <=? 13) || (28 <=? n) && (n <=? 32))%nat.

Definition is_digit (c : ascii) : bool :=
  let n := code c in ((48 <=? n) && (n <=? 57))%nat.

Definition lower_char (c : ascii) : ascii :=
  let n := code c in
  if ((65 <=? n) && (n <=? 90))%nat then ascii_of_nat (n + 32) else c.

Fixpoint lower (s : string) : string :=
  match s with
  | EmptyString => EmptyString
  | String c s' => String (lower_char c) (lower s')
  end.

Fixpoint filter_chars (p : ascii -> bool) (s : string) : string :=
  match s with
  | EmptyString => EmptyString
  | String c s' => if p c then String c (filter_chars p s') else filter_chars p s'
  end.

Fixpoint replace_char (old new : ascii) (s : string) : string :=
  match s with
  | EmptyString => EmptyString
  | String c s' =>
      String (if Ascii.eqb c old then new else c) (replace_char old new s')
  end.

Fixpoint lstrip (s : string) : string :=
  match s with
  | EmptyString => EmptyString
  | String c s' => if is_space c then lstrip s' else s
  end.

Fixpoint rev_onto (s acc : string) : string :=
  match s with
  | EmptyString => acc
  | String c s' => rev_onto s' (String c acc)
  end.

Definition reverse (s : string) : string := rev_onto s EmptyString.
Definition rstrip (s : string) : string := reverse (lstrip (reverse s)).
Definition strip (s : string) : string := rstrip (lstrip s).

Definition startswith (p s : string) : bool := String.prefix p s.
Definition endswith (p s : string) : bool := String.prefix (reverse p) (reverse s).

(** [p in s] *)
Fixpoint contains (p s : string) : bool :=
  String.prefix p s ||
  match s with
  | EmptyString => false
  | String _ s' => contains p s'
  end.

Definition contains_char (c : ascii) (s : string) : bool :=
  contains (String c EmptyString) s.

(** [s.split(sep)] for a one-character separator: never the empty list. *)
Fixpoint split_on (sep : ascii) (s : string) : list string :=
  match s with
  | EmptyString => [EmptyString]
  | String c s' =>
      if Ascii.eqb c sep then EmptyString :: split_on sep s'
      else match split_on sep s' with
           | [] => [String c EmptyString]
           | w :: ws => String c w :: ws
           end
  end.

(** [s.split()]: the maximal runs of non-blank characters. *)
Fixpoint split_ws_go (s cur : string) : list string :=
  match s with
  | EmptyString =>
      match cur with EmptyString => [] | _ => [reverse cur] end
  | String c s' =>
      if is_space c
      then match cur with
           | EmptyString => split_ws_go s' EmptyString
           | _ => reverse cur :: split_ws_go s' EmptyString
           end
      else split_ws_go s' (String c cur)
  end.

Definition split_ws (s : string) : list string := split_ws_go s EmptyString.

(** [sep.join(parts)] *)
Fixpoint join (sep : string) (parts : list string) : string :=
  match parts with
  | [] => EmptyString
  | [p] => p
  | p :: ps => p +:+ sep +:+ join sep ps
  end.

(** [re.search(pattern, s)] for a pattern that is an alternation
    [w1|w2|...] of literal words, the only kind passed to
    [Series.str.contains] in the scorer. *)
Definition re_search_words (pattern s : string) : bool :=
  existsb (fun w => contains w s) (split_on "|" pattern).

(** [re.search(r'^[^@]+@[^@]+\.[^@]+$', s)]: exactly one [@], something
    before it, and after it a dot with something on both sides. *)
Fixpoint dot_then_more (s : string) : bool :=
  match s with
  | EmptyString => false
  | String c s' =>
      (Ascii.eqb c "." && negb (String.eqb s' EmptyString)) || dot_then_more s'
  end.

Definition re_search_email (s : string) : bool :=
  match split_on "@" s with
  | [a; r] =>
      negb (String.eqb a EmptyString) &&
      match r with
      | EmptyString => false
      | String _ r' => dot_then_more r'
      end
  | _ => false
  end.

(** [re.sub(r'\D', '', s)] *)
Definition re_sub_nondigits (s : string) : string := filter_chars is_digit s.

Definition upper_char (c : ascii) : ascii :=
  let n := code c in
  if ((97 <=? n) && (n <=? 122))%nat then ascii_of_nat (n - 32) else c.

Fixpoint upper (s : string) : string :=
  match s with
  | EmptyString => EmptyString
  | String c s' => String (upper_char c) (upper s')
  end.

Definition is_upper (c : ascii) : bool :=
  let n := code c in ((65 <=? n) && (n <=? 90))%nat.

Fixpoint forall_chars (p : ascii -> bool) (s : string) : bool :=
  match s with
  | EmptyString => true
  | String c s' => p c && forall_chars p s'
  end.

(** [s.lstrip(chars)], [s.rstrip(chars)] *)
Fixpoint lstrip_chars (chars s : string) : string :=
  match s with
  | EmptyString => EmptyString
  | String c s' => if contains_char c chars then lstrip_chars chars s' else s
  end.

Definition rstrip_chars (chars s : string) : string :=
  reverse (lstrip_chars chars (reverse s)).

(** [s[start:stop]]: a negative position counts from the end, and positions
    beyond either end are cut back to it. *)
Definition slice_position (n i : Z) : Z :=
  if (i <? 0)%Z then Z.max (i + n) 0 else Z.min i n.

Definition slice (s : string) (start stop : Z) : string :=
  let n := Z.of_nat (String.length s) in
  let a := slice_position n start in
  let b := slice_position n stop in
  String.substring (Z.to_nat a) (Z.to_nat (b - a)) s.

(** [str(n)] of a natural number, as an f-string prints it. *)
Definition of_nat (n : nat) : string := NilZero.string_of_uint (Nat.to_uint n).

(** The two regular expressions of [VALIDATION_RULES]. *)
Inductive regex : Type :=
| DigitRun (lo hi : nat)   (* ^\d{lo,hi}$ *)
| UpperRun (n : nat).      (* ^[A-Z]{n}$ *)

Definition full_match (r : regex) (s : string) : bool :=
  match r with
  | DigitRun lo hi =>
      forall_chars is_digit s && (lo <=? String.length s)%nat && (String.length s <=? hi)%nat
  | UpperRun n => forall_chars is_upper s && (String.length s =? n)%nat
  end.

(** [re.match(r, s)]: [$] also matches just before a newline that ends the
    string. *)
Definition re_match (r : regex) (s : string) : bool :=
  full_match r s ||
  (endswith (String "010" EmptyString) s
   && full_match r (String.substring 0 (String.length s - 1) s)).

(** One character of a pattern against one character of the text, ignoring
    case: a dot stands for every character but the newline. *)
Definition char_matches (p c : ascii) : bool :=
  if Ascii.eqb p "." then negb (Ascii.eqb c "010")
  else Ascii.eqb (lower_char p) (lower_char c).

Fixpoint match_here (pat s : string) : bool :=
  match pat with
  | EmptyString => true
  | String p pat' =>
      match s with
      | EmptyString => false
      | String c s' => char_matches p c && match_here pat' s'
      end
  end.

Fixpoint search_from (pat s : string) : bool :=
  match_here pat s ||
  match s with
  | EmptyString => false
  | String _ s' => search_from pat s'
  end.

(** [re.search(pattern, s, re.IGNORECASE)] for a pattern that is an
    alternation [w1|w2|...] of words made of literal characters and dots,
    the kind of pattern [FSMA_CONFIG] gives rise to. *)
Definition re_search_dots (pattern s : string) : bool :=
  existsb (fun w => search_from w s) (split_on "|" pattern).

End Str.

(* ===================================================================== *)
(** ** pandas: columns, frames and the operations the scorer calls *)
(* ===================================================================== *)

Module Pandas.

(** A value held by an [object] column: a float (NaN for a missing value)
    or a Python [str]. *)
Inductive cell : Type :=
| Val (x : float64)
| Text (s : string).

(** A column is either of a numeric dtype or of dtype [object]. *)
Inductive column : Type :=
| Numeric (xs : list float64)
| Object (cs : list cell).

Definition cells (c : column) : list cell :=
  match c with
  | Numeric xs => map Val xs
  | Object cs => cs
  end.

Record DataFrame : Type := mkDataFrame {
  index : list nat;
  columns : list (string * column)
}.

(** [len(df)] *)
Definition len (df : DataFrame) : nat := length (index df).

Definition column_names (df : DataFrame) : list string := map fst (columns df).

Fixpoint lookup_column (key : string) (cols : list (string * column)) : option column :=
  match cols with
  | [] => None
  | (k, c) :: rest => if String.eqb k key then Some c else lookup_column key rest
  end.

(** [key in df.columns] *)
Definition has_column (key : string) (df : DataFrame) : bool :=
  existsb (String.eqb key) (column_names df).

(** [df.get(key, default)]: [None] stands for the default, a plain Python
    value that has none of the methods of a [Series]. *)
Definition get (df : DataFrame) (key : string) : option column :=
  lookup_column key (columns df).

(** Attribute access on what [df.get] returned: the default of Python type
    [ty] has no attribute [attr]. *)
Definition attr_of {A : Type} (ty attr : string) (o : option A) : result A :=
  match o with
  | Some a => Ok a
  | None =>
      Raise (AttributeError ("'" +:+ ty +:+ "' object has no attribute '" +:+ attr +:+ "'"))
  end.

(** [df[key]] *)
Definition getitem (df : DataFrame) (key : string) : result column :=
  match lookup_column key (columns df) with
  | Some c => Ok c
  | None => Raise (KeyError key)
  end.

(** [df[[k1, ..., kn]]] *)
Fixpoint select_columns (cols : list (string * column)) (keys : list string)
  : result (list (string * column)) :=
  match keys with
  | [] => Ok []
  | k :: keys' =>
      match lookup_column k cols with
      | None => Raise (KeyError k)
      | Some c =>
          let* rest := select_columns cols keys' in Ok ((k, c) :: rest)
      end
  end.

Definition select (df : DataFrame) (keys : list string) : result DataFrame :=
  let* cols := select_columns (columns df) keys in
  Ok {| index := index df; columns := cols |}.

(** [df.name] for a name that is not a method of [DataFrame]:
    [DataFrame.__getattr__] finds a column of that name or raises. *)
Definition getattr (df : DataFrame) (name : string) : result column :=
  match lookup_column name (columns df) with
  | Some c => Ok c
  | None =>
      Raise (AttributeError ("'DataFrame' object has no attribute '" +:+ name +:+ "'"))
  end.

Fixpoint set_column (key : string) (c : column) (cols : list (string * column))
  : list (string * column) :=
  match cols with
  | [] => [(key, c)]
  | (k, c0) :: rest =>
      if String.eqb k key then (k, c) :: rest else (k, c0) :: set_column key c rest
  end.

(** Give a series the length of the frame: labels of the frame the series
    lacks get NaN, labels the frame lacks are dropped. *)
Definition reindex {A : Type} (missing : A) (n : nat) (xs : list A) : list A :=
  map (fun i => nth i xs missing) (seq 0 n).

(** [df[key] = series] *)
Definition setitem (df : DataFrame) (key : string) (c : column) : DataFrame :=
  let c' := match c with
            | Numeric xs => Numeric (reindex NaN (len df) xs)
            | Object cs => Object (reindex (Val NaN) (len df) cs)
            end in
  {| index := index df; columns := set_column key c' (columns df) |}.

(** *** Element-wise arithmetic on aligned series *)

Fixpoint align_with (f : float64 -> float64 -> float64) (xs ys : list float64)
  : list float64 :=
  match xs, ys with
  | x :: xs', y :: ys' => f x y :: align_with f xs' ys'
  | _, [] => map (fun _ => NaN) xs
  | [], _ => map (fun _ => NaN) ys
  end.

Definition add (xs ys : list float64) : list float64 := align_with fadd xs ys.
Definition sub (xs ys : list float64) : list float64 := align_with fsub xs ys.
Definition div (xs ys : list float64) : list float64 := align_with fdiv xs ys.

(** [series * k], [k + series] *)
Definition scale (k : Q) (xs : list float64) : list float64 := map (fun x => fmul x (Fin k)) xs.
Definition radd (k : Q) (xs : list float64) : list float64 := map (fun x => fadd (Fin k) x) xs.

(** [a | b], [a & b] on boolean series: a label one side lacks is False. *)
Fixpoint align_bool (f : bool -> bool -> bool) (xs ys : list bool) : list bool :=
  match xs, ys with
  | x :: xs', y :: ys' => f x y :: align_bool f xs' ys'
  | _, [] => map (fun x => f x false) xs
  | [], _ => map (fun y => f false y) ys
  end.

(** [bools.astype(int)] *)
Definition bool_astype_int (bs : list bool) : list float64 := map of_bool bs.

(** [pd.Series([v] * n)] *)
Definition full (n : nat) (v : Q) : list float64 := repeat (Fin v) n.

(** [series.fillna(d)] *)
Definition fillna (d : float64) (xs : list float64) : list float64 :=
  map (fun x => if isna x then d else x) xs.

(** [series.replace(old, new)] *)
Definition replace (old new : Q) (xs : list float64) : list float64 :=
  map (fun x => if feq x (Fin old) then Fin new else x) xs.

(** [series.clip(lower, upper)]: NaN stays NaN. *)
Definition clip_value (lower upper : option Q) (x : float64) : float64 :=
  if isna x then NaN else
  let x1 := match lower with
            | Some l => if flt x (Fin l) then Fin l else x
            | None => x
            end in
  match upper with
  | Some u => if flt (Fin u) x1 then Fin u else x1
  | None => x1
  end.

Definition clip (lower upper : option Q) (xs : list float64) : list float64 :=
  map (clip_value lower upper) xs.

(** *** pd.cut *)

(** [bins.searchsorted(x, side='left')] on increasing [bins]: how many edges
    lie strictly below [x]. *)
Definition searchsorted_left (bins : list float64) (x : float64) : nat :=
  length (List.filter (fun b => flt b x) bins).

(** [pd.cut(x, bins, labels=labels, include_lowest=..)] with the default
    [right=True]: bin [k] is the interval (bins[k], bins[k+1]], the first one
    also holding bins[0] when [include_lowest] is set; NaN and values outside
    every bin have no label. *)
Definition cut_value {L : Type} (bins : list float64) (labels : list L)
    (include_lowest : bool) (x : float64) : option L :=
  if isna x then None else
  let ids := if include_lowest && feq x (hd NaN bins) then 1%nat
             else searchsorted_left bins x in
  if ((ids =? 0) || (ids =? length bins))%nat then None
  else nth_error labels (ids - 1).

Definition cut {L : Type} (xs : list float64) (bins : list float64) (labels : list L)
    (include_lowest : bool) : list (option L) :=
  map (cut_value bins labels include_lowest) xs.

(** [categorical.astype(int)]: a missing category cannot become an int. *)
Fixpoint cat_astype_int (cs : list (option Z)) : result (list float64) :=
  match cs with
  | [] => Ok []
  | None :: _ => Raise (ValueError "Cannot convert float NaN to integer")
  | Some z :: cs' =>
      let* rest := cat_astype_int cs' in Ok (of_Z z :: rest)
  end.

(** [categorical.astype(float)] *)
Definition cat_astype_float (cs : list (option Q)) : list float64 :=
  map (fun c => match c with Some q => Fin q | None => NaN end) cs.

(** *** The [.str] accessor *)

Definition is_text (c : cell) : bool :=
  match c with Text _ => true | Val _ => false end.

Definition is_missing (c : cell) : bool :=
  match c with Val NaN => true | _ => false end.

Definition text_of (c : cell) : option string :=
  match c with Text s => Some s | Val _ => None end.

(** [series.str]: only for an [object] column that holds strings (or nothing
    at all); the string view has NaN wherever the cell is not a [str]. *)
Definition str (c : column) : result (list (option string)) :=
  match c with
  | Numeric _ => Raise (AttributeError "Can only use .str accessor with string values!")
  | Object cs =>
      if forallb is_missing cs || existsb is_text cs then Ok (map text_of cs)
      else Raise (AttributeError "Can only use .str accessor with string values!")
  end.

(** [series.str.lower()], [.str.strip()], [.str.replace(..)]: NaN stays. *)
Definition str_map (f : string -> string) (ss : list (option string)) : list (option string) :=
  map (option_map f) ss.

(** [string_series.fillna('')] *)
Definition str_fillna (d : string) (ss : list (option string)) : list string :=
  map (fun o => match o with Some s => s | None => d end) ss.

(** [strings.str.contains(pattern)] on a series without NaN *)
Definition str_contains (pattern : string) (ss : list string) : list bool :=
  map (Str.re_search_words pattern) ss.

(** [strings.str.len()] *)
Definition str_len (ss : list string) : list float64 :=
  map (fun s => of_nat (String.length s)) ss.

(** *** DataFrame.merge(how='left') *)

Definition cell_eqb (a b : cell) : bool :=
  match a, b with
  | Val NaN, Val NaN => true
  | Val x, Val y => feq x y
  | Text s, Text t => String.eqb s t
  | _, _ => false
  end.

Definition same_kind (a b : column) : bool :=
  match a, b with
  | Numeric _, Numeric _ | Object _, Object _ => true
  | _, _ => false
  end.

Definition enumerate {A : Type} (xs : list A) : list (nat * A) :=
  combine (seq 0 (length xs)) xs.

Definition match_positions (k : cell) (right_keys : list cell) : list nat :=
  map fst (List.filter (fun p => cell_eqb k (snd p)) (enumerate right_keys)).

(** The rows of a left join, in the order of the left frame: each left row
    once per matching right row, or once with no partner. *)
Definition merge_rows (left_keys right_keys : list cell) : list (nat * option nat) :=
  flat_map (fun p =>
              match match_positions (snd p) right_keys with
              | [] => [(fst p, None)]
              | js => map (fun j => (fst p, Some j)) js
              end)
           (enumerate left_keys).

Definition take (rows : list nat) (c : column) : column :=
  match c with
  | Numeric xs => Numeric (map (fun i => nth i xs NaN) rows)
  | Object cs => Object (map (fun i => nth i cs (Val NaN)) rows)
  end.

Definition take_opt (rows : list (option nat)) (c : column) : column :=
  match c with
  | Numeric xs =>
      Numeric (map (fun o => match o with Some i => nth i xs NaN | None => NaN end) rows)
  | Object cs =>
      Object (map (fun o => match o with Some i => nth i cs (Val NaN) | None => Val NaN end) rows)
  end.

Definition merge_left (left right : DataFrame) (on : string) : result DataFrame :=
  let* lk := getitem left on in
  let* rk := getitem right on in
  if negb (same_kind lk rk)
  then Raise (ValueError "You are trying to merge on columns of different dtypes")
  else
    let rows := merge_rows (cells lk) (cells rk) in
    Ok {| index := seq 0 (length rows);
          columns :=
            map (fun kc => (fst kc, take (map fst rows) (snd kc))) (columns left) ++
            map (fun kc => (fst kc, take_opt (map snd rows) (snd kc)))
                (List.filter (fun kc => negb (String.eqb (fst kc) on)) (columns right)) |}.

(** *** Row-wise mean, [frame.mean(axis=1)], skipping NaN *)

Definition mean_skipna (xs : list float64) : float64 :=
  match List.filter (fun x => negb (isna x)) xs with
  | [] => NaN
  | ys => fdiv (fold_left fadd ys (Fin 0)) (of_nat (length ys))
  end.

Definition mean_axis1 (n : nat) (cols : list (list float64)) : list float64 :=
  map (fun i => mean_skipna (map (fun c => nth i c NaN) cols)) (seq 0 n).

(** *** Reordering rows *)

Definition reorder (perm : list nat) (df : DataFrame) : DataFrame :=
  {| index := map (fun i => nth i (index df) 0%nat) perm;
     columns := map (fun kc => (fst kc, take perm (snd kc))) (columns df) |}.

Section Library.

(** Parsers of the library that the source does not contain:
    what [pd.to_numeric(.., errors='coerce')] makes of a string, and what
    [pd.to_datetime(.., errors='coerce')] makes of a cell (nanoseconds
    since the epoch, [None] for NaT). *)
Variable parse_float : string -> float64.
Variable parse_datetime : cell -> option Z.

Definition to_numeric_cell (c : cell) : float64 :=
  match c with
  | Val x => x
  | Text s => parse_float s
  end.

(** [pd.to_numeric(series, errors='coerce')] *)
Definition to_numeric (c : column) : list float64 :=
  match c with
  | Numeric xs => xs
  | Object cs => map to_numeric_cell cs
  end.

(** [pd.to_datetime(series, errors='coerce')] *)
Definition to_datetime (c : column) : list (option Z) :=
  map parse_datetime (cells c).

End Library.

Definition nanoseconds_per_day : Z := 86400000000000.

(** [(now - timestamps).dt.days]: whole days, rounded down; NaN for NaT. *)
Definition days_since (now : Z) (ts : list (option Z)) : list float64 :=
  map (fun t => match t with
                | Some t => of_Z ((now - t) / nanoseconds_per_day)
                | None => NaN
                end) ts.

(** *** Selecting rows *)

(** The positions at which a boolean series holds [True]. *)
Definition where_true (mask : list bool) : list nat :=
  map fst (List.filter snd (enumerate mask)).

(** [df[mask]] for a boolean series on the index of [df] *)
Definition boolean_index (df : DataFrame) (mask : list bool) : DataFrame :=
  reorder (where_true mask) df.

(** [df.head(n)], that is [df.iloc[:n]] *)
Definition head (n : Z) (df : DataFrame) : DataFrame :=
  reorder (slice_to n (seq 0 (len df))) df.

(** [series.isin(values)] *)
Definition isin (values : list cell) (c : column) : list bool :=
  map (fun x => existsb (cell_eqb x) values) (cells c).

(** [series.map(d)] for a dictionary [d] with string keys and values: what
    is not a key becomes NaN. *)
Definition map_dict (d : list (string * string)) (c : column) : column :=
  Object (map (fun x =>
                 match x with
                 | Text s =>
                     match List.find (fun kv => String.eqb (fst kv) s) d with
                     | Some kv => Text (snd kv)
                     | None => Val NaN
                     end
                 | Val _ => Val NaN
                 end)
              (cells c)).

(** *** Frames from records, and [pd.concat] *)

(** [d.get(key)] on a dictionary kept in insertion order. *)
Fixpoint record_get (key : string) (record : list (string * string)) : option string :=
  match record with
  | [] => None
  | (k, v) :: rest => if String.eqb k key then Some v else record_get key rest
  end.

(** [d[key] = value]: a key already present keeps its place. *)
Fixpoint record_set (key value : string) (record : list (string * string))
  : list (string * string) :=
  match record with
  | [] => [(key, value)]
  | (k, v) :: rest =>
      if String.eqb k key then (k, value) :: rest else (k, v) :: record_set key value rest
  end.

(** The names in [names], then those of [more] not yet seen, in order. *)
Definition union_names (names more : list string) : list string :=
  fold_left (fun seen name =>
               if existsb (String.eqb name) seen then seen else (seen ++ [name])%list)
            more names.

(** [pd.DataFrame(data)] for a list of dictionaries with string values: one
    row per dictionary, the columns in the order in which the keys are first
    met, NaN where a dictionary lacks a key. *)
Definition from_records (data : list (list (string * string))) : DataFrame :=
  let names := fold_left (fun seen record => union_names seen (map fst record)) data [] in
  {| index := seq 0 (length data);
     columns :=
       map (fun name =>
              (name, Object (map (fun record =>
                                    match record_get name record with
                                    | Some v => Text v
                                    | None => Val NaN
                                    end) data)))
           names |}.

Definition is_numeric_or_absent (c : option column) : bool :=
  match c with
  | Some (Object _) => false
  | _ => true
  end.

(** [pd.concat(frames, ignore_index=True)]: the rows of the frames one after
    the other, under the union of their columns in order of appearance;
    a frame that lacks a column contributes NaN. *)
Definition pd_concat (frames : list DataFrame) : DataFrame :=
  let names := fold_left (fun seen df => union_names seen (column_names df)) frames [] in
  {| index := seq 0 (length (flat_map index frames));
     columns :=
       map (fun name =>
              (name,
               if forallb (fun df => is_numeric_or_absent (lookup_column name (columns df))) frames
               then Numeric (flat_map (fun df =>
                                         match lookup_column name (columns df) with
                                         | Some (Numeric xs) => xs
                                         | _ => repeat NaN (len df)
                                         end) frames)
               else Object (flat_map (fun df =>
                                        match lookup_column name (columns df) with
                                        | Some c => cells c
                                        | None => repeat (Val NaN) (len df)
                                        end) frames)))
           names |}.

End Pandas.

(* ===================================================================== *)
(** ** lead_scoring.py: class FMCALeadScorer *)
(* ===================================================================== *)

Module LeadScoring.
Import Pandas.

(** [self.scoring_weights] *)
Definition scoring_weights : list (string * Q) :=
  [ ("growth_potential", 0.25%Q);
    ("legitimacy", 0.20%Q);
    ("safety_compliance", 0.20%Q);
    ("contact_quality", 0.15%Q);
    ("specialization_value", 0.10%Q);
    ("company_recency", 0.10%Q) ].

(** [self.high_value_cargo] *)
Definition high_value_cargo : list (string * list string) :=
  [ ("hazardous_materials", ["hazmat"; "hazardous"; "chemical"; "explosive"; "radioactive"]);
    ("specialized", ["refrigerated"; "reefer"; "temperature_controlled"; "oversized"; "heavy_haul"]);
    ("valuable", ["household_goods"; "electronics"; "pharmaceutical"; "automotive"; "machinery"]);
    ("time_sensitive", ["perishable"; "fresh_produce"; "dairy"; "meat"; "bakery"]) ].

(** [self.safety_basics] *)
Definition safety_basics : list (string * Q) :=
  [ ("Unsafe Driving", 0.25%Q);
    ("Hours of Service Compliance", 0.20%Q);
    ("Vehicle Maintenance", 0.20%Q);
    ("Controlled Substances/Alcohol", 0.15%Q);
    ("Hazardous Materials Compliance", 0.10%Q);
    ("Driver Fitness", 0.10%Q) ].

(** [f"{basic.lower().replace(' ', '_')}_score" for basic in self.safety_basics.keys()] *)
Definition basic_score_columns : list string :=
  map (fun basic => Str.replace_char " " "_" (Str.lower (fst basic)) +:+ "_score") safety_basics.

(** [sms_df is None or 'dot_number' not in sms_df.columns] *)
Definition enrichment_absent (df : option DataFrame) : bool :=
  match df with
  | None => true
  | Some d => negb (has_column "dot_number" d)
  end.

(** The bins and labels handed to [pd.cut]. *)
Definition fleet_bins : list float64 := [Fin 0; Fin 1; Fin 5; Fin 10; Fin 20; Fin 50; PInf].
Definition fleet_labels : list Z := [0; 1; 2; 3; 4; 5]%Z.
Definition utilization_bins : list float64 := [Fin 0; Fin 1.5; Fin 2; PInf].
Definition utilization_labels : list Z := [0; 1; 2]%Z.
Definition inspection_bins : list float64 := [Fin 0; Fin 20; Fin 50; PInf].
Definition inspection_labels : list Q := [0; 0.5; 1]%Q.
Definition phone_bins : list float64 := [Fin 0; Fin 7; Fin 10; PInf].
Definition phone_labels : list Z := [0; 1; 2]%Z.
Definition recency_bins : list float64 := [Fin 0; Fin 30; Fin 90; Fin 365; Fin 730; PInf].
Definition recency_labels : list Q := [5; 4; 3; 2; 1]%Q.
Definition tier_bins : list float64 := [Fin 0; Fin 2; Fin 3.5; Fin 5; PInf].
Definition tier_labels : list string :=
  ["Low Priority"; "Medium Priority"; "High Priority"; "Top Tier"].

Definition address_fields : list string := ["phy_city"; "phy_state"; "phy_zip"].

(** [scores += matches.astype(int)] *)
Definition add_bools (scores : list float64) (matches : list bool) : list float64 :=
  add scores (bool_astype_int matches).

(** [scores += matches.astype(int) * k] *)
Definition add_matches (k : Q) (scores : list float64) (matches : list bool) : list float64 :=
  add scores (scale k (bool_astype_int matches)).

(** [scores -= matches.astype(int) * k] *)
Definition sub_matches (k : Q) (scores : list float64) (matches : list bool) : list float64 :=
  sub scores (scale k (bool_astype_int matches)).

(** [series >= k] *)
Definition ge_const (k : Q) (xs : list float64) : list bool := map (fun x => fge x (Fin k)) xs.
Definition lt_const (k : Q) (xs : list float64) : list bool := map (fun x => flt x (Fin k)) xs.

Section Scorer.

Variable parse_float : string -> float64.
Variable parse_datetime : cell -> option Z.
(** [str(x)] of a float, used by [astype(str)]. *)
Variable float_repr : float64 -> string.
(** [pd.Timestamp.now()], nanoseconds since the epoch. *)
Variable now : Z.
(** The row order [sort_values(.., ascending=False)] picks with its default
    [kind='quicksort'], given the values of the sort column. *)
Variable argsort_descending : list float64 -> list nat.

(** [df.get(key, '').str.lower().fillna('')] *)
Definition lower_text (df : DataFrame) (key : string) : result (list string) :=
  let* series := attr_of "str" "str" (get df key) in
  let* view := str series in
  Ok (str_fillna "" (str_map Str.lower view)).

(** [pd.to_numeric(df.get(key, 0), errors='coerce').fillna(d)] *)
Definition numeric_filled (df : DataFrame) (key : string) (d : Q) : result (list float64) :=
  let* series := attr_of "int" "fillna" (option_map (to_numeric parse_float) (get df key)) in
  Ok (fillna (Fin d) series).

(** [pd.to_numeric(df[key], errors='coerce').fillna(d)] *)
Definition numeric_item_filled (df : DataFrame) (key : string) (d : Q) : result (list float64) :=
  let* series := getitem df key in
  Ok (fillna (Fin d) (to_numeric parse_float series)).

(** Lines 97-99: the fleet-size bin. *)
Definition fleet_size_scores (census_df : DataFrame) : result (list float64) :=
  let* fleet_size := numeric_filled census_df "fleet_size" 0 in
  cat_astype_int (cut fleet_size fleet_bins fleet_labels true).

Definition _calculate_growth_score (census_df : DataFrame) (sms_df : option DataFrame)
  : result (list float64) :=
  let* fleet_scores := fleet_size_scores census_df in
  match sms_df with
  | None => Ok fleet_scores
  | Some sms =>
      if enrichment_absent sms_df then Ok fleet_scores else
      let* left := select census_df ["dot_number"] in
      let* right := select sms ["dot_number"; "power_units"; "drivers"; "vmt"] in
      let* merged := merge_left left right "dot_number" in
      let* power_units := numeric_item_filled merged "power_units" 0 in
      let* drivers := numeric_item_filled merged "drivers" 1 in
      let utilization_ratio := div power_units drivers in
      let* utilization_scores :=
        cat_astype_int (cut utilization_ratio utilization_bins utilization_labels true) in
      let* vmt := numeric_item_filled merged "vmt" 0 in
      let avg_vmt := div vmt (replace 0 1 power_units) in
      let vmt_scores := bool_astype_int (ge_const 50000 avg_vmt) in
      Ok (clip None (Some 5%Q) (add (add fleet_scores utilization_scores) vmt_scores))
  end.

(** Lines 128-133: the base score from the entity type. *)
Definition entity_base_scores (census_df : DataFrame) : result (list float64) :=
  let* entity_type := lower_text census_df "entity_type" in
  let* operation := lower_text census_df "carrier_operation" in
  let base_scores := full (len census_df) 3 in
  let base_scores :=
    add_bools base_scores
        (align_bool orb (str_contains "carrier" entity_type)
                        (str_contains "carrier" operation)) in
  let base_scores :=
    add_bools base_scores
        (align_bool orb (str_contains "broker" entity_type)
                        (str_contains "broker" operation)) in
  Ok base_scores.

Definition _calculate_legitimacy_score (census_df : DataFrame) (li_df : option DataFrame)
  : result (list float64) :=
  let* base_scores := entity_base_scores census_df in
  match li_df with
  | None => Ok (clip (Some 0%Q) (Some 5%Q) base_scores)
  | Some li =>
      if enrichment_absent li_df then Ok (clip (Some 0%Q) (Some 5%Q) base_scores) else
      let* left := select census_df ["dot_number"] in
      let* right := select li ["dot_number"; "authority_status"; "bond_status"; "bond_amount"] in
      let* merged := merge_left left right "dot_number" in
      let authority_scores := full (len merged) 0 in
      let* authority_status := lower_text merged "authority_status" in
      let authority_scores :=
        add_bools authority_scores (str_contains "active" authority_status) in
      let authority_scores :=
        sub_matches 2 authority_scores (str_contains "revoked|suspended" authority_status) in
      let bond_scores := full (len merged) 0 in
      let* bond_status := lower_text merged "bond_status" in
      let bond_scores := add_bools bond_scores (str_contains "active|valid" bond_status) in
      let* bond_amount := numeric_filled merged "bond_amount" 0 in
      let bond_scores := add_bools bond_scores (ge_const 75000 bond_amount) in
      Ok (clip (Some 0%Q) (Some 5%Q) (add (add base_scores authority_scores) bond_scores))
  end.

Definition _calculate_safety_score (census_df : DataFrame) (sms_df : option DataFrame)
  : result (list float64) :=
  let base_scores := full (len census_df) 3 in
  match sms_df with
  | None => Ok base_scores
  | Some sms =>
      if enrichment_absent sms_df then Ok base_scores else
      let* left := select census_df ["dot_number"] in
      let* right :=
        select sms (["dot_number"; "safety_rating"; "total_inspections"] ++ basic_score_columns) in
      let* merged := merge_left left right "dot_number" in
      let safety_scores := full (len merged) 0 in
      let* safety_rating := lower_text merged "safety_rating" in
      let safety_scores :=
        add_matches 2 safety_scores (str_contains "unsatisfactory" safety_rating) in
      let safety_scores :=
        add_bools safety_scores (str_contains "conditional" safety_rating) in
      let basic_columns := List.filter (Str.contains "_score") (column_names merged) in
      let* safety_scores :=
        match basic_columns with
        | [] => Ok safety_scores
        | _ =>
            let* basics := select merged basic_columns in
            let basic_scores :=
              fillna (Fin 0)
                     (mean_axis1 (len merged)
                                 (map (fun kc => to_numeric parse_float (snd kc)) (columns basics))) in
            let safety_scores := add_bools safety_scores (ge_const 3 basic_scores) in
            Ok (add_matches 0.5 safety_scores
                            (align_bool andb (ge_const 2 basic_scores) (lt_const 3 basic_scores)))
        end in
      let* inspections := numeric_filled merged "total_inspections" 0 in
      let inspection_scores :=
        cat_astype_float (cut inspections inspection_bins inspection_labels true) in
      Ok (clip None (Some 5%Q) (add (add base_scores safety_scores) inspection_scores))
  end.

(** [frame.astype(str)] *)
Definition astype_str (df : DataFrame) : DataFrame :=
  {| index := index df;
     columns :=
       map (fun kc =>
              (fst kc,
               Object (map (fun c => match c with
                                     | Val x => Text (float_repr x)
                                     | Text s => Text s
                                     end) (cells (snd kc)))))
           (columns df) |}.

(** [frame.notna()], column by column *)
Definition notna (df : DataFrame) : list (list bool) :=
  map (fun kc => map (fun c => negb (is_missing c)) (cells (snd kc))) (columns df).

(** Lines 197-209: the e-mail and phone part of the contact score. *)
Definition email_phone_scores (census_df : DataFrame) : result (list float64) :=
  let score := full (len census_df) 0 in
  let* email_series := attr_of "str" "str" (get census_df "email") in
  let* email_view := str email_series in
  let email := str_fillna "" (str_map Str.strip email_view) in
  let email_valid := map Str.re_search_email email in
  let score := add_matches 2 score email_valid in
  let score :=
    add_matches 0.5 score (align_bool andb email_valid (map (Str.endswith ".com") email)) in
  let* phone_series := attr_of "str" "str" (get census_df "phone") in
  let* phone_view := str phone_series in
  let phone_digits := str_fillna "" (str_map Str.re_sub_nondigits phone_view) in
  let* phone_scores := cat_astype_int (cut (str_len phone_digits) phone_bins phone_labels true) in
  Ok (add score phone_scores).

(** Line 213:
    [census_df[address_fields].notna() &
     (census_df[address_fields].astype(str).str.strip() != '')].
    The right operand asks a [DataFrame] for [.str]: that is a column
    lookup, and a [Series] found that way has no [strip]. *)
Definition address_complete (census_df : DataFrame) : result (list (list bool)) :=
  let* present := select census_df address_fields in
  let not_null := notna present in
  let* as_text := select census_df address_fields in
  let* str_column := getattr (astype_str as_text) "str" in
  Raise (AttributeError "'Series' object has no attribute 'strip'").

(** [bool_frame.sum(axis=1)] *)
Definition sum_axis1 (n : nat) (cols : list (list bool)) : list float64 :=
  map (fun i => of_nat (length (List.filter (fun c => nth i c false) cols))) (seq 0 n).

(** Lines 214-216. *)
Definition contact_total (n : nat) (score : list float64) (complete : list (list bool))
  : list float64 :=
  clip None (Some 5%Q) (add score (sum_axis1 n complete)).

Definition _calculate_contact_score (census_df : DataFrame) : result (list float64) :=
  let* score := email_phone_scores census_df in
  let* complete := address_complete census_df in
  Ok (contact_total (len census_df) score complete).

(** One turn of the loop over [self.high_value_cargo.items()]. *)
Definition cargo_step (cargo_carried : list string) (scores : list float64)
    (item : string * list string) : list float64 :=
  let category := fst item in
  let pattern := Str.join "|" (snd item) in
  let matches := str_contains pattern cargo_carried in
  if String.eqb category "hazardous_materials" then add_matches 2 scores matches
  else if String.eqb category "specialized" then add_matches 1.5 scores matches
  else if existsb (String.eqb category) ["valuable"; "time_sensitive"]
       then add_bools scores matches
  else scores.

Definition _calculate_specialization_score (census_df : DataFrame) : result (list float64) :=
  let* cargo_carried := lower_text census_df "cargo_carried" in
  let scores := full (len census_df) 1 in
  let scores := fold_left (cargo_step cargo_carried) high_value_cargo scores in
  let scores := add_matches 0.5 scores (str_contains "intermodal" cargo_carried) in
  let scores := add_matches 0.5 scores (str_contains "international" cargo_carried) in
  Ok (clip None (Some 5%Q) scores).

Definition _calculate_recency_score (census_df : DataFrame) : result (list float64) :=
  let* add_date :=
    match get census_df "add_date" with
    | Some series => Ok (to_datetime parse_datetime series)
    | None => Raise (TypeError "unsupported operand type(s) for -: 'Timestamp' and 'NoneType'")
    end in
  let days_since_registration := days_since now add_date in
  let scores :=
    cat_astype_float (cut days_since_registration recency_bins recency_labels true) in
  Ok (fillna (Fin 3) scores).

(** The dictionary of the six component series. *)
Definition _calculate_all_components (df : DataFrame) (sms_df li_df : option DataFrame)
  : result (list (string * list float64)) :=
  let* growth := _calculate_growth_score df sms_df in
  let* legitimacy := _calculate_legitimacy_score df li_df in
  let* safety := _calculate_safety_score df sms_df in
  let* contact := _calculate_contact_score df in
  let* specialization := _calculate_specialization_score df in
  let* recency := _calculate_recency_score df in
  Ok [ ("growth_potential", growth);
       ("legitimacy", legitimacy);
       ("safety_compliance", safety);
       ("contact_quality", contact);
       ("specialization_value", specialization);
       ("company_recency", recency) ].

Fixpoint lookup_component (key : string) (d : list (string * list float64))
  : result (list float64) :=
  match d with
  | [] => Raise (KeyError key)
  | (k, v) :: rest => if String.eqb k key then Ok v else lookup_component key rest
  end.

(** Lines 64-67: [sum(component_scores[c] * w for c, w in weights.items())].
    Python's [sum] starts from the int 0 ([None] below) and adds the terms
    from left to right. *)
Fixpoint weighted_sum (weights : list (string * Q))
    (component_scores : list (string * list float64)) (acc : option (list float64))
  : result (option (list float64)) :=
  match weights with
  | [] => Ok acc
  | (component, weight) :: rest =>
      let* series := lookup_component component component_scores in
      let term := scale weight series in
      weighted_sum rest component_scores
                   (Some (match acc with
                          | None => radd 0 term
                          | Some a => add a term
                          end))
  end.

Definition composite_score (component_scores : list (string * list float64))
  : result (option (list float64)) :=
  weighted_sum scoring_weights component_scores None.

(** [pd.cut(scored_df['composite_score'], bins=[0, 2, 3.5, 5, inf], labels=[..])] *)
Definition lead_tier (composite : float64) : option string :=
  cut_value tier_bins tier_labels false composite.

Definition tier_cell (t : option string) : cell :=
  match t with
  | Some label => Text label
  | None => Val NaN
  end.

(** [df.sort_values(by, ascending=False)] for a numeric column. *)
Definition sort_values_descending (df : DataFrame) (by_ : string) : result DataFrame :=
  let* key := getitem df by_ in
  match key with
  | Numeric xs => Ok (reorder (argsort_descending xs) df)
  | Object _ => Raise (TypeError "sort key is not numeric")
  end.

(** Lines 64-80 of [calculate_comprehensive_score]: what happens to the
    copy of the census table once the component series are known. *)
Definition score_and_rank (census_df : DataFrame)
    (component_scores : list (string * list float64)) : result DataFrame :=
  let scored_df := census_df in
  let* total := composite_score component_scores in
  let scored_df :=
    setitem scored_df "composite_score"
            (Numeric (match total with
                      | Some series => series
                      | None => full (len scored_df) 0
                      end)) in
  let* composite := getitem scored_df "composite_score" in
  match composite with
  | Object _ => Raise (TypeError "Input array must be 1 dimensional and numeric")
  | Numeric values =>
      let tiers := map tier_cell (map lead_tier values) in
      let scored_df := setitem scored_df "lead_tier" (Object tiers) in
      sort_values_descending scored_df "composite_score"
  end.

Definition calculate_comprehensive_score (census_df : DataFrame)
    (sms_df li_df : option DataFrame) : result DataFrame :=
  let scored_df := census_df in
  let* component_scores := _calculate_all_components scored_df sms_df li_df in
  score_and_rank scored_df component_scores.

End Scorer.

(** *** get_scoring_summary *)

Record summary : Type := mkSummary {
  total_leads : nat;
  tier_breakdown : list (string * nat);
  avg_composite_score : float64;
  top_tier_count : nat;
  high_growth_leads : nat;
  poor_safety_leads : nat
}.

(** The values of a column that arithmetic and comparison accept: a
    [str] among them is a [TypeError]. *)
Fixpoint numbers_of (cs : list cell) : result (list float64) :=
  match cs with
  | [] => Ok []
  | Text _ :: _ => Raise (TypeError "not supported between instances of 'str' and 'int'")
  | Val x :: cs' =>
      let* rest := numbers_of cs' in Ok (x :: rest)
  end.

Definition count_label (label : string) (cs : list cell) : nat :=
  length (List.filter (cell_eqb (Text label)) cs).

(** [len(df[df[key] >= k])] *)
Definition count_ge (df : DataFrame) (key : string) (k : Q) : result nat :=
  let* series := getitem df key in
  let* xs := numbers_of (cells series) in
  Ok (length (List.filter (fun x => fge x (Fin k)) xs)).

Definition get_scoring_summary (scored_df : DataFrame) : result summary :=
  let* tiers := getitem scored_df "lead_tier" in
  let breakdown := map (fun label => (label, count_label label (cells tiers))) tier_labels in
  let* composite := getitem scored_df "composite_score" in
  let* composite_values := numbers_of (cells composite) in
  let* tiers' := getitem scored_df "lead_tier" in
  let* high_growth := count_ge scored_df "growth_score" 4 in
  let* poor_safety := count_ge scored_df "safety_score" 4 in
  Ok {| total_leads := len scored_df;
        tier_breakdown := breakdown;
        avg_composite_score := mean_skipna composite_values;
        top_tier_count := count_label "Top Tier" (cells tiers');
        high_growth_leads := high_growth;
        poor_safety_leads := poor_safety |}.

(** *** get_top_leads (lines 264-276; [max_leads] defaults to 50) *)

Definition get_top_leads (scored_df : DataFrame) (max_leads : Z) : result DataFrame :=
  let* tiers := getitem scored_df "lead_tier" in
  let top_leads :=
    head max_leads
         (boolean_index scored_df (isin [Text "Top Tier"; Text "High Priority"] tiers)) in
  let* tiers' := getitem top_leads "lead_tier" in
  let priority :=
    map_dict [("Top Tier", "Immediate Outreach"); ("High Priority", "High Priority")] tiers' in
  Ok (setitem top_leads "priority" priority).

(** *** score_leads_template (lines 279-332) *)

Section Template.

Variable parse_float : string -> float64.
Variable parse_datetime : cell -> option Z.
Variable float_repr : float64 -> string.
Variable now : Z.
Variable argsort_descending : list float64 -> list nat.
(** The file system: [Path.mkdir(parents=True, exist_ok=True)],
    [Path.exists()], [pd.read_csv(path)] and [DataFrame.to_csv(path)]. *)
Variable mkdir : string -> result unit.
Variable path_exists : string -> bool.
Variable read_csv : string -> result DataFrame.
Variable to_csv : DataFrame -> string -> result unit.
(** [datetime.now().strftime('%Y%m%d_%H%M%S')] *)
Variable timestamp : string.

(** [pd.read_csv(path)] of an enrichment file that is named and exists. *)
Definition read_optional (path : option string) : result (option DataFrame) :=
  match path with
  | Some p => if path_exists p then let* df := read_csv p in Ok (Some df) else Ok None
  | None => Ok None
  end.

Definition score_leads_template (census_path : string) (sms_path li_path output_dir : option string)
  : result (DataFrame * summary) :=
  let output_dir := match output_dir with Some d => d | None => "data/processed" end in
  let* _ := mkdir output_dir in
  let* census_df := read_csv census_path in
  let* sms_df := read_optional sms_path in
  let* li_df := read_optional li_path in
  let* scored_leads :=
    calculate_comprehensive_score parse_float parse_datetime float_repr now argsort_descending
                                  census_df sms_df li_df in
  let* report := get_scoring_summary scored_leads in
  let* top_leads := get_top_leads scored_leads 50 in
  let leads_path := output_dir +:+ "/top_leads_" +:+ timestamp +:+ ".csv" in
  let* _ := to_csv top_leads leads_path in
  Ok (scored_leads, report).

End Template.

End LeadScoring.

(* ===================================================================== *)
(** ** parsers.py: FMCSACSVParser.parse_to_dataframe *)
(* ===================================================================== *)

Module Parsers.
Import Pandas.

(** [FILE_FORMATS["csv"]] of consts.py *)
Definition csv_encoding : string := "utf-8".
Definition csv_delimiter : string := ",".

Record FMCSACSVParser : Type := mkCSVParser {
  file_path : string;
  encoding : string;
  delimiter : string
}.

(** [FMCSACSVParser(file_path, delimiter=",")] *)
Definition new_parser (path : string) : FMCSACSVParser :=
  {| file_path := path; encoding := csv_encoding; delimiter := csv_delimiter |}.

(** [df.columns.str.strip().str.lower().str.replace(' ', '_')] *)
Definition clean_column_name (name : string) : string :=
  Str.replace_char " " "_" (Str.lower (Str.strip name)).

Definition clean_columns (df : DataFrame) : DataFrame :=
  {| index := index df;
     columns := map (fun kc => (clean_column_name (fst kc), snd kc)) (columns df) |}.

(** [except Exception as e: logger.error(..); raise] *)
Definition log_and_reraise {A : Type} (r : result A) : result A :=
  match r with
  | Ok a => Ok a
  | Raise e => Raise e
  end.

Section Parse.

(** The file system and the two library calls:
    [open(path, 'r', encoding=..)] followed by [read()],
    [csv.Sniffer().sniff(sample).delimiter], which raises [csv.Error] when
    it cannot tell the delimiter, and [pd.read_csv(path, delimiter=..,
    encoding=.., dtype=str)]. *)
Variable read_file : string -> string -> result string.
Variable sniff_delimiter : string -> result string.
Variable read_csv : string -> string -> string -> result DataFrame.

Definition parse_to_dataframe (self : FMCSACSVParser) : result DataFrame :=
  log_and_reraise
    (let* content := read_file (file_path self) (encoding self) in
     let sample := String.substring 0 1024 content in
     let* detected_delimiter := sniff_delimiter sample in
     let delimiter_ :=
       if negb (String.eqb detected_delimiter EmptyString)
       then detected_delimiter else delimiter self in
     let* df := read_csv (file_path self) delimiter_ (encoding self) in
     Ok (clean_columns df)).

End Parse.

(** *** FMCSAFixedWidthParser (lines 118-190) *)

Record FMCSAFixedWidthParser : Type := mkFixedWidthParser {
  fw_file_path : string;
  fw_encoding : string;
  (** [(field_name, start_pos, length)] *)
  field_specs : list (string * Z * Z)
}.

(** Lines 184-186: the value of one field of a line. *)
Definition field_value (line : string) (start_pos length : Z) : string :=
  let end_pos := Z.min (start_pos + length) (Z.of_nat (String.length line)) in
  if (start_pos <? Z.of_nat (String.length line))%Z
  then Str.strip (Str.slice line start_pos end_pos)
  else EmptyString.

(** Lines 182-187: the dictionary of one line. *)
Definition parse_line (specs : list (string * Z * Z)) (line : string) : list (string * string) :=
  fold_left (fun row spec =>
               let '(field_name, start_pos, length) := spec in
               record_set field_name (field_value line start_pos length) row)
            specs [].

(** Lines 176-188: the list [data]; lines of length 0 are skipped. *)
Definition parse_lines (specs : list (string * Z * Z)) (lines : list string)
  : list (list (string * string)) :=
  map (parse_line specs)
      (List.filter (fun line => negb (String.length line =? 0)%nat) lines).

Definition _parse_chunk (self : FMCSAFixedWidthParser) (lines : list string) : DataFrame :=
  from_records (parse_lines (field_specs self) lines).

(** Lines 146-154: the loop over the lines of the file, with the chunk being
    filled and the chunks parsed so far. *)
Fixpoint read_chunks (self : FMCSAFixedWidthParser) (chunk_size : Z) (lines : list string)
    (chunk_lines : list string) (chunks : list DataFrame) : list DataFrame * list string :=
  match lines with
  | [] => (chunks, chunk_lines)
  | line :: rest =>
      let chunk_lines := (chunk_lines ++ [Str.rstrip_chars (String "010" (String "013" EmptyString)) line])%list in
      if (chunk_size <=? Z.of_nat (length chunk_lines))%Z
      then read_chunks self chunk_size rest [] (chunks ++ [_parse_chunk self chunk_lines])%list
      else read_chunks self chunk_size rest chunk_lines chunks
  end.

Section FixedWidth.

(** [open(path, 'r', encoding=..)] and the lines the file object yields, each
    with its line end. *)
Variable read_lines : string -> string -> result (list string).

Definition parse_fixed_width (self : FMCSAFixedWidthParser) (chunk_size : Z)
  : result DataFrame :=
  log_and_reraise
    (let* lines := read_lines (fw_file_path self) (fw_encoding self) in
     let '(chunks, chunk_lines) := read_chunks self chunk_size lines [] [] in
     let chunks :=
       match chunk_lines with
       | [] => chunks
       | _ => (chunks ++ [_parse_chunk self chunk_lines])%list
       end in
     match chunks with
     | [] => Ok {| index := []; columns := [] |}
     | _ => Ok (pd_concat chunks)
     end).

End FixedWidth.

(** *** FMCSADataParser.validate_data (lines 34-78) *)

Record rules : Type := mkRules {
  pattern : option Str.regex;
  max_length : option nat;
  required : bool
}.

(** [VALIDATION_RULES] of consts.py *)
Definition VALIDATION_RULES : list (string * rules) :=
  [ ("dot_number",
     {| pattern := Some (Str.DigitRun 1 8); max_length := None; required := true |});
    ("carrier_name",
     {| pattern := None; max_length := Some 255%nat; required := true |});
    ("state",
     {| pattern := Some (Str.UpperRun 2); max_length := None; required := false |}) ].

Record validation : Type := mkValidation {
  total_rows : nat;
  errors : list string;
  warnings : list string
}.

Section Validation.

(** [str(x)] of a float, used by [astype(str)]. *)
Variable float_repr : float64 -> string.

(** [series.astype(str)] *)
Definition series_astype_str (series : column) : list string :=
  map (fun c => match c with
                | Val x => float_repr x
                | Text s => s
                end) (cells series).

(** [mask.sum()] *)
Definition count {A : Type} (p : A -> bool) (xs : list A) : nat := length (List.filter p xs).

Definition _validate_field (name : string) (series : column) (r : rules)
  : list string * list string :=
  let errors := [] in
  let warnings := [] in
  let errors :=
    match pattern r with
    | Some p =>
        let invalid_count :=
          count (fun s => negb (Str.re_match p s)) (series_astype_str series) in
        if (0 <? invalid_count)%nat
        then (errors ++ [Str.of_nat invalid_count +:+ " values don't match pattern for " +:+ name])%list
        else errors
    | None => errors
    end in
  let errors :=
    match max_length r with
    | Some n =>
        let too_long := count (fun s => (n <? String.length s)%nat) (series_astype_str series) in
        if (0 <? too_long)%nat
        then (errors ++ [Str.of_nat too_long +:+ " values exceed max length for " +:+ name])%list
        else errors
    | None => errors
    end in
  let errors :=
    if required r then
      let null_count := count is_missing (cells series) in
      if (0 <? null_count)%nat
      then (errors ++ [Str.of_nat null_count +:+ " null values in required field " +:+ name])%list
      else errors
    else errors in
  (errors, warnings).

Definition validate_data (df : DataFrame) : validation :=
  fold_left
    (fun validation_results item =>
       let '(field, r) := item in
       if required r && negb (has_column field df)
       then {| total_rows := total_rows validation_results;
               errors := (errors validation_results ++ ["Required field missing: " +:+ field])%list;
               warnings := warnings validation_results |}
       else match lookup_column field (columns df) with
            | Some series =>
                let validation_result := _validate_field field series r in
                {| total_rows := total_rows validation_results;
                   errors := (errors validation_results ++ fst validation_result)%list;
                   warnings := (warnings validation_results ++ snd validation_result)%list |}
            | None => validation_results
            end)
    VALIDATION_RULES
    {| total_rows := len df; errors := []; warnings := [] |}.

End Validation.

(** *** FMCSACensusParser: the row filters (lines 233-267) *)

(** [series.str.contains('broker', case=False, na=False)] *)
Definition contains_broker (view : list (option string)) : list bool :=
  map (fun o => match o with
                | Some s => Str.contains "broker" (Str.lower s)
                | None => false
                end) view.

(** [series.str.upper() == code.upper()]: a missing value equals nothing. *)
Definition equals_upper (code : string) (view : list (option string)) : list bool :=
  map (fun o => match o with
                | Some s => String.eqb s (Str.upper code)
                | None => false
                end) (str_map Str.upper view).

(** [series.str.upper().isin([s.upper() for s in states])] *)
Definition upper_isin (states : list string) (view : list (option string)) : list bool :=
  map (fun o => match o with
                | Some s => existsb (String.eqb s) (map Str.upper states)
                | None => false
                end) (str_map Str.upper view).

Section Census.

Variable read_file : string -> string -> result string.
Variable sniff_delimiter : string -> result string.
Variable read_csv : string -> string -> string -> result DataFrame.
(** What [pd.to_numeric(.., errors='coerce')] makes of a string. *)
Variable parse_float : string -> float64.

Definition filter_by_state (self : FMCSACSVParser) (state_code : string) : result DataFrame :=
  let* df := parse_to_dataframe read_file sniff_delimiter read_csv self in
  let* series := getitem df "phy_state" in
  let* view := str series in
  Ok (boolean_index df (equals_upper state_code view)).

Definition filter_brokers (self : FMCSACSVParser) : result DataFrame :=
  let* df := parse_to_dataframe read_file sniff_delimiter read_csv self in
  let* series := getitem df "carrier_operation" in
  let* view := str series in
  Ok (boolean_index df (contains_broker view)).

Definition filter_by_fleet_size (self : FMCSACSVParser) (min_size : Z) (max_size : option Z)
  : result DataFrame :=
  let* df := parse_to_dataframe read_file sniff_delimiter read_csv self in
  let* fleet_size :=
    attr_of "int" "fillna" (option_map (to_numeric parse_float) (get df "fleet_size")) in
  let fleet_size := fillna (Fin 0) fleet_size in
  let df := setitem df "fleet_size" (Numeric fleet_size) in
  let* column := getitem df "fleet_size" in
  let values := to_numeric parse_float column in
  let mask := map (fun x => fge x (of_Z min_size)) values in
  let mask :=
    match max_size with
    | Some m =>
        if negb (m =? 0)%Z
        then align_bool andb mask (map (fun x => fle x (of_Z m)) values)
        else mask
    | None => mask
    end in
  Ok (boolean_index df mask).

Definition filter_by_region (self : FMCSACSVParser) (states : list string) : result DataFrame :=
  let* df := parse_to_dataframe read_file sniff_delimiter read_csv self in
  let* series := getitem df "phy_state" in
  let* view := str series in
  Ok (boolean_index df (upper_isin states view)).

Definition filter_carriers (self : FMCSACSVParser) : result DataFrame :=
  let* df := parse_to_dataframe read_file sniff_delimiter read_csv self in
  let* operation := getitem df "carrier_operation" in
  let* operation_view := str operation in
  let* entity := getitem df "entity_type" in
  let* entity_view := str entity in
  let broker_mask :=
    align_bool orb (contains_broker operation_view) (contains_broker entity_view) in
  Ok (boolean_index df (map negb broker_mask)).

End Census.

(** *** FMCSAInspectionParser.parse_food_safety_violations (lines 196-218) *)

(** [FSMA_CONFIG["violation_codes"]], [FSMA_CONFIG["food_safety_keywords"]]
    of consts.py *)
Definition violation_codes : list string := ["390.3"].
Definition food_safety_keywords : list string :=
  ["food"; "perishable"; "refrigerated"; "temperature"; "sanitary"; "contamination"; "pest"].

(** [series.str.contains(pattern, case=False, na=False)] *)
Definition contains_ignore_case (pattern : string) (view : list (option string)) : list bool :=
  map (fun o => match o with
                | Some s => Str.re_search_dots pattern s
                | None => false
                end) view.

Section Inspection.

Variable read_file : string -> string -> result string.
Variable sniff_delimiter : string -> result string.
Variable read_csv : string -> string -> string -> result DataFrame.

Definition parse_food_safety_violations (self : FMCSACSVParser) : result DataFrame :=
  let* df := parse_to_dataframe read_file sniff_delimiter read_csv self in
  let* codes := getitem df "violation_code" in
  let* codes_view := str codes in
  let food_safety_mask := contains_ignore_case (Str.join "|" violation_codes) codes_view in
  let* descriptions := getitem df "violation_description" in
  let* descriptions_view := str descriptions in
  let desc_mask :=
    contains_ignore_case (Str.join "|" food_safety_keywords) descriptions_view in
  let fsma_df := boolean_index df (align_bool orb food_safety_mask desc_mask) in
  Ok fsma_df.

End Inspection.

(** *** FMCSACensusParser.get_lead_scoring_data (lines 330-371) *)

Definition lead_columns : list string :=
  ["dot_number"; "legal_name"; "dba_name"; "phy_city"; "phy_state"; "phy_zip";
   "fleet_size"; "carrier_operation"; "entity_type"; "add_date";
   "email"; "phone"; "contact_name"].

(** The bins and labels of line 349; [pd.cut] is called without
    [include_lowest]. *)
Definition lead_fleet_bins : list float64 := [Fin 0; Fin 1; Fin 5; Fin 20; Fin 100; PInf].
Definition lead_fleet_labels : list Q := [1; 2; 3; 4; 5]%Q.

(** A datetime column, kept as nanoseconds with NaN for NaT. *)
Definition datetime_column (ts : list (option Z)) : column :=
  Numeric (map (fun t => match t with Some z => of_Z z | None => NaN end) ts).

(** [series.max()] of a datetime column: NaT when every entry is NaT. *)
Definition max_timestamp (ts : list (option Z)) : option Z :=
  fold_left (fun acc t =>
               match acc, t with
               | Some a, Some b => Some (Z.max a b)
               | None, _ => t
               | _, None => acc
               end) ts None.

(** Lines 358-360, for one row:
    [max(0, 5 - (max_date - add_date).days / 365.25)]; Python's [max]
    keeps its first argument unless the second is greater, so NaN gives 0. *)
Definition recency_years (max_date t : option Z) : float64 :=
  let days := match max_date, t with
              | Some m, Some z => of_Z ((m - z) / nanoseconds_per_day)
              | _, _ => NaN
              end in
  let x := fdiv days (Fin 365.25) in
  let y := fsub (Fin 5) x in
  if flt (Fin 0) y then y else Fin 0.

Section LeadData.

Variable read_file : string -> string -> result string.
Variable sniff_delimiter : string -> result string.
Variable read_csv : string -> string -> string -> result DataFrame.
Variable parse_float : string -> float64.
Variable parse_datetime : cell -> option Z.
(** The row order [sort_values(.., ascending=False)] picks. *)
Variable argsort_descending : list float64 -> list nat.

(** Lines 346-352. *)
Definition add_fleet_size_score (leads_df : DataFrame) : result DataFrame :=
  if has_column "fleet_size" leads_df then
    let* fleet_size := getitem leads_df "fleet_size" in
    let sizes := fillna (Fin 0) (to_numeric parse_float fleet_size) in
    Ok (setitem leads_df "fleet_size_score"
          (Numeric (cat_astype_float (cut sizes lead_fleet_bins lead_fleet_labels false))))
  else Ok leads_df.

(** Lines 354-363. With [errors='coerce'] nothing in the [try] block raises,
    so the handler of line 362 is never entered. *)
Definition add_recency_score (leads_df : DataFrame) : result DataFrame :=
  if has_column "add_date" leads_df then
    let* dates := getitem leads_df "add_date" in
    let add_date := to_datetime parse_datetime dates in
    let leads_df := setitem leads_df "add_date" (datetime_column add_date) in
    let max_date := max_timestamp add_date in
    Ok (setitem leads_df "recency_score" (Numeric (map (recency_years max_date) add_date)))
  else Ok leads_df.

(** Lines 365-369. *)
Definition add_lead_score (leads_df : DataFrame) : result DataFrame :=
  let score_columns :=
    List.filter (fun col => has_column col leads_df) ["fleet_size_score"; "recency_score"] in
  match score_columns with
  | [] => Ok leads_df
  | _ =>
      let* scores := select leads_df score_columns in
      let lead_score :=
        mean_axis1 (len leads_df) (map (fun kc => to_numeric parse_float (snd kc)) (columns scores)) in
      let leads_df := setitem leads_df "lead_score" (Numeric lead_score) in
      LeadScoring.sort_values_descending argsort_descending leads_df "lead_score"
  end.

Definition get_lead_scoring_data (self : FMCSACSVParser) : result DataFrame :=
  let* df := parse_to_dataframe read_file sniff_delimiter read_csv self in
  let available_columns := List.filter (fun col => has_column col df) lead_columns in
  let* leads_df := select df available_columns in
  let* leads_df := add_fleet_size_score leads_df in
  let* leads_df := add_recency_score leads_df in
  add_lead_score leads_df.

End LeadData.

(** *** FMCSASMSParser.get_safety_ratings (lines 408-419) *)

(** ['basic' in col.lower() or 'score' in col.lower()] *)
Definition is_basic_column (col : string) : bool :=
  Str.contains "basic" (Str.lower col) || Str.contains "score" (Str.lower col).

Section SMS.

Variable read_file : string -> string -> result string.
Variable sniff_delimiter : string -> result string.
Variable read_csv : string -> string -> string -> result DataFrame.

(** The warning of the [else] branch goes to the log only. *)
Definition get_safety_ratings (self : FMCSACSVParser) : result DataFrame :=
  let* df := parse_to_dataframe read_file sniff_delimiter read_csv self in
  let basic_columns := List.filter is_basic_column (column_names df) in
  match basic_columns with
  | [] => Ok df
  | _ => select df (["dot_number"; "carrier_name"] ++ basic_columns)%list
  end.

End SMS.

End Parsers.

(* ===================================================================== *)
(** ** app.py: ArbitrageDetector *)
(* ===================================================================== *)

Module Arbitrage.

Record MarketData : Type := mkMarketData {
  ticker : string;
  title : string;
  category : string;
  tags : list string;
  yes_bid : Q;
  yes_ask : Q;
  no_bid : Q;
  no_ask : Q;
  volume : Z;
  volume_24h : Z;
  open_interest : Z;
  last_price : Q
}.

Record ArbitrageOpportunity : Type := mkOpportunity {
  description : string;
  markets : list MarketData;
  potential_profit : Q;
  risk_level : string;
  confidence_score : Q
}.

(** [set(xs)] *)
Definition set_of (xs : list string) : gset string := list_to_set xs.

(** [len(s)] of a set, as a number *)
Definition set_len (s : gset string) : Q := inject_Z (Z.of_nat (size s)).

(** Python's [min(a, b)]: the first argument unless the second is smaller. *)
Definition py_min (a b : Q) : Q := if Qle_bool a b then a else b.

(** [m.ticker.split('-')[0] if '-' in m.ticker else m.category] *)
Definition series_of (m : MarketData) : string :=
  if Str.contains_char "-" (ticker m)
  then hd EmptyString (Str.split_on "-" (ticker m))
  else category m.

(** [set(m.title.lower().split())] *)
Definition title_words (m : MarketData) : gset string :=
  set_of (Str.split_ws (Str.lower (title m))).

Definition _calculate_correlation_score (m1 m2 : MarketData) : Q :=
  let score := 0%Q in
  let tag_overlap := set_len (set_of (tags m1) ∩ set_of (tags m2)) in
  let total_tags := set_len (set_of (tags m1) ∪ set_of (tags m2)) in
  let score :=
    if negb (Qeq_bool total_tags 0) then (score + (tag_overlap / total_tags) * 0.3)%Q
    else score in
  let title_words1 := title_words m1 in
  let title_words2 := title_words m2 in
  let title_overlap := set_len (title_words1 ∩ title_words2) in
  let title_union := set_len (title_words1 ∪ title_words2) in
  let score :=
    if negb (Qeq_bool title_union 0) then (score + (title_overlap / title_union) * 0.4)%Q
    else score in
  let score := if String.eqb (category m1) (category m2) then (score + 0.2)%Q else score in
  let series1 := series_of m1 in
  let series2 := series_of m2 in
  let score := if String.eqb series1 series2 then (score + 0.1)%Q else score in
  py_min score 1.0%Q.

(** The risk tier read off the average 24h volume. *)
Definition risk_of (avg_volume : Q) : string :=
  if Qlt_le_dec 10000 avg_volume then "Low"
  else if Qlt_le_dec 1000 avg_volume then "Medium"
  else "High".

(** The body of the loop of [detect_arbitrage_opportunities]: the
    opportunity a pair gives rise to, if any. *)
Definition opportunity_of (pair : MarketData * MarketData * Q) : option ArbitrageOpportunity :=
  let '(m1, m2, correlation_score) := pair in
  let price1 := last_price m1 in
  let price2 := last_price m2 in
  if Qlt_le_dec (price1 + price2) 0.95 then
    let profit := ((1 - (price1 + price2)) * 100)%Q in
    let avg_volume := (inject_Z (volume_24h m1 + volume_24h m2) / 2)%Q in
    let risk := risk_of avg_volume in
    Some {| description :=
              "Arbitrage between '" +:+ title m1 +:+ "' and '" +:+ title m2 +:+ "'";
            markets := [m1; m2];
            potential_profit := profit;
            risk_level := risk;
            confidence_score := py_min correlation_score 0.9%Q |}
  else None.

(** [sorted(xs, key=key, reverse=True)]: Python's sort is stable, also when
    reversed, so the result is the one of a stable insertion sort. *)
Fixpoint insert_descending {A : Type} (key : A -> Q) (x : A) (sorted : list A) : list A :=
  match sorted with
  | [] => [x]
  | y :: rest =>
      if Qle_bool (key y) (key x) then x :: y :: rest
      else y :: insert_descending key x rest
  end.

Definition sorted_descending {A : Type} (key : A -> Q) (xs : list A) : list A :=
  fold_right (insert_descending key) [] xs.

Definition detect_arbitrage_opportunities (correlated_pairs : list (MarketData * MarketData * Q))
  : list ArbitrageOpportunity :=
  let opportunities := omap opportunity_of correlated_pairs in
  sorted_descending potential_profit opportunities.

(** *** The correlation score in the words of the specification *)

(** Jaccard similarity of two sets, 0 when their union is empty. *)
Definition jaccard (a b : gset string) : Q :=
  if decide (size (a ∪ b) = 0%nat) then 0%Q
  else (inject_Z (Z.of_nat (size (a ∩ b))) / inject_Z (Z.of_nat (size (a ∪ b))))%Q.

Definition indicator (b : bool) (w : Q) : Q := if b then w else 0%Q.

Definition capped (x : Q) : Q := if Qle_bool x 1 then x else 1%Q.

Definition inferred_series (m : MarketData) : string :=
  match Str.split_on "-" (ticker m) with
  | prefix :: _ :: _ => prefix
  | _ => category m
  end.

Definition correlation_spec (m1 m2 : MarketData) : Q :=
  capped (0.3 * jaccard (set_of (tags m1)) (set_of (tags m2))
          + 0.4 * jaccard (title_words m1) (title_words m2)
          + indicator (bool_decide (category m1 = category m2)) 0.2
          + indicator (bool_decide (inferred_series m1 = inferred_series m2)) 0.1)%Q.

(** *** find_correlated_markets (lines 56-79) and find_opportunities (lines 115-120) *)

(** Line 64, the test of the comprehension:
    [any(tag.lower() in ' '.join(m.tags + [m.title, m.category]).lower() for tag in tags)] *)
Definition mentions_any (tags' : list string) (m : MarketData) : bool :=
  existsb (fun tag =>
             Str.contains (Str.lower tag)
               (Str.lower (Str.join " " (tags m ++ [title m; category m])%list)))
          tags'.

(** Line 69: [series_groups.setdefault(series, []).append(market)], the
    dictionary kept as an association list in insertion order. *)
Fixpoint group_append (series : string) (market : MarketData)
  (series_groups : list (string * list MarketData)) : list (string * list MarketData) :=
  match series_groups with
  | [] => [(series, [market])]
  | (key, members) :: rest =>
      if String.eqb key series then (key, (members ++ [market])%list) :: rest
      else (key, members) :: group_append series market rest
  end.

(** Lines 66-69. *)
Definition group_by_series (markets : list MarketData) : list (string * list MarketData) :=
  fold_left (fun series_groups market => group_append (series_of market) market series_groups)
            markets [].

(** Lines 74-77: each market with the markets after it in its group. *)
Fixpoint scored_pairs (min_correlation_threshold : Q) (series_markets : list MarketData)
  : list (MarketData * MarketData * Q) :=
  match series_markets with
  | [] => []
  | m1 :: later =>
      (omap (fun m2 =>
              let score := _calculate_correlation_score m1 m2 in
              if Qle_bool min_correlation_threshold score then Some (m1, m2, score) else None)
           later
      ++ scored_pairs min_correlation_threshold later)%list
  end.

(** Lines 63-79. [markets] is the list built on lines 57-61 from the answer
    of the market API; [tags'] is [None] for the default [tags=None]. *)
Definition find_correlated_markets (markets : list MarketData) (tags' : option (list string))
  (min_correlation_threshold : Q) : list (MarketData * MarketData * Q) :=
  let markets :=
    match tags' with
    | Some (tag :: more) => List.filter (mentions_any (tag :: more)) markets
    | _ => markets
    end in
  let series_groups := group_by_series markets in
  flat_map (fun group =>
              let series_markets := snd group in
              if (length series_markets <? 2)%nat then []
              else scored_pairs min_correlation_threshold series_markets)
           series_groups.


Section Finder.

(** The two remote services: the series and market end points of the
    exchange (the latter with the records of lines 58-61 built from its
    answer) and the tag generator. Each may raise. *)
Variable get_series : result unit.
Variable get_markets : result (list MarketData).
Variable generate_arbitrage_tags : string -> Z -> result (list string).


End Finder.

End Arbitrage.

(* ===================================================================== *)
(** * Vocabulary of the properties, and sample data *)
(* ===================================================================== *)

Import Pandas LeadScoring Parsers Arbitrage.

(** Descending order of the keys of a list. *)
Definition descending {A : Type} (key : A -> Q) (xs : list A) : Prop :=
  StronglySorted (fun x y => (key y <= key x)%Q) xs.

(** The average 24h volume of a pair. *)
Definition avg_volume_24h (m1 m2 : MarketData) : Q :=
  (inject_Z (volume_24h m1 + volume_24h m2) / 2)%Q.

Definition market_a : MarketData :=
  {| ticker := "PRES-2024-DEM"; title := "Will Democrats win"; category := "Politics";
     tags := ["election"; "2024"];
     yes_bid := 0.39; yes_ask := 0.41; no_bid := 0.58; no_ask := 0.61;
     volume := 90000; volume_24h := 20000; open_interest := 500; last_price := 0.40 |}.

Definition market_b : MarketData :=
  {| ticker := "PRES-2024-REP"; title := "Will Republicans win"; category := "Politics";
     tags := ["election"; "gop"];
     yes_bid := 0.44; yes_ask := 0.46; no_bid := 0.53; no_ask := 0.56;
     volume := 70000; volume_24h := 4000; open_interest := 300; last_price := 0.45 |}.

(** A one-column file, and library calls that behave on it as Python's do:
    the sniffer finds no delimiter in it, while [pd.read_csv] with the default
    comma reads it as one column. *)
Definition one_column_file : string := "a
b
c
".

Definition one_column_frame : Pandas.DataFrame :=
  {| Pandas.index := [0; 1]%nat;
     Pandas.columns := [("a", Pandas.Object [Pandas.Text "b"; Pandas.Text "c"])] |}.

Definition fs_one_file (path enc : string) : result string :=
  if String.eqb path "census.csv" then Ok one_column_file
  else Raise (OSError "No such file or directory").

Definition sniff_fails_without_delimiter (sample : string) : result string :=
  if existsb (fun c => Str.contains_char c sample) ["," ; ";" ; "|" ; ":"]%char
  then Ok "," else Raise (CsvError "Could not determine delimiter").

Definition read_csv_one_file (path delim enc : string) : result Pandas.DataFrame :=
  if String.eqb path "census.csv" then Ok one_column_frame
  else Raise (OSError "No such file or directory").

(** The dictionary [_calculate_all_components] builds from six series. *)
Definition six_components (growth legitimacy safety contact specialization recency : list float64)
  : list (string * list float64) :=
  [ ("growth_potential", growth);
    ("legitimacy", legitimacy);
    ("safety_compliance", safety);
    ("contact_quality", contact);
    ("specialization_value", specialization);
    ("company_recency", recency) ].

(** The cell of column [key] in the row at position [p]. *)
Definition column_at (df : DataFrame) (key : string) (p : nat) : option cell :=
  match lookup_column key (columns df) with
  | Some c => nth_error (cells c) p
  | None => None
  end.

(** The frame has the index [0, 1, .., n-1]. *)
Definition default_index (df : DataFrame) : Prop := index df = seq 0 (len df).

(** [a] may stand before [b] in descending order with NaN last. *)
Definition precedes (a b : float64) : bool := isna b || fle b a.

(** What [sort_values(.., ascending=False)] promises of the order it picks,
    whatever the sorting algorithm: it is a permutation of the positions, and
    the values read in that order descend, NaN last. *)
Definition sorts_descending (argsort : list float64 -> list nat) : Prop :=
  forall xs,
    Permutation (argsort xs) (seq 0 (length xs)) /\
    StronglySorted (fun a b => precedes a b = true) (map (fun i => nth i xs NaN) (argsort xs)).

(** The composite column of the scored frame, before ranking. *)
Definition composite_values (census_df : DataFrame) (total : option (list float64)) : list float64 :=
  reindex NaN (len census_df)
          (match total with
           | Some series => series
           | None => full (len census_df) 0
           end).

Definition scored_frame (census_df : DataFrame) (total : option (list float64)) : DataFrame :=
  setitem (setitem census_df "composite_score" (Numeric (composite_values census_df total)))
          "lead_tier"
          (Object (map tier_cell (map lead_tier (composite_values census_df total)))).

(** The weighted formula on one row. *)
Definition weighted_formula (g l s c sp r : Q) : Q :=
  (0.25 * g + 0.20 * l + 0.20 * s + 0.15 * c + 0.10 * sp + 0.10 * r)%Q.

(** Insertion of row [i] into rows already in order. The stable variant puts
    [i] before the first row it may precede; the other one only before the
    first row that may not precede it, so that it ends up behind its ties. *)
Fixpoint insert_row (behind_ties : bool) (xs : list float64) (i : nat) (rows : list nat)
  : list nat :=
  match rows with
  | [] => [i]
  | j :: rest =>
      let a := nth i xs NaN in
      let b := nth j xs NaN in
      if (if behind_ties then negb (precedes b a) else precedes a b)
      then i :: j :: rest
      else j :: insert_row behind_ties xs i rest
  end.

Definition insertion_argsort (behind_ties : bool) (xs : list float64) : list nat :=
  fold_right (insert_row behind_ties xs) [] (seq 0 (length xs)).

Definition stable_argsort : list float64 -> list nat := insertion_argsort false.


(** Rows in order, told on the positions. *)
Definition rows_in_order (xs : list float64) (rows : list nat) : Prop :=
  StronglySorted (fun i j => precedes (nth i xs NaN) (nth j xs NaN) = true) rows.

(** Stand-ins for the library parsers on the sample data: unsigned decimal
    numerals, and time stamps given as numbers of nanoseconds. *)
Fixpoint parse_digits (s : string) (acc : Z) : option Z :=
  match s with
  | EmptyString => Some acc
  | String c s' =>
      if Str.is_digit c
      then parse_digits s' (10 * acc + Z.of_nat (Str.code c - 48))%Z
      else None
  end.

Definition sample_parse_float (s : string) : float64 :=
  match s with
  | EmptyString => NaN
  | _ => match parse_digits s 0 with
         | Some z => of_Z z
         | None => NaN
         end
  end.

Definition sample_parse_datetime (c : cell) : option Z :=
  match c with
  | Val (Fin q) => Some (Qfloor q)
  | _ => None
  end.

Definition sample_float_repr (x : float64) : string := "nan".

Definition sample_now : Z := (400 * nanoseconds_per_day)%Z.

(** Three carriers with fleet sizes 0, 15 and 60. *)
Definition sample_census : DataFrame :=
  {| index := [0; 1; 2]%nat;
     columns :=
       [ ("dot_number", Numeric [Fin 101; Fin 102; Fin 103]);
         ("fleet_size", Numeric [Fin 0; Fin 15; Fin 60]);
         ("entity_type", Object [Text "CARRIER"; Text "Broker"; Val NaN]);
         ("carrier_operation", Object [Text "Interstate carrier"; Val NaN; Text "intrastate"]);
         ("email", Object [Text " ops@acme.com "; Text "hello@fleet.org"; Val NaN]);
         ("phone", Object [Text "(555) 123-4567"; Text "555-1234"; Val NaN]);
         ("phy_city", Object [Text "Austin"; Text "Reno"; Val NaN]);
         ("phy_state", Object [Text "TX"; Text "NV"; Text "CA"]);
         ("phy_zip", Object [Text "73301"; Val NaN; Text "90001"]);
         ("cargo_carried", Object [Text "Hazmat, Refrigerated"; Text "general freight"; Val NaN]);
         ("add_date",
          Numeric [Fin (inject_Z (390 * nanoseconds_per_day));
                   Fin (inject_Z (100 * nanoseconds_per_day)); NaN]) ] |}.



Definition sample_components : list (string * list float64) :=
  six_components [Fin 0; Fin 3; Fin 5] [Fin 4; Fin 4; Fin 3] [Fin 3; Fin 3; Fin 3]
                 [Fin 5; Fin 3; Fin 2] [Fin 4.5; Fin 1; Fin 1] [Fin 5; Fin 3; Fin 3].

(** Rows that tie on the composite score stand in the order of the input. *)
Definition ties_keep_input_order (out : DataFrame) : Prop :=
  forall p p' i i' v,
    (p < p')%nat ->
    nth_error (index out) p = Some i ->
    nth_error (index out) p' = Some i' ->
    column_at out "composite_score" p = Some v ->
    column_at out "composite_score" p' = Some v ->
    (i < i')%nat.



(** The first [n] values of a series are numbers between [lo] and [hi]. *)
Definition bounded (lo hi : Q) (n : nat) (xs : list float64) : Prop :=
  forall i, (i < n)%nat -> exists q, nth i xs NaN = Fin q /\ (lo <= q)%Q /\ (q <= hi)%Q.







(** The sample census table without its e-mail column. *)
Definition census_without_email : DataFrame :=
  {| index := index sample_census;
     columns := List.filter (fun kc => negb (String.eqb (fst kc) "email")) (columns sample_census) |}.

(** The markets that [find_correlated_markets] pairs up: all of them when
    no tag is asked for, else those that mention one of the tags. *)
Definition selected_markets (markets : list MarketData) (tags' : option (list string))
  : list MarketData :=
  match tags' with
  | Some (tag :: more) => List.filter (mentions_any (tag :: more)) markets
  | _ => markets
  end.

(** [x] stands before [y] in [xs]. *)
Definition occurs_before {A : Type} (x y : A) (xs : list A) : Prop :=
  exists front middle back, xs = (front ++ x :: middle ++ y :: back)%list.

(** The value a dictionary kept as an association list holds for a key. *)
Fixpoint assoc {A : Type} (key : string) (items : list (string * A)) : option A :=
  match items with
  | [] => None
  | (k, v) :: rest => if String.eqb k key then Some v else assoc key rest
  end.

(** Three markets, two of one series. *)
Definition market_c : MarketData :=
  {| ticker := "SENATE-2024"; title := "Will Democrats win the Senate"; category := "Politics";
     tags := ["election"; "2024"];
     yes_bid := 0.30; yes_ask := 0.32; no_bid := 0.66; no_ask := 0.70;
     volume := 1000; volume_24h := 100; open_interest := 10; last_price := 0.31 |}.

(** The table [get_top_leads] returns for the rows at the positions
    [rows]: those rows, with the new column [priority]. *)
Definition selected_leads (scored_df : DataFrame) (tiers : column) (rows : list nat)
  : DataFrame :=
  setitem (reorder rows scored_df) "priority"
          (map_dict [("Top Tier", "Immediate Outreach"); ("High Priority", "High Priority")]
                    (take rows tiers)).

(** What the dictionary of [get_top_leads] makes of a tier. *)
Definition priority_cell (x : cell) : cell :=
  match x with
  | Text s =>
      match List.find (fun kv => String.eqb (fst kv) s)
              [("Top Tier", "Immediate Outreach"); ("High Priority", "High Priority")] with
      | Some kv => Text (snd kv)
      | None => Val NaN
      end
  | Val _ => Val NaN
  end.

(** Below zero: a negative number or minus infinity. *)
Definition negative (x : float64) : Prop := flt x (Fin 0) = true.

(** A census table with a negative fleet size in its second row. *)
Definition census_negative_fleet : DataFrame :=
  {| index := [0; 1]%nat;
     columns := [("dot_number", Numeric [Fin 101; Fin 102]);
                 ("fleet_size", Object [Text "12"; Val (Fin (-3))])] |}.

(** The growth score of a fleet size, bin by bin: the upper edge of each bin
    belongs to it. *)
Definition fleet_size_score (x : float64) : Q :=
  match x with
  | Fin q =>
      if Qle_bool q 1 then 0
      else if Qle_bool q 5 then 1
      else if Qle_bool q 10 then 2
      else if Qle_bool q 20 then 3
      else if Qle_bool q 50 then 4
      else 5
  | PInf => 5
  | _ => 0
  end.

(** The recency score of an age in whole days: a registration date in the
    future (a negative age) gets the neutral score. *)
Definition recency_of_days (d : Z) : Q :=
  if (d <? 0)%Z then 3
  else if (d <=? 30)%Z then 5
  else if (d <=? 90)%Z then 4
  else if (d <=? 365)%Z then 3
  else if (d <=? 730)%Z then 2
  else 1.

(** The name of a field specification. *)
Definition spec_name (spec : string * Z * Z) : string := fst (fst spec).

(** A fixed-width layout of two fields, and three lines: the second is
    empty, the third ends before the second field. *)
Definition sample_layout : FMCSAFixedWidthParser :=
  {| fw_file_path := "census.txt"; fw_encoding := "utf-8";
     field_specs := [("dot_number", 0, 4); ("state", 6, 2)]%Z |}.

Definition sample_lines : list string := ["  12  TX"; ""; "345"].

(** A column as [pd.read_csv(.., dtype=str)] reads it: text, or nothing. *)
Definition text_cells (c : column) : Prop :=
  Forall (fun x => is_text x = true \/ x = Val NaN) (cells c).

Definition read_as_text (df : DataFrame) : Prop :=
  Forall (fun kc => text_cells (snd kc)) (columns df).

(** The cell holds a text that passes the test. *)
Definition cell_satisfies (p : string -> bool) (x : cell) : bool :=
  match x with
  | Text s => p s
  | Val _ => false
  end.

(** Every cell of the column [key] passes the test; [when_absent] tells what
    holds of a table without that column. *)
Definition column_satisfies (p : string -> bool) (df : DataFrame) (key : string)
    (when_absent : bool) : bool :=
  match lookup_column key (columns df) with
  | Some c => forallb (cell_satisfies p) (cells c)
  | None => when_absent
  end.

(** What the validation rules ask of a table: a DOT number of one to eight
    digits and a carrier name of at most 255 characters in every row, and,
    where there is a state column, two capital letters in every row. *)
Definition conforms (df : DataFrame) : bool :=
  column_satisfies (Str.re_match (Str.DigitRun 1 8)) df "dot_number" false
  && column_satisfies (fun s => (String.length s <=? 255)%nat) df "carrier_name" false
  && column_satisfies (Str.re_match (Str.UpperRun 2)) df "state" true.

(** A carrier table read as text, with one state missing. *)
Definition carriers_missing_state : DataFrame :=
  {| index := [0; 1]%nat;
     columns := [("dot_number", Object [Text "101"; Text "20455"]);
                 ("carrier_name", Object [Text "Acme Freight"; Text "Blue Line"]);
                 ("state", Object [Text "TX"; Val NaN])] |}.

(** Cells that hold a text or nothing. *)
Definition text_or_missing (cs : list cell) : Prop :=
  Forall (fun x => is_text x = true \/ x = Val NaN) cs.

(** A census file of four carriers, as the CSV parser returns it. *)
Definition census_rows : DataFrame :=
  {| index := [0; 1; 2; 3]%nat;
     columns :=
       [("dot_number", Object [Text "101"; Text "102"; Text "103"; Text "104"]);
        ("phy_state", Object [Text "TX"; Text "nv"; Val NaN; Text "tx"]);
        ("carrier_operation",
         Object [Text "Interstate"; Text "Property Broker"; Val NaN; Text "Intrastate"]);
        ("entity_type", Object [Text "CARRIER"; Text "BROKER"; Text "Broker"; Val NaN]);
        ("fleet_size", Object [Text "12"; Text ""; Text "3"; Text "40"])] |}.

(** A file system that holds that file under the name [census.csv]. *)
Definition census_file (path encoding : string) : result string :=
  if String.eqb path "census.csv" then Ok "dot_number,phy_state" else Raise (OSError path).

Definition sniff_comma (sample : string) : result string := Ok ",".

Definition read_census_rows (path delimiter encoding : string) : result DataFrame :=
  if String.eqb path "census.csv" then Ok census_rows else Raise (OSError path).

(** The cell holds a text that mentions a broker, in any case. *)
Definition mentions_broker (x : cell) : bool :=
  match x with
  | Text s => Str.contains "broker" (Str.lower s)
  | Val _ => false
  end.

(** The fleet size [v] lies in the range asked for; an upper bound of 0
    counts as none. *)
Definition in_fleet_range (min_size : Z) (max_size : option Z) (v : float64) : bool :=
  fge v (of_Z min_size)
  && match max_size with
     | Some m => if (m =? 0)%Z then true else fle v (of_Z m)
     | None => true
     end.

(** No capital letter and no space. *)
Definition is_clean_char (c : ascii) : bool :=
  negb (Str.is_upper c) && negb (Ascii.eqb c " ").

(** A file read with a header in mixed case. *)
Definition headed_frame : DataFrame :=
  {| index := [0; 1]%nat;
     columns := [(" DOT Number", Object [Text "101"; Text "102"]);
                 ("Phy State ", Object [Text "TX"; Val NaN])] |}.

Definition read_headed_frame (path delimiter encoding : string) : result DataFrame :=
  if String.eqb delimiter ";" then Ok headed_frame else Raise (OSError path).

Definition sniff_semicolon (sample : string) : result string := Ok ";".

(** An inspection file: the second row has a code that is not 390.3 and a
    description without any food keyword. *)
Definition inspection_rows : DataFrame :=
  {| index := [0; 1; 2]%nat;
     columns :=
       [("violation_code", Object [Text "390.3"; Text "39013"; Text "392.2"]);
        ("violation_description",
         Object [Text "Sanitary transport"; Text "Brake hose"; Text "Unsafe TEMPERATURE log"])] |}.

Definition read_inspection_rows (path delimiter encoding : string) : result DataFrame :=
  if String.eqb path "census.csv" then Ok inspection_rows else Raise (OSError path).

(** The fleet size score of [get_lead_scoring_data], bin by bin: a fleet
    size that is missing, zero or negative falls in no bin. *)
Definition lead_fleet_score (x : float64) : float64 :=
  match x with
  | Fin q =>
      if Qle_bool q 0 then NaN
      else if Qle_bool q 1 then Fin 1
      else if Qle_bool q 5 then Fin 2
      else if Qle_bool q 20 then Fin 3
      else if Qle_bool q 100 then Fin 4
      else Fin 5
  | PInf => Fin 5
  | _ => NaN
  end.

(** Three carriers with fleet sizes 12, none and 3, without dates. *)
Definition fleet_rows : DataFrame :=
  {| index := [0; 1; 2]%nat;
     columns := [("dot_number", Object [Text "101"; Text "102"; Text "103"]);
                 ("fleet_size", Object [Text "12"; Text ""; Text "3"]);
                 ("notes", Object [Text "a"; Text "b"; Text "c"])] |}.

Definition read_fleet_rows (path delimiter encoding : string) : result DataFrame :=
  if String.eqb path "census.csv" then Ok fleet_rows else Raise (OSError path).

(** Three carriers with registration dates (days 10, none, 375) and no
    fleet sizes. *)
Definition dated_rows : DataFrame :=
  {| index := [0; 1; 2]%nat;
     columns := [("dot_number", Object [Text "101"; Text "102"; Text "103"]);
                 ("add_date", Object [Val (Fin 864000000000000); Val NaN;
                                      Val (Fin 32400000000000000)])] |}.

Definition read_dated_rows (path delimiter encoding : string) : result DataFrame :=
  if String.eqb path "census.csv" then Ok dated_rows else Raise (OSError path).

(** 1 when the text holds one of the keywords, else 0. *)
Definition keyword_hit (keywords : list string) (s : string) : Q :=
  if existsb (fun w => Str.contains w s) keywords then 1 else 0.

(** The specialization score of a cargo description in lower case. *)
Definition specialization_formula (s : string) : Q :=
  let total :=
    (1 + 2 * keyword_hit ["hazmat"; "hazardous"; "chemical"; "explosive"; "radioactive"] s
       + 1.5 * keyword_hit ["refrigerated"; "reefer"; "temperature_controlled"; "oversized";
                            "heavy_haul"] s
       + keyword_hit ["household_goods"; "electronics"; "pharmaceutical"; "automotive";
                      "machinery"] s
       + keyword_hit ["perishable"; "fresh_produce"; "dairy"; "meat"; "bakery"] s
       + 0.5 * keyword_hit ["intermodal"] s
       + 0.5 * keyword_hit ["international"] s)%Q in
  if Qle_bool total 5 then total else 5.

(** The text of a cell, or the empty string. *)
Definition text_or_empty (x : cell) : string :=
  match x with
  | Text s => s
  | Val _ => EmptyString
  end.

(** A safety measurement file with two score columns. *)
Definition sms_rows : DataFrame :=
  {| index := [0; 1]%nat;
     columns :=
       [("DOT_Number", Object [Text "101"; Text "102"]);
        ("Unsafe Driving BASIC", Object [Text "1.5"; Text "4.0"]);
        ("Carrier_Name", Object [Text "Acme"; Text "Fleet"]);
        ("Phy_State", Object [Text "TX"; Text "NV"]);
        ("Total Score", Object [Text "2.0"; Val NaN])] |}.

Definition read_sms_rows (path delimiter encoding : string) : result DataFrame :=
  if String.eqb path "census.csv" then Ok sms_rows else Raise (OSError path).

(** 1 when one of the two cells holds the word, in any case, else 0. *)
Definition mentions (word : string) (x y : cell) : Q :=
  if Str.contains word (Str.lower (text_or_empty x))
     || Str.contains word (Str.lower (text_or_empty y))
  then 1 else 0.

(* ===================================================================== *)
(** * Properties *)
(* ===================================================================== *)

(** ** Floats and rationals *)

Lemma fle_Fin (a b : Q) : fle (Fin a) (Fin b) = true <-> (a <= b)%Q.
Proof. simpl. apply Qle_bool_iff. Qed.

Lemma fle_Fin_false (a b : Q) : fle (Fin a) (Fin b) = false <-> (b < a)%Q.
Proof.
  simpl. split.
  - intros H. apply Qnot_le_lt. intros Hle. apply Qle_bool_iff in Hle. congruence.
  - intros H. destruct (Qle_bool a b) eqn:E; [|reflexivity].
    apply Qle_bool_iff in E. exfalso. apply (Qlt_not_le _ _ H E).
Qed.

Lemma flt_Fin (a b : Q) : flt (Fin a) (Fin b) = true <-> (a < b)%Q.
Proof.
  unfold flt. rewrite andb_true_iff, negb_true_iff, fle_Fin, fle_Fin_false.
  split; [tauto | intros H; split; [apply Qlt_le_weak|]; exact H].
Qed.

Lemma flt_Fin_false (a b : Q) : flt (Fin a) (Fin b) = false <-> (b <= a)%Q.
Proof.
  split.
  - intros H. apply Qnot_lt_le. intros Hlt. apply flt_Fin in Hlt. congruence.
  - intros H. destruct (flt (Fin a) (Fin b)) eqn:E; [|reflexivity].
    apply flt_Fin in E. exfalso. apply (Qlt_not_le _ _ E H).
Qed.

Lemma Qeq_bool_inject_nat_zero (n : nat) :
  Qeq_bool (inject_Z (Z.of_nat n)) 0 = bool_decide (n = 0%nat).
Proof.
  destruct n as [|n].
  - reflexivity.
  - rewrite bool_decide_eq_false_2 by discriminate.
    apply not_true_is_false. intros H. apply Qeq_bool_eq in H.
    unfold Qeq in H. simpl in H. lia.
Qed.

(** ** app.py *)

Lemma py_min_capped (a b : Q) : (a == b)%Q -> (py_min a 1.0 == capped b)%Q.
Proof.
  intros Hab. unfold py_min, capped.
  destruct (Qle_bool a 1.0) eqn:Ea, (Qle_bool b 1) eqn:Eb.
  - exact Hab.
  - apply Qle_bool_iff in Ea. exfalso.
    assert (Hb : (b <= 1)%Q) by (rewrite <- Hab; lra).
    apply Qle_bool_iff in Hb. congruence.
  - apply Qle_bool_iff in Eb. exfalso.
    assert (Ha : (a <= 1.0)%Q) by (rewrite Hab; lra).
    apply Qle_bool_iff in Ha. congruence.
  - reflexivity.
Qed.

(** [split_on] never returns the empty list, and has a second piece exactly
    when the separator occurs. *)
Lemma split_on_nonempty (sep : ascii) (s : string) : Str.split_on sep s <> [].
Proof.
  destruct s as [|c s]; simpl; [discriminate|].
  destruct (Ascii.eqb c sep); [discriminate|].
  destruct (Str.split_on sep s); discriminate.
Qed.

Lemma contains_char_cons (sep c : ascii) (s : string) :
  Str.contains_char sep (String c s) = Ascii.eqb c sep || Str.contains_char sep s.
Proof.
  unfold Str.contains_char. simpl.
  destruct (ascii_dec sep c) as [->|Hne].
  - rewrite Ascii.eqb_refl. destruct s; reflexivity.
  - destruct (Ascii.eqb c sep) eqn:E.
    + apply Ascii.eqb_eq in E. congruence.
    + reflexivity.
Qed.

Lemma split_on_spec (sep : ascii) (s : string) :
  match Str.split_on sep s with
  | p :: _ :: _ => Str.contains_char sep s = true /\ hd EmptyString (Str.split_on sep s) = p
  | _ => Str.contains_char sep s = false
  end.
Proof.
  induction s as [|c s IH].
  - reflexivity.
  - rewrite contains_char_cons. simpl.
    destruct (Ascii.eqb c sep) eqn:E.
    + pose proof (split_on_nonempty sep s) as Hne.
      destruct (Str.split_on sep s) as [|w ws]; [congruence|].
      split; reflexivity.
    + destruct (Str.split_on sep s) as [|w [|w' ws]].
      * exact IH.
      * exact IH.
      * destruct IH as [IH _]. split; [exact IH | reflexivity].
Qed.

Lemma series_of_inferred (m : MarketData) : series_of m = inferred_series m.
Proof.
  unfold series_of, inferred_series.
  pose proof (split_on_spec "-" (ticker m)) as H.
  destruct (Str.split_on "-" (ticker m)) as [|p [|p' ps]].
  - rewrite H. reflexivity.
  - rewrite H. reflexivity.
  - destruct H as [-> H]. exact H.
Qed.

Lemma jaccard_term (a b : gset string) (score w : Q) :
  ((if negb (Qeq_bool (set_len (a ∪ b)) 0)
    then score + (set_len (a ∩ b) / set_len (a ∪ b)) * w
    else score) == score + w * jaccard a b)%Q.
Proof.
  unfold set_len, jaccard. rewrite Qeq_bool_inject_nat_zero.
  destruct (decide (size (a ∪ b) = 0%nat)) as [Hz|Hnz].
  - rewrite bool_decide_eq_true_2 by exact Hz. simpl. ring.
  - rewrite bool_decide_eq_false_2 by exact Hnz. simpl. ring.
Qed.

Lemma eqb_indicator (s t : string) (score w : Q) :
  ((if String.eqb s t then score + w else score)
   == score + indicator (bool_decide (s = t)) w)%Q.
Proof.
  unfold indicator. destruct (String.eqb_spec s t) as [Heq|Hne].
  - rewrite bool_decide_eq_true_2 by exact Heq. reflexivity.
  - rewrite bool_decide_eq_false_2 by exact Hne. ring.
Qed.

(** C7. For every pair of markets the correlation score computed by
    [_calculate_correlation_score] is 0.3 times the Jaccard similarity of the
    tag sets, plus 0.4 times the Jaccard similarity of the sets of lower-cased
    title words, plus 0.2 when the categories are equal, plus 0.1 when the
    inferred series (the ticker up to its first hyphen, else the category) are
    equal, capped at 1; a Jaccard term whose union is empty counts 0. *)
Theorem correlation_score_formula (m1 m2 : MarketData) :
  (_calculate_correlation_score m1 m2 == correlation_spec m1 m2)%Q.
Proof.
  unfold _calculate_correlation_score, correlation_spec.
  cbv zeta. apply py_min_capped.
  rewrite <- !series_of_inferred.
  rewrite eqb_indicator, eqb_indicator, jaccard_term, jaccard_term.
  ring.
Qed.

(** *** detect_arbitrage_opportunities *)

Lemma insert_descending_elements {A : Type} (key : A -> Q) (x : A) (xs : list A) (P : A -> Prop) :
  P x -> Forall P xs -> Forall P (insert_descending key x xs).
Proof.
  intros Hx Hxs. induction Hxs as [|y ys Hy Hys IH]; simpl.
  - constructor; [exact Hx | constructor].
  - destruct (Qle_bool (key y) (key x)).
    + constructor; [exact Hx | constructor; assumption].
    + constructor; assumption.
Qed.

Lemma insert_descending_sorted {A : Type} (key : A -> Q) (x : A) (xs : list A) :
  descending key xs -> descending key (insert_descending key x xs).
Proof.
  unfold descending. intros Hs. induction Hs as [|y ys Hys IH Hall]; simpl.
  - constructor; constructor.
  - destruct (Qle_bool (key y) (key x)) eqn:E.
    + apply Qle_bool_iff in E. constructor.
      * constructor; assumption.
      * constructor; [exact E|].
        eapply Forall_impl; [exact Hall|]. simpl. intros z Hz. lra.
    + constructor; [exact IH|].
      apply insert_descending_elements; [|exact Hall].
      destruct (Qlt_le_dec (key y) (key x)) as [Hlt|Hle]; [|exact Hle].
      exfalso. apply Qlt_le_weak, Qle_bool_iff in Hlt. congruence.
Qed.

Lemma sorted_descending_sorted {A : Type} (key : A -> Q) (xs : list A) :
  descending key (sorted_descending key xs).
Proof.
  induction xs as [|x xs IH]; simpl.
  - constructor.
  - apply insert_descending_sorted. exact IH.
Qed.





(** ** parsers.py *)

(** C8, evaluated on the code. When [csv.Sniffer] cannot tell the delimiter
    of the sample, the [csv.Error] it raises leaves [parse_to_dataframe]
    through the handler that logs and re-raises: the file is not parsed with
    the default delimiter, whatever [pd.read_csv] would have made of it. *)
Theorem sniff_failure_fails_parse
    (read_file : string -> string -> result string)
    (sniff_delimiter : string -> result string)
    (read_csv : string -> string -> string -> result Pandas.DataFrame)
    (self : FMCSACSVParser) (content : string) (e : exn) :
  read_file (file_path self) (encoding self) = Ok content ->
  sniff_delimiter (String.substring 0 1024 content) = Raise e ->
  parse_to_dataframe read_file sniff_delimiter read_csv self = Raise e.
Proof.
  intros Hread Hsniff. unfold parse_to_dataframe.
  rewrite Hread. simpl. rewrite Hsniff. reflexivity.
Qed.

Lemma sniff_failure_fails_parse_witness :
  read_csv_one_file "census.csv" "," "utf-8" = Ok one_column_frame /\
  parse_to_dataframe fs_one_file sniff_fails_without_delimiter read_csv_one_file
                     (new_parser "census.csv")
  = Raise (CsvError "Could not determine delimiter").
Proof.
  split; [reflexivity|].
  apply (sniff_failure_fails_parse fs_one_file sniff_fails_without_delimiter read_csv_one_file
           (new_parser "census.csv") one_column_file);
    reflexivity.
Defined.

(** ** pandas *)

Lemma lookup_set_column_eq (key : string) (c : column) (cols : list (string * column)) :
  lookup_column key (set_column key c cols) = Some c.
Proof.
  induction cols as [|[k c0] rest IH]; simpl.
  - rewrite String.eqb_refl. reflexivity.
  - destruct (String.eqb k key) eqn:E; simpl; rewrite E; [reflexivity | exact IH].
Qed.

Lemma lookup_set_column_ne (key key' : string) (c : column) (cols : list (string * column)) :
  key <> key' ->
  lookup_column key' (set_column key c cols) = lookup_column key' cols.
Proof.
  intros Hne. induction cols as [|[k c0] rest IH]; simpl.
  - destruct (String.eqb_spec key key'); [contradiction | reflexivity].
  - destruct (String.eqb_spec k key) as [->|Hk]; simpl.
    + destruct (String.eqb_spec key key'); [contradiction | reflexivity].
    + rewrite IH. reflexivity.
Qed.

Lemma lookup_column_map (f : column -> column) (key : string) (cols : list (string * column)) :
  lookup_column key (map (fun kc => (fst kc, f (snd kc))) cols)
  = option_map f (lookup_column key cols).
Proof.
  induction cols as [|[k c] rest IH]; simpl; [reflexivity|].
  destruct (String.eqb k key); [reflexivity | exact IH].
Qed.

Lemma lookup_column_app (key : string) (cols1 cols2 : list (string * column)) :
  lookup_column key (cols1 ++ cols2)
  = match lookup_column key cols1 with
    | Some c => Some c
    | None => lookup_column key cols2
    end.
Proof.
  induction cols1 as [|[k c] rest IH]; simpl; [reflexivity|].
  destruct (String.eqb k key); [reflexivity | exact IH].
Qed.

Lemma nth_const_NaN {A : Type} (l : list A) (i : nat) :
  nth i (map (fun _ => NaN) l) NaN = NaN.
Proof.
  revert i. induction l as [|x l IH]; intros [|i]; simpl; auto.
Qed.

Lemma nth_align_with (f : float64 -> float64 -> float64) (xs ys : list float64) (i : nat) :
  (forall y, f NaN y = NaN) -> (forall x, f x NaN = NaN) ->
  nth i (align_with f xs ys) NaN = f (nth i xs NaN) (nth i ys NaN).
Proof.
  intros Hl Hr. revert ys i.
  induction xs as [|x xs IH]; intros [|y ys] i.
  - simpl. destruct i; symmetry; apply Hl.
  - change (align_with f [] (y :: ys)) with (map (fun _ : float64 => NaN) (y :: ys)).
    rewrite nth_const_NaN. destruct i; symmetry; apply Hl.
  - change (align_with f (x :: xs) []) with (map (fun _ : float64 => NaN) (x :: xs)).
    rewrite nth_const_NaN. destruct i; symmetry; apply Hr.
  - destruct i; simpl; [reflexivity | apply IH].
Qed.

Lemma fadd_NaN_r (x : float64) : fadd x NaN = NaN.
Proof. destruct x; reflexivity. Qed.


Lemma nth_add (xs ys : list float64) (i : nat) :
  nth i (add xs ys) NaN = fadd (nth i xs NaN) (nth i ys NaN).
Proof. apply nth_align_with; [reflexivity | apply fadd_NaN_r]. Qed.


Lemma nth_map_NaN (f : float64 -> float64) (xs : list float64) (i : nat) :
  f NaN = NaN -> nth i (map f xs) NaN = f (nth i xs NaN).
Proof.
  intros H. rewrite <- H at 1. apply map_nth.
Qed.

Lemma nth_scale (k : Q) (xs : list float64) (i : nat) :
  nth i (scale k xs) NaN = fmul (nth i xs NaN) (Fin k).
Proof. unfold scale. apply (nth_map_NaN (fun x => fmul x (Fin k))). reflexivity. Qed.

Lemma nth_radd (k : Q) (xs : list float64) (i : nat) :
  nth i (radd k xs) NaN = fadd (Fin k) (nth i xs NaN).
Proof. unfold radd. apply (nth_map_NaN (fun x => fadd (Fin k) x)). reflexivity. Qed.

Lemma length_reindex {A : Type} (d : A) (n : nat) (xs : list A) :
  length (reindex d n xs) = n.
Proof. unfold reindex. rewrite length_map, length_seq. reflexivity. Qed.

Lemma nth_reindex {A : Type} (d : A) (n : nat) (xs : list A) (i : nat) :
  (i < n)%nat -> nth i (reindex d n xs) d = nth i xs d.
Proof.
  intros Hi. unfold reindex.
  rewrite (nth_indep _ d (nth 0 xs d)) by (rewrite length_map, length_seq; exact Hi).
  rewrite (map_nth (fun j => nth j xs d) (seq 0 n) 0%nat i).
  rewrite seq_nth by exact Hi. reflexivity.
Qed.

Lemma reindex_same_length {A : Type} (d : A) (xs : list A) :
  reindex d (length xs) xs = xs.
Proof.
  apply (nth_ext _ _ d d).
  - apply length_reindex.
  - intros i Hi. rewrite length_reindex in Hi. apply nth_reindex. exact Hi.
Qed.

Lemma reindex_idem {A : Type} (d : A) (n : nat) (xs : list A) :
  reindex d n (reindex d n xs) = reindex d n xs.
Proof.
  pose proof (reindex_same_length d (reindex d n xs)) as H.
  rewrite length_reindex in H. exact H.
Qed.

Lemma len_setitem (df : DataFrame) (key : string) (c : column) :
  len (setitem df key c) = len df.
Proof. reflexivity. Qed.

(** ** lead_scoring.py: the composite score, the tier and the ranking *)

Lemma score_and_rank_inv (argsort : list float64 -> list nat) (census_df : DataFrame)
    (component_scores : list (string * list float64)) (out : DataFrame) :
  score_and_rank argsort census_df component_scores = Ok out ->
  exists total,
    composite_score component_scores = Ok total /\
    out = reorder (argsort (composite_values census_df total)) (scored_frame census_df total).
Proof.
  unfold score_and_rank. intros H.
  destruct (composite_score component_scores) as [total|e] eqn:Et; simpl in H; [|discriminate].
  exists total. split; [reflexivity|].
  unfold getitem in H. simpl in H. rewrite lookup_set_column_eq in H. simpl in H.
  unfold sort_values_descending, getitem in H. simpl in H.
  rewrite lookup_set_column_ne in H by discriminate.
  rewrite lookup_set_column_eq in H. simpl in H.
  unfold len in H. simpl in H.
  injection H as <-.
  unfold scored_frame, composite_values, setitem, len. simpl.
  rewrite reindex_idem. reflexivity.
Qed.

Lemma scored_frame_composite (census_df : DataFrame) (total : option (list float64)) :
  lookup_column "composite_score" (columns (scored_frame census_df total))
  = Some (Numeric (composite_values census_df total)).
Proof.
  unfold scored_frame, setitem. simpl.
  rewrite lookup_set_column_ne by discriminate.
  rewrite lookup_set_column_eq. unfold composite_values, len.
  rewrite reindex_idem. reflexivity.
Qed.

Lemma scored_frame_tier (census_df : DataFrame) (total : option (list float64)) :
  lookup_column "lead_tier" (columns (scored_frame census_df total))
  = Some (Object (map tier_cell (map lead_tier (composite_values census_df total)))).
Proof.
  unfold scored_frame, setitem. simpl.
  rewrite lookup_set_column_eq. f_equal. f_equal.
  set (tiers := map tier_cell _).
  assert (Hlen : length tiers = len census_df).
  { unfold tiers, composite_values. rewrite !length_map. apply length_reindex. }
  unfold len in *. simpl. rewrite <- Hlen. exact (reindex_same_length (Val NaN) tiers).
Qed.


Lemma lookup_reorder (perm : list nat) (df : DataFrame) (key : string) :
  lookup_column key (columns (reorder perm df))
  = option_map (take perm) (lookup_column key (columns df)).
Proof. unfold reorder. simpl. apply lookup_column_map. Qed.

Lemma nth_error_map_nth {A B : Type} (f : A -> B) (l : list A) (p : nat) :
  nth_error (map f l) p = option_map f (nth_error l p).
Proof.
  revert p. induction l as [|x l IH]; intros [|p]; simpl; auto.
Qed.

Lemma composite_score_six (g l s c sp r : list float64) :
  composite_score (six_components g l s c sp r)
  = Ok (Some (add (add (add (add (add (radd 0 (scale 0.25 g)) (scale 0.20 l)) (scale 0.20 s))
                            (scale 0.15 c)) (scale 0.10 sp)) (scale 0.10 r))).
Proof. reflexivity. Qed.

Lemma composite_row (g l s c sp r : list float64) (total : list float64) (i : nat)
    (qg ql qs qc qsp qr : Q) :
  composite_score (six_components g l s c sp r) = Ok (Some total) ->
  nth i g NaN = Fin qg -> nth i l NaN = Fin ql -> nth i s NaN = Fin qs ->
  nth i c NaN = Fin qc -> nth i sp NaN = Fin qsp -> nth i r NaN = Fin qr ->
  exists q, nth i total NaN = Fin q /\ (q == weighted_formula qg ql qs qc qsp qr)%Q.
Proof.
  rewrite composite_score_six. intros [= <-] Hg Hl Hs Hc Hsp Hr.
  rewrite !nth_add, nth_radd, !nth_scale, Hg, Hl, Hs, Hc, Hsp, Hr. simpl.
  eexists. split; [reflexivity|]. unfold weighted_formula. ring.
Qed.

Lemma sorts_descending_in_range (argsort : list float64 -> list nat) (xs : list float64)
    (p j : nat) :
  sorts_descending argsort -> nth_error (argsort xs) p = Some j -> (j < length xs)%nat.
Proof.
  intros Hsort Hp. destruct (Hsort xs) as [Hperm _].
  apply nth_error_In in Hp.
  apply (Permutation_in _ Hperm) in Hp. apply in_seq in Hp. lia.
Qed.

(** C1. For every census table that [calculate_comprehensive_score] scores
    from six component series, the composite score of each row of the
    returned table is the weighted sum of the six component scores of that
    row, with the weights growth 0.25, legitimacy 0.20, safety 0.20, contact
    0.15, specialization 0.10, recency 0.10, and these weights add up to 1. *)
Theorem composite_is_weighted_sum
    (argsort : list float64 -> list nat)
    (census_df : DataFrame) (g l s c sp r : list float64) (out : DataFrame) :
  sorts_descending argsort ->
  default_index census_df ->
  score_and_rank argsort census_df (six_components g l s c sp r) = Ok out ->
  (fold_right Qplus 0 (map snd scoring_weights) == 1)%Q /\
  forall (p i : nat) (qg ql qs qc qsp qr : Q),
    nth_error (index out) p = Some i ->
    nth i g NaN = Fin qg -> nth i l NaN = Fin ql -> nth i s NaN = Fin qs ->
    nth i c NaN = Fin qc -> nth i sp NaN = Fin qsp -> nth i r NaN = Fin qr ->
    exists q,
      column_at out "composite_score" p = Some (Val (Fin q)) /\
      (q == weighted_formula qg ql qs qc qsp qr)%Q.
Proof.
  intros Hsort Hidx Hout.
  split; [reflexivity|].
  intros p i qg ql qs qc qsp qr Hp Hg Hl Hs Hc Hsp Hr.
  apply score_and_rank_inv in Hout as (total & Htotal & ->).
  pose proof Htotal as Hsix. rewrite composite_score_six in Hsix.
  injection Hsix as <-.
  set (series := add _ _) in *.
  set (xs := composite_values census_df (Some series)) in *.
  simpl in Hp. rewrite nth_error_map_nth in Hp.
  destruct (nth_error (argsort xs) p) as [j|] eqn:Ej; [|discriminate].
  simpl in Hp. injection Hp as Hi.
  assert (Hj : (j < len census_df)%nat).
  { pose proof (sorts_descending_in_range argsort xs p j Hsort Ej) as H.
    unfold xs, composite_values in H. rewrite length_reindex in H. exact H. }
  rewrite Hidx in Hi. rewrite seq_nth in Hi by exact Hj. simpl in Hi. subst i.
  destruct (composite_row g l s c sp r series j qg ql qs qc qsp qr Htotal Hg Hl Hs Hc Hsp Hr)
    as (q & Hq & Hformula).
  exists q. split; [|exact Hformula].
  unfold column_at. rewrite lookup_reorder, scored_frame_composite. simpl.
  rewrite !nth_error_map_nth, Ej. simpl.
  fold xs. unfold xs, composite_values. rewrite nth_reindex by exact Hj.
  rewrite Hq. reflexivity.
Qed.

(** *** Two sorting algorithms that keep the promise of [sort_values] *)

Lemma precedes_total (a b : float64) : precedes a b = false -> precedes b a = true.
Proof.
  unfold precedes.
  destruct a as [| | |a], b as [| | |b]; simpl; try reflexivity; try discriminate.
  intros H. apply (fle_Fin_false b a) in H. apply Qle_bool_iff. lra.
Qed.

Lemma precedes_trans (a b c : float64) :
  precedes a b = true -> precedes b c = true -> precedes a c = true.
Proof.
  unfold precedes.
  destruct a as [| | |a], b as [| | |b], c as [| | |c]; simpl;
    try reflexivity; try discriminate.
  intros H1 H2. apply Qle_bool_iff in H1, H2. apply Qle_bool_iff. lra.
Qed.

Lemma insert_row_permutation (behind_ties : bool) (xs : list float64) (i : nat) (rows : list nat) :
  Permutation (insert_row behind_ties xs i rows) (i :: rows).
Proof.
  induction rows as [|j rest IH]; simpl.
  - reflexivity.
  - destruct (if behind_ties then _ else _).
    + reflexivity.
    + rewrite IH. apply perm_swap.
Qed.

Lemma insertion_argsort_permutation (behind_ties : bool) (xs : list float64) :
  Permutation (insertion_argsort behind_ties xs) (seq 0 (length xs)).
Proof.
  unfold insertion_argsort. induction (seq 0 (length xs)) as [|i rows IH]; simpl.
  - reflexivity.
  - rewrite insert_row_permutation. constructor. exact IH.
Qed.

Lemma insert_row_in_order (behind_ties : bool) (xs : list float64) (i : nat) (rows : list nat) :
  rows_in_order xs rows -> rows_in_order xs (insert_row behind_ties xs i rows).
Proof.
  unfold rows_in_order. intros Hs.
  induction Hs as [|j rest Hrest IH Hall]; simpl.
  - constructor; constructor.
  - destruct (if behind_ties then _ else _) eqn:E.
    + assert (Hij : precedes (nth i xs NaN) (nth j xs NaN) = true).
      { destruct behind_ties; [|exact E].
        apply negb_true_iff in E. apply precedes_total. exact E. }
      constructor; [constructor; assumption|].
      constructor; [exact Hij|].
      eapply Forall_impl; [exact Hall|]. simpl. intros k Hk.
      eapply precedes_trans; eassumption.
    + assert (Hji : precedes (nth j xs NaN) (nth i xs NaN) = true).
      { destruct behind_ties.
        - apply negb_false_iff in E. exact E.
        - apply precedes_total. exact E. }
      constructor; [exact IH|].
      eapply Permutation_Forall; [symmetry; apply insert_row_permutation|].
      constructor; assumption.
Qed.

Lemma insertion_argsort_in_order (behind_ties : bool) (xs : list float64) :
  rows_in_order xs (insertion_argsort behind_ties xs).
Proof.
  unfold insertion_argsort. induction (seq 0 (length xs)) as [|i rows IH]; simpl.
  - constructor.
  - apply insert_row_in_order. exact IH.
Qed.

Lemma StronglySorted_map {A B : Type} (R : B -> B -> Prop) (f : A -> B) (l : list A) :
  StronglySorted (fun x y => R (f x) (f y)) l -> StronglySorted R (map f l).
Proof.
  induction 1 as [|x l Hl IH Hall]; simpl; constructor.
  - exact IH.
  - apply Forall_map. exact Hall.
Qed.

Lemma insertion_argsort_sorts (behind_ties : bool) :
  sorts_descending (insertion_argsort behind_ties).
Proof.
  intros xs. split.
  - apply insertion_argsort_permutation.
  - apply (StronglySorted_map (fun a b => precedes a b = true) (fun i => nth i xs NaN)).
    apply insertion_argsort_in_order.
Qed.

(** *** Sample data *)

Lemma composite_is_weighted_sum_witness :
  exists out,
    score_and_rank stable_argsort sample_census sample_components = Ok out /\
    index out = [2; 0; 1]%nat /\
    exists q,
      column_at out "composite_score" 1 = Some (Val (Fin q)) /\
      (q == weighted_formula 0 4 3 5 4.5 5)%Q.
Proof.
  eexists. split; [reflexivity|]. split; [reflexivity|].
  eapply (composite_is_weighted_sum stable_argsort sample_census
            [Fin 0; Fin 3; Fin 5] [Fin 4; Fin 4; Fin 3] [Fin 3; Fin 3; Fin 3]
            [Fin 5; Fin 3; Fin 2] [Fin 4.5; Fin 1; Fin 1] [Fin 5; Fin 3; Fin 3]).
  - apply insertion_argsort_sorts.
  - reflexivity.
  - reflexivity.
  - reflexivity.
  - reflexivity.
  - reflexivity.
  - reflexivity.
  - reflexivity.
  - reflexivity.
  - reflexivity.
Defined.

(** *** Tiers *)

Ltac decide_flt :=
  repeat match goal with
    | |- context [flt (Fin ?a) (Fin ?b)] =>
        let E := fresh "E" in
        destruct (flt (Fin a) (Fin b)) eqn:E;
        [apply flt_Fin in E | apply flt_Fin_false in E]
    end.

Lemma lead_tier_Fin (q : Q) :
  lead_tier (Fin q) =
  if flt (Fin 5) (Fin q) then Some "Top Tier"
  else if flt (Fin 3.5) (Fin q) then Some "High Priority"
  else if flt (Fin 2) (Fin q) then Some "Medium Priority"
  else if flt (Fin 0) (Fin q) then Some "Low Priority"
  else None.
Proof.
  unfold lead_tier, cut_value, tier_bins, tier_labels, searchsorted_left.
  cbn [isna andb List.filter hd].
  change (flt PInf (Fin q)) with false. cbv iota.
  decide_flt; try reflexivity; exfalso; lra.
Qed.

Lemma nth_tiers (xs : list float64) (j : nat) :
  nth j (map tier_cell (map lead_tier xs)) (Val NaN) = tier_cell (lead_tier (nth j xs NaN)).
Proof.
  rewrite map_map.
  change (Val NaN) with ((fun x => tier_cell (lead_tier x)) NaN).
  apply map_nth.
Qed.

(** C2, as the code has it. The tier is a function of the composite score
    alone, fixed by the cutoffs 0, 2, 3.5 and 5 with each tier's UPPER bound
    inclusive ([pd.cut] with its default [right=True]): a composite score in
    (0,2] is Low Priority, in (2,3.5] Medium Priority, in (3.5,5] High
    Priority, above 5 Top Tier, and a score of 0 or less has no tier; in the
    returned table the tier of every row is this function of the row's
    composite score. *)
Theorem lead_tier_by_cutoffs :
  (forall q, (q <= 0)%Q -> lead_tier (Fin q) = None) /\
  (forall q, (0 < q)%Q -> (q <= 2)%Q -> lead_tier (Fin q) = Some "Low Priority") /\
  (forall q, (2 < q)%Q -> (q <= 3.5)%Q -> lead_tier (Fin q) = Some "Medium Priority") /\
  (forall q, (3.5 < q)%Q -> (q <= 5)%Q -> lead_tier (Fin q) = Some "High Priority") /\
  (forall q, (5 < q)%Q -> lead_tier (Fin q) = Some "Top Tier") /\
  (forall argsort census_df component_scores out p x,
      score_and_rank argsort census_df component_scores = Ok out ->
      column_at out "composite_score" p = Some (Val x) ->
      column_at out "lead_tier" p = Some (tier_cell (lead_tier x))).
Proof.
  repeat split.
  - intros q H. rewrite lead_tier_Fin. decide_flt; try reflexivity; exfalso; lra.
  - intros q H1 H2. rewrite lead_tier_Fin. decide_flt; try reflexivity; exfalso; lra.
  - intros q H1 H2. rewrite lead_tier_Fin. decide_flt; try reflexivity; exfalso; lra.
  - intros q H1 H2. rewrite lead_tier_Fin. decide_flt; try reflexivity; exfalso; lra.
  - intros q H. rewrite lead_tier_Fin. decide_flt; try reflexivity; exfalso; lra.
  - intros argsort census_df component_scores out p x Hout Hx.
    apply score_and_rank_inv in Hout as (total & _ & ->).
    unfold column_at in *.
    rewrite lookup_reorder, scored_frame_composite in Hx.
    rewrite lookup_reorder, scored_frame_tier.
    simpl in *. rewrite !nth_error_map_nth in Hx. rewrite nth_error_map_nth.
    destruct (nth_error (argsort (composite_values census_df total)) p) as [j|];
      [|discriminate].
    simpl in *. injection Hx as <-. rewrite nth_tiers. reflexivity.
Qed.

Lemma lead_tier_by_cutoffs_witness :
  lead_tier (Fin 2) = Some "Low Priority" /\
  lead_tier (Fin 3.5) = Some "Medium Priority" /\
  lead_tier (Fin 5) = Some "High Priority" /\
  lead_tier (Fin 5.25) = Some "Top Tier" /\
  lead_tier (Fin 0) = None.
Proof.
  destruct lead_tier_by_cutoffs as (H0 & H1 & H2 & H3 & H4 & _).
  split; [apply H1; lra|]. split; [apply H2; lra|]. split; [apply H3; lra|].
  split; [apply H4; lra | apply H0; lra].
Defined.

(** C2, as stated, fails: a composite score of exactly 3.5 is Medium
    Priority, not High Priority (and 2 is Low, 5 is High, 0 has no tier). *)
Lemma tier_lower_bounds_are_exclusive :
  lead_tier (Fin 3.5) = Some "Medium Priority" /\
  lead_tier (Fin 3.5) <> Some "High Priority" /\
  lead_tier (Fin 2) <> Some "Medium Priority" /\
  lead_tier (Fin 5) <> Some "Top Tier" /\
  lead_tier (Fin 0) <> Some "Low Priority".
Proof. repeat split; try reflexivity; discriminate. Qed.

(** *** Ranking *)




(** *** What a stable sort would give *)

Lemma precedes_refl (a : float64) : precedes a a = true.
Proof.
  unfold precedes. destruct a as [| | |a]; try reflexivity.
  simpl. apply Qle_bool_iff. lra.
Qed.

Lemma insert_row_stable (xs : list float64) (i : nat) (rows : list nat) :
  Forall (fun j => (i < j)%nat) rows ->
  StronglySorted (fun a b => nth a xs NaN = nth b xs NaN -> (a < b)%nat) rows ->
  StronglySorted (fun a b => nth a xs NaN = nth b xs NaN -> (a < b)%nat)
                 (insert_row false xs i rows).
Proof.
  intros Hgt Hs. induction Hs as [|j rest Hrest IH Hall]; simpl.
  - constructor; constructor.
  - apply Forall_cons in Hgt as [Hij Hgt].
    destruct (precedes (nth i xs NaN) (nth j xs NaN)) eqn:E.
    + constructor; [constructor; assumption|].
      constructor; [intros _; exact Hij|].
      eapply Forall_impl; [exact Hgt|]. simpl. intros k Hk _. exact Hk.
    + constructor; [apply IH; exact Hgt|].
      eapply Permutation_Forall; [symmetry; apply insert_row_permutation|].
      constructor; [|exact Hall].
      intros Heq. rewrite Heq, precedes_refl in E. discriminate.
Qed.

Lemma stable_argsort_from (xs : list float64) (a n : nat) :
  let rows := fold_right (insert_row false xs) [] (seq a n) in
  Forall (fun j => (a <= j)%nat) rows /\
  StronglySorted (fun i j => nth i xs NaN = nth j xs NaN -> (i < j)%nat) rows.
Proof.
  revert a. induction n as [|n IH]; intros a; simpl.
  - split; constructor.
  - destruct (IH (S a)) as [Hge Hs]. split.
    + eapply Permutation_Forall; [symmetry; apply insert_row_permutation|].
      constructor; [lia|]. eapply Forall_impl; [exact Hge|]. simpl. intros; lia.
    + apply insert_row_stable; [|exact Hs].
      eapply Forall_impl; [exact Hge|]. simpl. intros; lia.
Qed.

Lemma StronglySorted_nth_error {A : Type} (R : A -> A -> Prop) (l : list A) (p p' : nat)
    (x y : A) :
  StronglySorted R l -> (p < p')%nat ->
  nth_error l p = Some x -> nth_error l p' = Some y -> R x y.
Proof.
  intros Hs. revert p p'. induction Hs as [|z l Hl IH Hall]; intros p p' Hlt Hx Hy.
  - destruct p; discriminate.
  - destruct p' as [|p']; [lia|]. simpl in Hy.
    destruct p as [|p]; simpl in Hx.
    + injection Hx as <-. rewrite List.Forall_forall in Hall.
      apply Hall. eapply nth_error_In. exact Hy.
    + apply (IH p p'); [lia | exact Hx | exact Hy].
Qed.

(** Had [sort_values] been called with [kind='stable'], rows that tie would
    keep the order of the input: the stable insertion sort is the order every
    stable sort picks. *)
Lemma stable_sort_keeps_ties (census_df : DataFrame)
    (component_scores : list (string * list float64)) (out : DataFrame) :
  default_index census_df ->
  score_and_rank stable_argsort census_df component_scores = Ok out ->
  ties_keep_input_order out.
Proof.
  intros Hidx Hout.
  apply score_and_rank_inv in Hout as (total & _ & ->).
  set (xs := composite_values census_df total).
  assert (Hlen : length xs = len census_df).
  { unfold xs, composite_values. apply length_reindex. }
  intros p p' i i' v Hlt Hp Hp' Hv Hv'.
  unfold column_at in Hv, Hv'.
  rewrite lookup_reorder, scored_frame_composite in Hv, Hv'.
  simpl in Hp, Hp', Hv, Hv'. fold xs in Hv, Hv'.
  rewrite !nth_error_map_nth in Hv, Hv'.
  rewrite nth_error_map_nth in Hp, Hp'.
  destruct (nth_error (stable_argsort xs) p) as [j|] eqn:Ej; [|discriminate].
  destruct (nth_error (stable_argsort xs) p') as [j'|] eqn:Ej'; [|discriminate].
  simpl in *.
  assert (Hj : (j < len census_df)%nat).
  { rewrite <- Hlen.
    eapply sorts_descending_in_range; [apply insertion_argsort_sorts | exact Ej]. }
  assert (Hj' : (j' < len census_df)%nat).
  { rewrite <- Hlen.
    eapply sorts_descending_in_range; [apply insertion_argsort_sorts | exact Ej']. }
  rewrite Hidx in Hp, Hp'. rewrite seq_nth in Hp, Hp' by assumption.
  simpl in Hp, Hp'. injection Hp as <-. injection Hp' as <-.
  destruct (stable_argsort_from xs 0 (length xs)) as [_ Hs].
  apply (StronglySorted_nth_error _ _ p p' j j' Hs Hlt Ej Ej').
  congruence.
Qed.

(** *** The summary *)

Lemma has_column_lookup (key : string) (df : DataFrame) :
  has_column key df = match lookup_column key (columns df) with Some _ => true | None => false end.
Proof.
  unfold has_column, column_names.
  induction (columns df) as [|[k c] rest IH]; simpl; [reflexivity|].
  rewrite String.eqb_sym. destruct (String.eqb k key); [reflexivity | exact IH].
Qed.








(** ** lead_scoring.py: the six component scores *)


Lemma bounded_length (lo hi : Q) (n : nat) (xs : list float64) :
  bounded lo hi n xs -> (n <= length xs)%nat.
Proof.
  intros H. destruct n as [|n]; [lia|].
  destruct (Nat.le_gt_cases (S n) (length xs)) as [Hle|Hgt]; [exact Hle|].
  destruct (H n) as (q & Hq & _); [lia|].
  rewrite nth_overflow in Hq by lia. discriminate.
Qed.











Lemma nth_clip (lower upper : option Q) (xs : list float64) (i : nat) :
  nth i (clip lower upper xs) NaN = clip_value lower upper (nth i xs NaN).
Proof. unfold clip. apply (nth_map_NaN (clip_value lower upper)). reflexivity. Qed.






(** *** Lengths *)


Lemma length_align_bool (f : bool -> bool -> bool) (xs ys : list bool) :
  length (align_bool f xs ys) = Nat.max (length xs) (length ys).
Proof.
  revert ys. induction xs as [|x xs IH]; intros [|y ys]; simpl.
  - reflexivity.
  - rewrite length_map. reflexivity.
  - rewrite length_map. reflexivity.
  - rewrite IH. reflexivity.
Qed.

Lemma length_to_numeric (parse_float : string -> float64) (c : column) :
  length (to_numeric parse_float c) = length (cells c).
Proof. destruct c; simpl; rewrite ?length_map; reflexivity. Qed.





(** *** The left join *)









(** *** Growth *)

Ltac ok_step H :=
  match type of H with
  | Py.bind ?r _ = Ok _ =>
      let x := fresh "x" in
      let E := fresh "E" in
      destruct r as [x|] eqn:E; [cbn [Py.bind] in H | discriminate H]
  end.



Lemma length_lt_const (k : Q) (xs : list float64) : length (lt_const k xs) = length xs.
Proof. apply length_map. Qed.

Lemma length_str_contains (pattern : string) (ss : list string) :
  length (str_contains pattern ss) = length ss.
Proof. apply length_map. Qed.


(** *** Legitimacy *)



(** *** Safety *)







Lemma length_mean_axis1 (n : nat) (cols : list (list float64)) :
  length (mean_axis1 n cols) = n.
Proof. unfold mean_axis1. rewrite length_map, length_seq. reflexivity. Qed.


(** *** Contact quality *)







(** *** Specialization *)


(** *** Recency *)


(** *** Values that [pd.cut] does label *)








(** *** Columns of the joined frame *)

Lemma select_columns_lookup (cols selected : list (string * column)) (keys : list string)
    (key : string) :
  select_columns cols keys = Ok selected ->
  In key keys ->
  lookup_column key selected = lookup_column key cols.
Proof.
  revert selected. induction keys as [|k keys IH]; intros selected H Hin; [contradiction|].
  simpl in H. destruct (lookup_column k cols) as [c|] eqn:Ec; [|discriminate].
  ok_step H. injection H as <-. simpl.
  destruct (String.eqb_spec k key) as [->|Hne].
  - symmetry. exact Ec.
  - destruct Hin as [Heq|Hin]; [contradiction|]. apply IH; [reflexivity | exact Hin].
Qed.











(** *** What raises *)

(** Line 213 raises on every census table: [KeyError] when an address column
    is missing, [AttributeError] otherwise. *)
Lemma address_complete_raises (float_repr : float64 -> string) (census_df : DataFrame) :
  raises (address_complete float_repr census_df).
Proof.
  unfold address_complete, select, address_fields. cbn [select_columns].
  destruct (lookup_column "phy_city" (columns census_df)) as [c1|];
    [|eexists; reflexivity].
  destruct (lookup_column "phy_state" (columns census_df)) as [c2|];
    [|eexists; reflexivity].
  destruct (lookup_column "phy_zip" (columns census_df)) as [c3|];
    [|eexists; reflexivity].
  eexists. reflexivity.
Qed.

Lemma address_complete_all_present (float_repr : float64 -> string) (census_df : DataFrame) :
  has_column "phy_city" census_df = true ->
  has_column "phy_state" census_df = true ->
  has_column "phy_zip" census_df = true ->
  address_complete float_repr census_df
  = Raise (AttributeError "'DataFrame' object has no attribute 'str'").
Proof.
  rewrite !has_column_lookup.
  unfold address_complete, select, address_fields. cbn [select_columns].
  destruct (lookup_column "phy_city" (columns census_df)) as [c1|]; [|discriminate].
  destruct (lookup_column "phy_state" (columns census_df)) as [c2|]; [|discriminate].
  destruct (lookup_column "phy_zip" (columns census_df)) as [c3|]; [|discriminate].
  reflexivity.
Qed.

Lemma contact_score_raises (float_repr : float64 -> string) (census_df : DataFrame) :
  raises (_calculate_contact_score float_repr census_df).
Proof.
  unfold _calculate_contact_score.
  destruct (email_phone_scores census_df) as [score|e]; [|eexists; reflexivity].
  destruct (address_complete_raises float_repr census_df) as [e ->].
  eexists. reflexivity.
Qed.

Lemma contact_score_without_email (float_repr : float64 -> string) (census_df : DataFrame) :
  has_column "email" census_df = false ->
  _calculate_contact_score float_repr census_df
  = Raise (AttributeError "'str' object has no attribute 'str'").
Proof.
  rewrite has_column_lookup. intros H.
  unfold _calculate_contact_score, email_phone_scores, get.
  destruct (lookup_column "email" (columns census_df)); [discriminate|]. reflexivity.
Qed.

Lemma all_components_raise
    (parse_float : string -> float64) (parse_datetime : cell -> option Z)
    (float_repr : float64 -> string) (now : Z)
    (df : DataFrame) (sms_df li_df : option DataFrame) :
  raises (_calculate_all_components parse_float parse_datetime float_repr now df sms_df li_df).
Proof.
  unfold _calculate_all_components.
  destruct (_calculate_growth_score parse_float df sms_df); [|eexists; reflexivity].
  destruct (_calculate_legitimacy_score parse_float df li_df); [|eexists; reflexivity].
  destruct (_calculate_safety_score parse_float df sms_df); [|eexists; reflexivity].
  destruct (contact_score_raises float_repr df) as [e ->].
  eexists. reflexivity.
Qed.

Lemma scoring_raises
    (parse_float : string -> float64) (parse_datetime : cell -> option Z)
    (float_repr : float64 -> string) (now : Z) (argsort : list float64 -> list nat)
    (census_df : DataFrame) (sms_df li_df : option DataFrame) :
  raises (calculate_comprehensive_score parse_float parse_datetime float_repr now argsort
                                        census_df sms_df li_df).
Proof.
  unfold calculate_comprehensive_score.
  destruct (all_components_raise parse_float parse_datetime float_repr now
                                 census_df sms_df li_df) as [e ->].
  eexists. reflexivity.
Qed.

(** *** The fall-backs when an enrichment table is absent *)

Lemma safety_without_enrichment (parse_float : string -> float64) (census_df : DataFrame)
    (sms_df : option DataFrame) :
  enrichment_absent sms_df = true ->
  _calculate_safety_score parse_float census_df sms_df = Ok (full (len census_df) 3).
Proof.
  intros H. unfold _calculate_safety_score. destruct sms_df; [rewrite H|]; reflexivity.
Qed.

Lemma growth_without_enrichment (parse_float : string -> float64) (census_df : DataFrame)
    (sms_df : option DataFrame) :
  enrichment_absent sms_df = true ->
  _calculate_growth_score parse_float census_df sms_df
  = fleet_size_scores parse_float census_df.
Proof.
  intros H. unfold _calculate_growth_score.
  destruct (fleet_size_scores parse_float census_df); [|reflexivity].
  cbn [Py.bind]. destruct sms_df; [rewrite H|]; reflexivity.
Qed.

Lemma legitimacy_without_enrichment (parse_float : string -> float64) (census_df : DataFrame)
    (li_df : option DataFrame) :
  enrichment_absent li_df = true ->
  _calculate_legitimacy_score parse_float census_df li_df
  = (let* base_scores := entity_base_scores census_df in
     Ok (clip (Some 0%Q) (Some 5%Q) base_scores)).
Proof.
  intros H. unfold _calculate_legitimacy_score.
  destruct (entity_base_scores census_df); [|reflexivity].
  cbn [Py.bind]. destruct li_df; [rewrite H|]; reflexivity.
Qed.

(** C5, evaluated on the code. On the sample census table with no safety and
    no licensing table, safety is the base 3 on every row, growth is the
    fleet-size bin and legitimacy the clipped entity-type base, yet
    [calculate_comprehensive_score] raises [AttributeError]; it does so for
    every census table and every choice of enrichment tables, because line
    213 of the contact score asks a [DataFrame] for [.str]. *)
Theorem scoring_without_enrichment_raises :
  _calculate_safety_score sample_parse_float sample_census None = Ok [Fin 3; Fin 3; Fin 3] /\
  _calculate_growth_score sample_parse_float sample_census None = Ok [Fin 0; Fin 3; Fin 5] /\
  fleet_size_scores sample_parse_float sample_census = Ok [Fin 0; Fin 3; Fin 5] /\
  _calculate_legitimacy_score sample_parse_float sample_census None = Ok [Fin 4; Fin 4; Fin 3] /\
  calculate_comprehensive_score sample_parse_float sample_parse_datetime sample_float_repr
                                sample_now stable_argsort sample_census None None
  = Raise (AttributeError "'DataFrame' object has no attribute 'str'") /\
  (forall parse_float parse_datetime float_repr now argsort census_df sms_df li_df,
      raises (calculate_comprehensive_score parse_float parse_datetime float_repr now argsort
                                            census_df sms_df li_df)).
Proof.
  split; [reflexivity|]. split; [reflexivity|]. split; [reflexivity|].
  split; [reflexivity|]. split; [reflexivity|].
  intros. apply scoring_raises.
Qed.

(** C9, evaluated on the code. Scoring a census table that lacks the e-mail
    column does not complete: [census_df.get('email', '')] returns the
    default, a [str], and asking it for [.str] raises [AttributeError], out of
    [_calculate_contact_score] and out of [calculate_comprehensive_score]. No
    census table gets a contact score, degraded or not. *)
Theorem scoring_without_email_raises :
  has_column "email" census_without_email = false /\
  _calculate_contact_score sample_float_repr census_without_email
  = Raise (AttributeError "'str' object has no attribute 'str'") /\
  calculate_comprehensive_score sample_parse_float sample_parse_datetime sample_float_repr
                                sample_now stable_argsort census_without_email None None
  = Raise (AttributeError "'str' object has no attribute 'str'") /\
  (forall float_repr census_df, raises (_calculate_contact_score float_repr census_df)).
Proof.
  split; [reflexivity|]. split; [reflexivity|]. split; [reflexivity|].
  intros. apply contact_score_raises.
Qed.

(* ===================================================================== *)
(** ** app.py beyond the scenario: scores, pairs and opportunities *)
(* ===================================================================== *)

Lemma jaccard_range (a b : gset string) : (0 <= jaccard a b <= 1)%Q.
Proof.
  unfold jaccard. destruct (decide (size (a ∪ b) = 0%nat)) as [Hz|Hnz]; [lra|].
  assert (Hle : (size (a ∩ b) <= size (a ∪ b))%nat).
  { apply subseteq_size. intros x Hx. apply elem_of_intersection in Hx.
    apply elem_of_union. left. tauto. }
  assert (Hpos : (0 < inject_Z (Z.of_nat (size (a ∪ b))))%Q).
  { unfold Qlt. simpl. lia. }
  assert (Hnum : (0 <= inject_Z (Z.of_nat (size (a ∩ b))))%Q).
  { unfold Qle. simpl. lia. }
  assert (Hcmp : (inject_Z (Z.of_nat (size (a ∩ b))) <= inject_Z (Z.of_nat (size (a ∪ b))))%Q).
  { unfold Qle. simpl. lia. }
  split.
  - apply Qle_shift_div_l; [exact Hpos|]. lra.
  - apply Qle_shift_div_r; [exact Hpos|]. lra.
Qed.

Lemma indicator_range (b : bool) (w : Q) : (0 <= w)%Q -> (0 <= indicator b w <= w)%Q.
Proof. intros Hw. destruct b; simpl; lra. Qed.

Lemma correlation_score_as_sum (m1 m2 : MarketData) :
  (_calculate_correlation_score m1 m2
   == capped (0.3 * jaccard (set_of (tags m1)) (set_of (tags m2))
              + 0.4 * jaccard (title_words m1) (title_words m2)
              + indicator (bool_decide (category m1 = category m2)) 0.2
              + indicator (bool_decide (series_of m1 = series_of m2)) 0.1))%Q.
Proof.
  unfold _calculate_correlation_score. cbv zeta. apply py_min_capped.
  rewrite eqb_indicator, eqb_indicator, jaccard_term, jaccard_term.
  ring.
Qed.

Lemma capped_id (x : Q) : (x <= 1)%Q -> capped x = x.
Proof.
  intros Hx. unfold capped. apply Qle_bool_iff in Hx. rewrite Hx. reflexivity.
Qed.

(** X1. The correlation score of any two markets lies between 0 and 1, and
    the cap of line 96 never cuts anything off: the four terms add up to at
    most 0.3 + 0.4 + 0.2 + 0.1. Two markets of one category score at least
    0.2, two markets of one series at least 0.1. *)
Theorem correlation_score_range (m1 m2 : MarketData) :
  (0 <= _calculate_correlation_score m1 m2 <= 1)%Q /\
  (_calculate_correlation_score m1 m2
   == 0.3 * jaccard (set_of (tags m1)) (set_of (tags m2))
      + 0.4 * jaccard (title_words m1) (title_words m2)
      + indicator (bool_decide (category m1 = category m2)) 0.2
      + indicator (bool_decide (series_of m1 = series_of m2)) 0.1)%Q /\
  (category m1 = category m2 -> (0.2 <= _calculate_correlation_score m1 m2)%Q) /\
  (series_of m1 = series_of m2 -> (0.1 <= _calculate_correlation_score m1 m2)%Q).
Proof.
  pose proof (jaccard_range (set_of (tags m1)) (set_of (tags m2))) as Ht.
  pose proof (jaccard_range (title_words m1) (title_words m2)) as Hw.
  assert (H02 : (0 <= 0.2)%Q) by (unfold Qle; simpl; lia).
  assert (H01 : (0 <= 0.1)%Q) by (unfold Qle; simpl; lia).
  pose proof (indicator_range (bool_decide (category m1 = category m2)) 0.2 H02) as Hc.
  pose proof (indicator_range (bool_decide (series_of m1 = series_of m2)) 0.1 H01) as Hs.
  pose proof (correlation_score_as_sum m1 m2) as Hsum.
  rewrite capped_id in Hsum by lra.
  split; [rewrite Hsum; lra|]. split; [exact Hsum|]. split.
  - intros Heq. rewrite Hsum. rewrite (bool_decide_eq_true_2 _ Heq) in *. simpl in *. lra.
  - intros Heq. rewrite Hsum. rewrite (bool_decide_eq_true_2 _ Heq) in *. simpl in *. lra.
Qed.

(** X2. The correlation score does not depend on the order of the two
    markets. *)
Theorem correlation_score_symmetric (m1 m2 : MarketData) :
  _calculate_correlation_score m1 m2 = _calculate_correlation_score m2 m1.
Proof.
  unfold _calculate_correlation_score. cbv zeta.
  assert (Hi : forall a b : gset string, a ∩ b = b ∩ a) by (intros a b; apply (comm_L (∩))).
  assert (Hu : forall a b : gset string, a ∪ b = b ∪ a) by (intros a b; apply (comm_L (∪))).
  rewrite (Hi (set_of (tags m1))), (Hu (set_of (tags m1))).
  rewrite (Hi (title_words m1)), (Hu (title_words m1)).
  rewrite (String.eqb_sym (category m1)), (String.eqb_sym (series_of m1)).
  reflexivity.
Qed.

Lemma insert_descending_permutation {A : Type} (key : A -> Q) (x : A) (xs : list A) :
  Permutation (x :: xs) (insert_descending key x xs).
Proof.
  induction xs as [|y ys IH]; simpl.
  - reflexivity.
  - destruct (Qle_bool (key y) (key x)).
    + reflexivity.
    + rewrite perm_swap. apply perm_skip. exact IH.
Qed.

Lemma sorted_descending_permutation {A : Type} (key : A -> Q) (xs : list A) :
  Permutation xs (sorted_descending key xs).
Proof.
  induction xs as [|x xs IH]; simpl.
  - reflexivity.
  - rewrite <- insert_descending_permutation. apply perm_skip. exact IH.
Qed.

Lemma omap_In {A B : Type} (f : A -> option B) (xs : list A) (y : B) :
  In y (omap f xs) <-> exists x, In x xs /\ f x = Some y.
Proof.
  rewrite <- list_elem_of_In, list_elem_of_omap.
  split; intros [x [Hx Hf]]; exists x; split; try exact Hf; apply list_elem_of_In; exact Hx.
Qed.

Lemma py_min_le (a b : Q) : (py_min a b <= a)%Q /\ (py_min a b <= b)%Q.
Proof.
  unfold py_min. destruct (Qle_bool a b) eqn:E.
  - apply Qle_bool_iff in E. lra.
  - destruct (Qlt_le_dec b a) as [Hlt|Hle]; [lra|].
    apply Qle_bool_iff in Hle. congruence.
Qed.

(** X3. Every opportunity that [detect_arbitrage_opportunities] reports comes
    from one of the pairs it was given: it lists that pair's two markets,
    their last prices add up to less than 0.95, the profit is
    (1 - sum) * 100 and therefore above 5, the confidence is the pair's
    correlation score cut at 0.9, and the risk level is the tier of the
    pair's mean 24h volume. *)
Theorem opportunities_come_from_pairs (correlated_pairs : list (MarketData * MarketData * Q))
  (opp : ArbitrageOpportunity) :
  In opp (detect_arbitrage_opportunities correlated_pairs) ->
  exists m1 m2 correlation_score,
    In (m1, m2, correlation_score) correlated_pairs /\
    markets opp = [m1; m2] /\
    (last_price m1 + last_price m2 < 0.95)%Q /\
    potential_profit opp = ((1 - (last_price m1 + last_price m2)) * 100)%Q /\
    (5 < potential_profit opp)%Q /\
    confidence_score opp = py_min correlation_score 0.9 /\
    (confidence_score opp <= 0.9)%Q /\
    (confidence_score opp <= correlation_score)%Q /\
    risk_level opp = risk_of (avg_volume_24h m1 m2) /\
    (risk_level opp = "Low" \/ risk_level opp = "Medium" \/ risk_level opp = "High").
Proof.
  unfold detect_arbitrage_opportunities. intros Hin.
  apply (Permutation_in _ (Permutation_sym (sorted_descending_permutation _ _))) in Hin.
  apply omap_In in Hin. destruct Hin as [[[m1 m2] c] [Hpair Hopp]].
  exists m1, m2, c. split; [exact Hpair|].
  unfold opportunity_of in Hopp.
  destruct (Qlt_le_dec (last_price m1 + last_price m2) 0.95) as [Hlt|Hge]; [|discriminate].
  injection Hopp as <-. simpl.
  pose proof (py_min_le c 0.9) as [Hc1 Hc2].
  repeat split; try reflexivity; try assumption; try lra.
  unfold risk_of.
  destruct (Qlt_le_dec 10000 _); [left; reflexivity|].
  destruct (Qlt_le_dec 1000 _); [right; left; reflexivity | right; right; reflexivity].
Qed.

Lemma opportunities_come_from_pairs_witness :
  exists m1 m2 correlation_score,
    In (m1, m2, correlation_score) [(market_a, market_b, 0.7%Q)] /\
    markets (mkOpportunity "Arbitrage between 'Will Democrats win' and 'Will Republicans win'"
               [market_a; market_b] ((1 - (0.40 + 0.45)) * 100) "Low" (py_min 0.7 0.9))
    = [m1; m2] /\
    (last_price m1 + last_price m2 < 0.95)%Q.
Proof.
  destruct (opportunities_come_from_pairs [(market_a, market_b, 0.7%Q)]
              (mkOpportunity "Arbitrage between 'Will Democrats win' and 'Will Republicans win'"
                 [market_a; market_b] ((1 - (0.40 + 0.45)) * 100) "Low" (py_min 0.7 0.9)))
    as (m1 & m2 & c & H1 & H2 & H3 & _).
  - left. reflexivity.
  - exists m1, m2, c. repeat split; assumption.
Defined.

Lemma omap_length_filter {A B : Type} (f : A -> option B) (xs : list A) :
  length (omap f xs) = length (List.filter (fun x => match f x with Some _ => true | None => false end) xs).
Proof.
  induction xs as [|x xs IH]; [reflexivity|].
  change (omap f (x :: xs)) with (match f x with Some y => y :: omap f xs | None => omap f xs end).
  cbn [List.filter]. destruct (f x); simpl; congruence.
Qed.

(** X4. No qualifying pair is lost or reported twice: the list returned by
    [detect_arbitrage_opportunities] is a rearrangement of the opportunities
    of the pairs in the order given, it has exactly as many entries as there
    are pairs whose last prices add up to less than 0.95, and every such pair
    has its opportunity in the list. *)
Theorem every_cheap_pair_is_reported (correlated_pairs : list (MarketData * MarketData * Q)) :
  Permutation (omap opportunity_of correlated_pairs)
              (detect_arbitrage_opportunities correlated_pairs) /\
  length (detect_arbitrage_opportunities correlated_pairs)
  = length (List.filter (fun pair : MarketData * MarketData * Q =>
                           let '(m1, m2, _) := pair in
                           if Qlt_le_dec (last_price m1 + last_price m2) 0.95 then true else false)
                        correlated_pairs) /\
  (length (detect_arbitrage_opportunities correlated_pairs) <= length correlated_pairs)%nat /\
  (forall m1 m2 correlation_score,
      In (m1, m2, correlation_score) correlated_pairs ->
      (last_price m1 + last_price m2 < 0.95)%Q ->
      exists opp, In opp (detect_arbitrage_opportunities correlated_pairs) /\
                  markets opp = [m1; m2] /\
                  confidence_score opp = py_min correlation_score 0.9).
Proof.
  assert (Hperm := sorted_descending_permutation potential_profit
                     (omap opportunity_of correlated_pairs)).
  assert (Hlen : length (detect_arbitrage_opportunities correlated_pairs)
                 = length (List.filter (fun pair : MarketData * MarketData * Q =>
                           let '(m1, m2, _) := pair in
                           if Qlt_le_dec (last_price m1 + last_price m2) 0.95 then true else false)
                        correlated_pairs)).
  { unfold detect_arbitrage_opportunities.
    rewrite <- (Permutation_length Hperm), omap_length_filter.
    f_equal. apply List.filter_ext. intros [[m1 m2] c]. unfold opportunity_of.
    destruct (Qlt_le_dec (last_price m1 + last_price m2) 0.95); reflexivity. }
  split; [exact Hperm|]. split; [exact Hlen|]. split.
  - rewrite Hlen. apply List.filter_length_le.
  - intros m1 m2 c Hin Hlt.
    exists {| description := "Arbitrage between '" +:+ title m1 +:+ "' and '" +:+ title m2 +:+ "'";
              markets := [m1; m2];
              potential_profit := ((1 - (last_price m1 + last_price m2)) * 100)%Q;
              risk_level := risk_of (inject_Z (volume_24h m1 + volume_24h m2) / 2);
              confidence_score := py_min c 0.9 |}.
    split; [|split; reflexivity].
    apply (Permutation_in _ Hperm). apply omap_In. exists (m1, m2, c). split; [exact Hin|].
    unfold opportunity_of.
    destruct (Qlt_le_dec (last_price m1 + last_price m2) 0.95) as [_|Hge]; [reflexivity|].
    exfalso. lra.
Qed.

Lemma insert_descending_filter {A : Type} (key : A -> Q) (x : A) (xs : list A) (k : Q) :
  descending key xs ->
  List.filter (fun y => Qeq_bool (key y) k) (insert_descending key x xs)
  = List.filter (fun y => Qeq_bool (key y) k) (x :: xs).
Proof.
  unfold descending. intros Hs. induction Hs as [|y ys Hys IH Hall]; [reflexivity|].
  cbn [insert_descending]. destruct (Qle_bool (key y) (key x)) eqn:E; [reflexivity|].
  assert (Hlt : (key x < key y)%Q).
  { destruct (Qlt_le_dec (key x) (key y)) as [H|H]; [exact H|].
    apply Qle_bool_iff in H. congruence. }
  change (List.filter (fun y0 => Qeq_bool (key y0) k) (y :: insert_descending key x ys)
          = List.filter (fun y0 => Qeq_bool (key y0) k) (x :: y :: ys)).
  cbn [List.filter]. rewrite IH. cbn [List.filter].
  destruct (Qeq_bool (key x) k) eqn:Ex, (Qeq_bool (key y) k) eqn:Ey; try reflexivity.
  apply Qeq_bool_eq in Ex, Ey. exfalso. lra.
Qed.

(** X5. Ties keep their order: for every profit value, the opportunities
    with that profit appear in the returned list in the order in which their
    pairs were given ([sorted] is stable, also with [reverse=True]). The list
    as a whole is in descending order of profit. *)
Theorem equal_profits_keep_pair_order (correlated_pairs : list (MarketData * MarketData * Q))
  (profit : Q) :
  List.filter (fun opp => Qeq_bool (potential_profit opp) profit)
              (detect_arbitrage_opportunities correlated_pairs)
  = List.filter (fun opp => Qeq_bool (potential_profit opp) profit)
                (omap opportunity_of correlated_pairs) /\
  descending potential_profit (detect_arbitrage_opportunities correlated_pairs).
Proof.
  split; [|apply sorted_descending_sorted].
  unfold detect_arbitrage_opportunities.
  induction (omap opportunity_of correlated_pairs) as [|opp opps IH]; [reflexivity|].
  cbn [sorted_descending fold_right].
  rewrite insert_descending_filter by apply sorted_descending_sorted.
  cbn [List.filter]. unfold sorted_descending in IH. rewrite IH. reflexivity.
Qed.
Lemma filter_split {A : Type} (p : A -> bool) (xs front back : list A) (x : A) :
  List.filter p xs = (front ++ x :: back)%list ->
  exists front' back',
    xs = (front' ++ x :: back')%list /\ List.filter p front' = front /\
    List.filter p back' = back /\ p x = true.
Proof.
  revert front. induction xs as [|y ys IH]; intros front H.
  - destruct front; discriminate.
  - cbn [List.filter] in H. destruct (p y) eqn:Ey.
    + destruct front as [|f front].
      * injection H as Hyx Hback. subst y. exists [], ys. cbn [List.filter].
        repeat split; assumption.
      * injection H as Hyf Hrest. subst f.
        destruct (IH front Hrest) as (f' & b' & -> & Hf & Hb & Hx).
        exists (y :: f'), b'. cbn [List.filter]. rewrite Ey, Hf. repeat split; assumption.
    + destruct (IH front H) as (f' & b' & -> & Hf & Hb & Hx).
      exists (y :: f'), b'. cbn [List.filter]. rewrite Ey. repeat split; assumption.
Qed.

Lemma occurs_before_filter {A : Type} (p : A -> bool) (x y : A) (xs : list A) :
  occurs_before x y (List.filter p xs) <->
  occurs_before x y xs /\ p x = true /\ p y = true.
Proof.
  split.
  - intros (front & middle & back & H).
    apply filter_split in H. destruct H as (front' & rest & -> & Hf & Hrest & Hx).
    apply filter_split in Hrest. destruct Hrest as (middle' & back' & -> & Hm & Hb & Hy).
    split; [|split; assumption]. exists front', middle', back'. reflexivity.
  - intros [(front & middle & back & ->) [Hx Hy]].
    exists (List.filter p front), (List.filter p middle), (List.filter p back).
    rewrite List.filter_app. cbn [List.filter]. rewrite Hx, List.filter_app.
    cbn [List.filter]. rewrite Hy. reflexivity.
Qed.

Lemma scored_pairs_In (threshold : Q) (series_markets : list MarketData)
  (m1 m2 : MarketData) (score : Q) :
  In (m1, m2, score) (scored_pairs threshold series_markets) <->
  score = _calculate_correlation_score m1 m2 /\ (threshold <= score)%Q /\
  occurs_before m1 m2 series_markets.
Proof.
  induction series_markets as [|m later IH].
  - split; [intros []|]. intros (_ & _ & front & middle & back & H).
    destruct front; discriminate.
  - cbn [scored_pairs]. rewrite in_app_iff, omap_In, IH. split.
    + intros [(m2' & Hin & Hsome)|(Hs & Ht & front & middle & back & ->)].
      * destruct (Qle_bool threshold (_calculate_correlation_score m m2')) eqn:E; [|discriminate].
        injection Hsome as -> -> <-. apply Qle_bool_iff in E.
        split; [reflexivity|]. split; [exact E|].
        apply in_split in Hin. destruct Hin as (middle & back & ->).
        exists [], middle, back. reflexivity.
      * split; [exact Hs|]. split; [exact Ht|].
        exists (m :: front), middle, back. reflexivity.
    + intros (Hs & Ht & front & middle & back & H).
      destruct front as [|f front].
      * injection H as -> ->. left. exists m2. split.
        -- apply in_or_app. right. left. reflexivity.
        -- subst score. apply Qle_bool_iff in Ht. rewrite Ht. reflexivity.
      * injection H as -> ->. right. split; [exact Hs|]. split; [exact Ht|].
        exists front, middle, back. reflexivity.
Qed.

Lemma assoc_group_append (key series : string) (market : MarketData)
  (groups : list (string * list MarketData)) :
  assoc key (group_append series market groups)
  = if String.eqb series key
    then Some (match assoc series groups with Some members => members | None => [] end ++ [market])%list
    else assoc key groups.
Proof.
  induction groups as [|[k members] rest IH]; cbn [group_append assoc].
  - reflexivity.
  - destruct (String.eqb_spec k series) as [->|Hne]; cbn [assoc].
    + destruct (String.eqb_spec series key) as [->|Hne']; [reflexivity|reflexivity].
    + rewrite IH. destruct (String.eqb_spec k key) as [->|Hk].
      * destruct (String.eqb_spec series key) as [->|_]; [contradiction|reflexivity].
      * reflexivity.
Qed.

Lemma keys_group_append (series : string) (market : MarketData)
  (groups : list (string * list MarketData)) :
  List.NoDup (map fst groups) ->
  List.NoDup (map fst (group_append series market groups)) /\
  (forall k, In k (map fst (group_append series market groups)) <->
             k = series \/ In k (map fst groups)).
Proof.
  induction groups as [|[k members] rest IH]; cbn [group_append map fst]; intros Hnd.
  - split; [apply List.NoDup_cons_iff; split; [intros []|constructor]|]. intros k. simpl. intuition.
  - apply List.NoDup_cons_iff in Hnd. destruct Hnd as [Hk Hnd].
    destruct (String.eqb_spec k series) as [->|Hne]; cbn [map fst].
    + split; [apply List.NoDup_cons_iff; split; assumption|]. intros k'. simpl. intuition.
    + destruct (IH Hnd) as [IH1 IH2]. split.
      * apply List.NoDup_cons_iff. split; [|exact IH1]. rewrite IH2. intros [->|H]; contradiction.
      * intros k'. simpl. rewrite IH2. intuition.
Qed.

Lemma assoc_In {A : Type} (key : string) (v : A) (items : list (string * A)) :
  List.NoDup (map fst items) -> (In (key, v) items <-> assoc key items = Some v).
Proof.
  induction items as [|[k w] rest IH]; cbn [map fst assoc]; intros Hnd.
  - split; [intros []|discriminate].
  - apply List.NoDup_cons_iff in Hnd. destruct Hnd as [Hk Hnd].
    destruct (String.eqb_spec k key) as [->|Hne].
    + split.
      * intros [H|H]; [congruence|]. exfalso. apply Hk. apply (in_map fst) in H. exact H.
      * intros [= <-]. left. reflexivity.
    + rewrite <- (IH Hnd). split; [intros [H|H]; [congruence|exact H]|]. intros H. right. exact H.
Qed.

Lemma group_by_series_spec (markets : list MarketData) :
  List.NoDup (map fst (group_by_series markets)) /\
  forall key,
    assoc key (group_by_series markets)
    = match List.filter (fun m => String.eqb (series_of m) key) markets with
      | [] => None
      | members => Some members
      end.
Proof.
  unfold group_by_series. induction markets as [|m ms IH] using rev_ind.
  - split; [constructor|reflexivity].
  - destruct IH as [Hnd IH]. rewrite fold_left_app. cbn [fold_left].
    split; [apply keys_group_append, Hnd|].
    intros key. rewrite assoc_group_append, List.filter_app. cbn [List.filter].
    destruct (String.eqb_spec (series_of m) key) as [->|Hne].
    + rewrite IH. destruct (List.filter _ ms); reflexivity.
    + rewrite IH, app_nil_r. reflexivity.
Qed.

Lemma scored_pairs_short (threshold : Q) (series_markets : list MarketData) :
  (length series_markets < 2)%nat -> scored_pairs threshold series_markets = [].
Proof.
  destruct series_markets as [|m1 [|m2 rest]]; simpl; intros H; try reflexivity. lia.
Qed.

(** X6. [find_correlated_markets] reports a pair of markets with a score
    exactly when the first stands before the second among the selected
    markets (all markets, or those mentioning one of the tags), both belong
    to one series, the score is their correlation score, and that score
    reaches the threshold. Markets of different series are never paired,
    whatever their tags and titles. *)
Theorem correlated_pairs_characterised (markets : list MarketData)
  (tags' : option (list string)) (min_correlation_threshold : Q)
  (m1 m2 : MarketData) (score : Q) :
  In (m1, m2, score) (find_correlated_markets markets tags' min_correlation_threshold) <->
  occurs_before m1 m2 (selected_markets markets tags') /\
  series_of m1 = series_of m2 /\
  score = _calculate_correlation_score m1 m2 /\
  (min_correlation_threshold <= score)%Q.
Proof.
  unfold find_correlated_markets. fold (selected_markets markets tags').
  cbv zeta. generalize (selected_markets markets tags') as selected. intros selected.
  destruct (group_by_series_spec selected) as [Hnd Hassoc].
  rewrite in_flat_map. split.
  - intros [[key members] [Hgroup Hin]]. cbn [snd] in Hin.
    destruct (length members <? 2)%nat; [destruct Hin|].
    apply scored_pairs_In in Hin. destruct Hin as (Hscore & Hthr & Hbefore).
    apply (assoc_In key members _ Hnd) in Hgroup. rewrite Hassoc in Hgroup.
    assert (Hmembers : members = List.filter (fun m => String.eqb (series_of m) key) selected).
    { destruct (List.filter _ selected); [discriminate|]. congruence. }
    rewrite Hmembers in Hbefore. apply occurs_before_filter in Hbefore.
    destruct Hbefore as (Hbefore & H1 & H2).
    apply String.eqb_eq in H1, H2. repeat split; try assumption. congruence.
  - intros (Hbefore & Hseries & Hscore & Hthr).
    set (key := series_of m1).
    set (members := List.filter (fun m => String.eqb (series_of m) key) selected).
    assert (Hmem : occurs_before m1 m2 members).
    { apply occurs_before_filter. split; [exact Hbefore|].
      split; apply String.eqb_eq; [reflexivity|symmetry; exact Hseries]. }
    exists (key, members). cbn [snd]. split.
    + apply (assoc_In key members _ Hnd). rewrite Hassoc. fold members.
      destruct Hmem as (front & middle & back & Hm). rewrite Hm.
      destruct front; reflexivity.
    + destruct (Nat.ltb_spec (length members) 2) as [Hshort|_].
      * destruct Hmem as (front & middle & back & Hm). rewrite Hm in Hshort.
        rewrite length_app in Hshort. cbn [length] in Hshort.
        rewrite length_app in Hshort. cbn [length] in Hshort. lia.
      * apply scored_pairs_In. repeat split; assumption.
Qed.

Lemma slice_to_prefix {A : Type} (k : Z) (xs : list A) :
  exists rest, xs = (slice_to k xs ++ rest)%list.
Proof.
  unfold slice_to. destruct (0 <=? k)%Z.
  - exists (skipn (Z.to_nat k) xs). symmetry. apply firstn_skipn.
  - exists (skipn (length xs - Z.to_nat (- k)) xs). symmetry. apply firstn_skipn.
Qed.

Lemma slice_to_length {A : Type} (k : Z) (xs : list A) :
  (0 <= k)%Z -> (Z.of_nat (length (slice_to k xs)) <= k)%Z.
Proof.
  intros Hk. unfold slice_to. destruct (Z.leb_spec 0 k) as [_|H]; [|lia].
  rewrite length_firstn. lia.
Qed.



Lemma correlated_pairs_characterised_witness :
  In (market_a, market_b, _calculate_correlation_score market_a market_b)
     (find_correlated_markets [market_a; market_c; market_b] None 0.6).
Proof.
  apply (proj2 (correlated_pairs_characterised [market_a; market_c; market_b] None 0.6
                  market_a market_b (_calculate_correlation_score market_a market_b))).
  split; [exists [], [market_c], []; reflexivity|].
  split; [reflexivity|]. split; [reflexivity|].
  apply Qle_bool_iff. vm_compute. reflexivity.
Defined.


(* ===================================================================== *)
(** ** lead_scoring.py beyond the claims: tiers in reach, top leads, the template *)
(* ===================================================================== *)

Lemma ranked_row (argsort : list float64 -> list nat) (census_df : DataFrame)
    (total : option (list float64)) (p : nat) :
  sorts_descending argsort ->
  (p < len (reorder (argsort (composite_values census_df total)) (scored_frame census_df total)))%nat ->
  exists j,
    nth_error (argsort (composite_values census_df total)) p = Some j /\
    (j < len census_df)%nat /\
    column_at (reorder (argsort (composite_values census_df total)) (scored_frame census_df total))
              "composite_score" p
    = Some (Val (nth j (composite_values census_df total) NaN)) /\
    column_at (reorder (argsort (composite_values census_df total)) (scored_frame census_df total))
              "lead_tier" p
    = Some (tier_cell (lead_tier (nth j (composite_values census_df total) NaN))).
Proof.
  intros Hsort Hp. set (xs := composite_values census_df total) in *.
  unfold len in Hp. cbn [reorder index] in Hp. rewrite length_map in Hp.
  destruct (nth_error (argsort xs) p) as [j|] eqn:Ej;
    [|apply nth_error_None in Ej; lia].
  exists j. split; [reflexivity|].
  assert (Hj : (j < len census_df)%nat).
  { pose proof (sorts_descending_in_range argsort xs p j Hsort Ej) as H.
    unfold xs, composite_values in H. rewrite length_reindex in H. exact H. }
  split; [exact Hj|]. unfold column_at. split.
  - rewrite lookup_reorder, scored_frame_composite. cbn [option_map take cells].
    rewrite !nth_error_map_nth, Ej. reflexivity.
  - rewrite lookup_reorder, scored_frame_tier. cbn [option_map take cells].
    rewrite nth_error_map_nth, Ej. cbn [option_map]. rewrite nth_tiers. reflexivity.
Qed.

Lemma ranked_row_in_range
    (argsort : list float64 -> list nat) (census_df : DataFrame)
    (g l s c sp r : list float64) (total : option (list float64)) (p : nat) :
  sorts_descending argsort ->
  bounded 0 5 (len census_df) g -> bounded 0 5 (len census_df) l ->
  bounded 3 5 (len census_df) s -> bounded 0 5 (len census_df) c ->
  bounded 1 5 (len census_df) sp -> bounded 1 5 (len census_df) r ->
  composite_score (six_components g l s c sp r) = Ok total ->
  (p < len (reorder (argsort (composite_values census_df total)) (scored_frame census_df total)))%nat ->
  exists j q,
    nth_error (argsort (composite_values census_df total)) p = Some j /\
    nth j (composite_values census_df total) NaN = Fin q /\
    (0.8 <= q)%Q /\ (q <= 5)%Q /\
    column_at (reorder (argsort (composite_values census_df total)) (scored_frame census_df total))
              "composite_score" p = Some (Val (Fin q)) /\
    column_at (reorder (argsort (composite_values census_df total)) (scored_frame census_df total))
              "lead_tier" p = Some (tier_cell (lead_tier (Fin q))).
Proof.
  intros Hsort Hg Hl Hs Hc Hsp Hr Htotal Hp.
  destruct (ranked_row argsort census_df total p Hsort Hp) as (j & Ej & Hj & Hcomp & Htier).
  destruct (Hg j Hj) as (qg & Eg & Hg1 & Hg2). destruct (Hl j Hj) as (ql & El & Hl1 & Hl2).
  destruct (Hs j Hj) as (qs & Es & Hs1 & Hs2). destruct (Hc j Hj) as (qc & Ec & Hc1 & Hc2).
  destruct (Hsp j Hj) as (qsp & Esp & Hsp1 & Hsp2). destruct (Hr j Hj) as (qr & Er & Hr1 & Hr2).
  pose proof Htotal as Hsix. rewrite composite_score_six in Hsix. injection Hsix as <-.
  set (series := add _ _) in *.
  destruct (composite_row g l s c sp r series j qg ql qs qc qsp qr Htotal Eg El Es Ec Esp Er)
    as (q & Hq & Hformula).
  assert (Hnth : nth j (composite_values census_df (Some series)) NaN = Fin q).
  { unfold composite_values. rewrite nth_reindex by exact Hj. exact Hq. }
  rewrite Hnth in Hcomp, Htier. unfold weighted_formula in Hformula.
  exists j, q. split; [exact Ej|]. split; [exact Hnth|].
  split; [rewrite Hformula; lra|]. split; [rewrite Hformula; lra|].
  split; assumption.
Qed.

Lemma ranked_len (argsort : list float64 -> list nat) (census_df : DataFrame)
    (total : option (list float64)) :
  sorts_descending argsort ->
  len (reorder (argsort (composite_values census_df total)) (scored_frame census_df total))
  = len census_df.
Proof.
  intros Hsort. unfold len. cbn [reorder index]. rewrite length_map.
  destruct (Hsort (composite_values census_df total)) as [Hperm _].
  rewrite (Permutation_length Hperm), length_seq.
  unfold composite_values. apply length_reindex.
Qed.

(** X8. Top Tier is out of reach. When the six component series hold, for
    every row, values in the ranges the component functions keep (growth,
    legitimacy and contact in [0,5], safety in [3,5], specialization and
    recency in [1,5]), every row of the returned table has a composite score
    between 0.8 and 5, so its tier is Low, Medium or High Priority: no row is
    left without a tier, and none is Top Tier, which needs a score above 5. *)
Theorem scored_rows_never_reach_top_tier
    (argsort : list float64 -> list nat) (census_df : DataFrame)
    (g l s c sp r : list float64) (out : DataFrame) :
  sorts_descending argsort ->
  bounded 0 5 (len census_df) g -> bounded 0 5 (len census_df) l ->
  bounded 3 5 (len census_df) s -> bounded 0 5 (len census_df) c ->
  bounded 1 5 (len census_df) sp -> bounded 1 5 (len census_df) r ->
  score_and_rank argsort census_df (six_components g l s c sp r) = Ok out ->
  len out = len census_df /\
  forall p, (p < len out)%nat ->
    exists q,
      column_at out "composite_score" p = Some (Val (Fin q)) /\
      (0.8 <= q)%Q /\ (q <= 5)%Q /\
      column_at out "lead_tier" p <> Some (Text "Top Tier") /\
      (column_at out "lead_tier" p = Some (Text "Low Priority") \/
       column_at out "lead_tier" p = Some (Text "Medium Priority") \/
       column_at out "lead_tier" p = Some (Text "High Priority")).
Proof.
  intros Hsort Hg Hl Hs Hc Hsp Hr Hout.
  apply score_and_rank_inv in Hout as (total & Htotal & ->).
  split; [apply ranked_len; exact Hsort|].
  intros p Hp.
  destruct (ranked_row_in_range argsort census_df g l s c sp r total p
              Hsort Hg Hl Hs Hc Hsp Hr Htotal Hp)
    as (j & q & _ & _ & Hlo & Hhi & Hcomp & Htier).
  exists q. split; [exact Hcomp|]. split; [exact Hlo|]. split; [exact Hhi|].
  rewrite Htier, lead_tier_Fin.
  decide_flt; cbn [tier_cell]; first [exfalso; lra | split; [discriminate|auto]].
Qed.

Lemma scored_rows_never_reach_top_tier_witness :
  exists out,
    score_and_rank stable_argsort sample_census sample_components = Ok out /\
    len out = 3%nat /\
    column_at out "lead_tier" 0 = Some (Text "Medium Priority") /\
    column_at out "lead_tier" 0 <> Some (Text "Top Tier").
Proof.
  eexists. split; [reflexivity|].
  match goal with
  | |- len ?out = _ /\ _ =>
      destruct (scored_rows_never_reach_top_tier stable_argsort sample_census
                  [Fin 0; Fin 3; Fin 5] [Fin 4; Fin 4; Fin 3] [Fin 3; Fin 3; Fin 3]
                  [Fin 5; Fin 3; Fin 2] [Fin 4.5; Fin 1; Fin 1] [Fin 5; Fin 3; Fin 3]
                  out (insertion_argsort_sorts false)) as [Hlen Hrows]
  end.
  1-6: intros [|[|[|i]]] Hi;
    [eexists; split; [reflexivity|split; lra]..
    |exfalso; change (len sample_census) with 3%nat in Hi; lia].
  - reflexivity.
  - split; [reflexivity|].
    destruct (Hrows 0%nat) as (q & _ & _ & _ & Hne & _); [rewrite Hlen; change (len sample_census) with 3%nat; lia|].
    split; [reflexivity|exact Hne].
Defined.

Lemma cells_take (rows : list nat) (c : column) :
  cells (take rows c) = map (fun i => nth i (cells c) (Val NaN)) rows.
Proof.
  destruct c as [xs|cs]; cbn [take cells]; [|reflexivity].
  rewrite map_map. apply map_ext. intros i.
  change (Val NaN) with (Val NaN). symmetry. apply (map_nth Val).
Qed.

Lemma take_take (rows rows' : list nat) (c : column) :
  Forall (fun i => (i < length rows)%nat) rows' ->
  take rows' (take rows c) = take (map (fun i => nth i rows 0%nat) rows') c.
Proof.
  intros Hall. destruct c as [xs|cs]; cbn [take]; f_equal; rewrite map_map;
    apply map_ext_in; intros i Hi; rewrite List.Forall_forall in Hall; specialize (Hall i Hi).
  - rewrite (nth_indep _ NaN ((fun j => nth j xs NaN) 0%nat)) by (rewrite length_map; exact Hall).
    apply (map_nth (fun j => nth j xs NaN)).
  - rewrite (nth_indep _ (Val NaN) ((fun j => nth j cs (Val NaN)) 0%nat))
      by (rewrite length_map; exact Hall).
    apply (map_nth (fun j => nth j cs (Val NaN))).
Qed.

Lemma reorder_reorder (rows rows' : list nat) (df : DataFrame) :
  Forall (fun i => (i < length rows)%nat) rows' ->
  reorder rows' (reorder rows df) = reorder (map (fun i => nth i rows 0%nat) rows') df.
Proof.
  intros Hall. unfold reorder. cbn [index columns]. f_equal.
  - rewrite map_map. apply map_ext_in. intros i Hi.
    rewrite List.Forall_forall in Hall. specialize (Hall i Hi).
    rewrite (nth_indep _ 0%nat ((fun j => nth j (index df) 0%nat) 0%nat))
      by (rewrite length_map; exact Hall).
    apply (map_nth (fun j => nth j (index df) 0%nat)).
  - rewrite map_map. apply map_ext. intros [k c]. cbn [fst snd].
    rewrite take_take by exact Hall. reflexivity.
Qed.

Lemma map_slice_to {A B : Type} (f : A -> B) (k : Z) (xs : list A) :
  map f (slice_to k xs) = slice_to k (map f xs).
Proof.
  unfold slice_to. rewrite length_map. destruct (0 <=? k)%Z; symmetry; apply firstn_map.
Qed.

Lemma slice_to_incl {A : Type} (k : Z) (xs : list A) (x : A) :
  In x (slice_to k xs) -> In x xs.
Proof.
  destruct (slice_to_prefix k xs) as [rest Hrest]. intros Hin.
  rewrite Hrest. apply in_or_app. left. exact Hin.
Qed.

Lemma map_nth_seq {A : Type} (d : A) (xs : list A) :
  map (fun i => nth i xs d) (seq 0 (length xs)) = xs.
Proof. exact (reindex_same_length d xs). Qed.

Lemma head_boolean_index (n : Z) (df : DataFrame) (mask : list bool) :
  head n (boolean_index df mask) = reorder (slice_to n (where_true mask)) df.
Proof.
  unfold head, boolean_index.
  assert (Hlen : len (reorder (where_true mask) df) = length (where_true mask)).
  { unfold len, reorder. cbn [index]. apply length_map. }
  rewrite Hlen, reorder_reorder.
  - rewrite map_slice_to, map_nth_seq. reflexivity.
  - apply List.Forall_forall. intros i Hi. apply slice_to_incl, in_seq in Hi. lia.
Qed.

Lemma enumerate_from_In {A : Type} (xs : list A) (start i : nat) (x : A) :
  In (i, x) (combine (seq start (length xs)) xs) <->
  (start <= i)%nat /\ nth_error xs (i - start) = Some x.
Proof.
  revert start. induction xs as [|y ys IH]; intros start; cbn [length seq combine].
  - split; [intros []|]. intros [_ H]. destruct (i - start)%nat; discriminate.
  - cbn [In]. rewrite IH. split.
    + intros [[= <- <-]|[Hle H]].
      * split; [lia|]. rewrite Nat.sub_diag. reflexivity.
      * split; [lia|]. replace (i - start)%nat with (S (i - S start)) by lia. exact H.
    + intros [Hle H]. destruct (Nat.eq_dec i start) as [->|Hne].
      * rewrite Nat.sub_diag in H. injection H as <-. left. reflexivity.
      * right. split; [lia|]. replace (i - start)%nat with (S (i - S start)) in H by lia. exact H.
Qed.

Lemma where_true_In (mask : list bool) (i : nat) :
  In i (where_true mask) <-> nth_error mask i = Some true.
Proof.
  unfold where_true, enumerate. rewrite in_map_iff. split.
  - intros [[j b] [Hj Hin]]. cbn [fst] in Hj. subst j.
    apply List.filter_In in Hin. destruct Hin as [Hin Hb]. cbn [snd] in Hb. subst b.
    apply enumerate_from_In in Hin. rewrite Nat.sub_0_r in Hin. apply Hin.
  - intros H. exists (i, true). split; [reflexivity|].
    apply List.filter_In. split; [|reflexivity].
    apply enumerate_from_In. rewrite Nat.sub_0_r. split; [lia|exact H].
Qed.

Lemma isin_true (values : list cell) (c : column) (i : nat) :
  nth_error (isin values c) i = Some true ->
  exists x, nth_error (cells c) i = Some x /\ existsb (cell_eqb x) values = true.
Proof.
  unfold isin. rewrite nth_error_map_nth.
  destruct (nth_error (cells c) i) as [x|]; [|discriminate].
  cbn [option_map]. intros [= H]. exists x. split; [reflexivity|exact H].
Qed.

Lemma cell_eqb_Text (x : cell) (s : string) : cell_eqb x (Text s) = true -> x = Text s.
Proof.
  destruct x as [[| | |q]|t]; cbn [cell_eqb]; try discriminate.
  intros H. apply String.eqb_eq in H. congruence.
Qed.

Lemma get_top_leads_ok (scored_df : DataFrame) (max_leads : Z) (tiers : column) :
  lookup_column "lead_tier" (columns scored_df) = Some tiers ->
  get_top_leads scored_df max_leads
  = Ok (selected_leads scored_df tiers
          (slice_to max_leads (where_true (isin [Text "Top Tier"; Text "High Priority"] tiers)))).
Proof.
  intros Htiers. unfold get_top_leads, getitem. rewrite Htiers. cbn [Py.bind].
  rewrite head_boolean_index, lookup_reorder, Htiers. reflexivity.
Qed.

Lemma selected_leads_len (scored_df : DataFrame) (tiers : column) (rows : list nat) :
  len (selected_leads scored_df tiers rows) = length rows.
Proof. unfold selected_leads, len, setitem, reorder. cbn [index]. apply length_map. Qed.

Lemma selected_leads_other (scored_df : DataFrame) (tiers : column) (rows : list nat)
    (key : string) :
  key <> "priority" ->
  lookup_column key (columns (selected_leads scored_df tiers rows))
  = option_map (take rows) (lookup_column key (columns scored_df)).
Proof.
  intros Hkey. unfold selected_leads, setitem. cbn [columns].
  rewrite lookup_set_column_ne by congruence. apply lookup_reorder.
Qed.

Lemma selected_leads_row (scored_df : DataFrame) (tiers : column) (rows : list nat)
    (p i : nat) (x : cell) :
  lookup_column "lead_tier" (columns scored_df) = Some tiers ->
  nth_error rows p = Some i -> nth_error (cells tiers) i = Some x ->
  column_at (selected_leads scored_df tiers rows) "lead_tier" p = Some x /\
  column_at (selected_leads scored_df tiers rows) "priority" p = Some (priority_cell x).
Proof.
  intros Htiers Ei Hx. split.
  - unfold column_at. rewrite selected_leads_other by discriminate.
    rewrite Htiers. cbn [option_map].
    rewrite cells_take, nth_error_map_nth, Ei. cbn [option_map].
    f_equal. apply nth_error_nth. exact Hx.
  - unfold column_at, selected_leads, setitem, map_dict. cbn [columns].
    rewrite lookup_set_column_eq. cbn [cells].
    assert (Hlen : len (reorder rows scored_df) = length rows).
    { unfold len, reorder. cbn [index]. apply length_map. }
    rewrite Hlen, cells_take.
    match goal with
    | |- nth_error (reindex _ _ ?cs) _ = _ =>
        replace (length rows) with (length cs) by (rewrite !length_map; reflexivity)
    end.
    rewrite reindex_same_length, !nth_error_map_nth, Ei. cbn [option_map].
    rewrite (nth_error_nth _ _ _ Hx). reflexivity.
Qed.

Lemma qualifying_row (tiers : column) (max_leads : Z) (rows : list nat) (p : nat) :
  rows = slice_to max_leads (where_true (isin [Text "Top Tier"; Text "High Priority"] tiers)) ->
  (p < length rows)%nat ->
  exists i x, nth_error rows p = Some i /\ nth_error (cells tiers) i = Some x /\
              (x = Text "Top Tier" \/ x = Text "High Priority").
Proof.
  intros Hrows Hp.
  destruct (nth_error rows p) as [i|] eqn:Ei; [|apply nth_error_None in Ei; lia].
  assert (Hin : In i (where_true (isin [Text "Top Tier"; Text "High Priority"] tiers))).
  { apply (slice_to_incl max_leads). rewrite <- Hrows. apply nth_error_In in Ei. exact Ei. }
  apply where_true_In, isin_true in Hin. destruct Hin as (x & Hx & Hmatch).
  exists i, x. split; [reflexivity|]. split; [exact Hx|].
  cbn [existsb] in Hmatch. apply orb_true_iff in Hmatch. destruct Hmatch as [H|H].
  - left. apply cell_eqb_Text. exact H.
  - right. rewrite orb_false_r in H. apply cell_eqb_Text. exact H.
Qed.

(** X9. What [get_top_leads] returns for a table with a [lead_tier] column:
    the first rows, in the order of the table and at most [max_leads] of them
    when that number is not negative, among the rows whose tier is Top Tier
    or High Priority; their cells are those of the table, and the new column
    [priority] reads Immediate Outreach for Top Tier and High Priority for
    High Priority. Without a [lead_tier] column the call raises [KeyError]. *)
Theorem top_leads_selection (scored_df : DataFrame) (max_leads : Z) :
  (lookup_column "lead_tier" (columns scored_df) = None ->
   get_top_leads scored_df max_leads = Raise (KeyError "lead_tier")) /\
  (forall tiers,
      lookup_column "lead_tier" (columns scored_df) = Some tiers ->
      exists top rows,
        get_top_leads scored_df max_leads = Ok top /\
        rows = slice_to max_leads
                 (where_true (isin [Text "Top Tier"; Text "High Priority"] tiers)) /\
        index top = map (fun i => nth i (index scored_df) 0%nat) rows /\
        (forall key, key <> "priority" ->
           lookup_column key (columns top)
           = option_map (take rows) (lookup_column key (columns scored_df))) /\
        ((0 <= max_leads)%Z -> (Z.of_nat (len top) <= max_leads)%Z) /\
        (forall p, (p < len top)%nat ->
           (column_at top "lead_tier" p = Some (Text "Top Tier") /\
            column_at top "priority" p = Some (Text "Immediate Outreach")) \/
           (column_at top "lead_tier" p = Some (Text "High Priority") /\
            column_at top "priority" p = Some (Text "High Priority")))).
Proof.
  split.
  - unfold get_top_leads, getitem. intros ->. reflexivity.
  - intros tiers Htiers. rewrite (get_top_leads_ok _ _ _ Htiers).
    set (rows := slice_to max_leads _).
    eexists. exists rows. split; [reflexivity|]. split; [reflexivity|].
    split; [reflexivity|]. split; [|split].
    + intros key Hkey. apply selected_leads_other. exact Hkey.
    + intros Hmax. rewrite selected_leads_len. apply slice_to_length. exact Hmax.
    + intros p Hp. rewrite selected_leads_len in Hp.
      destruct (qualifying_row tiers max_leads rows p eq_refl Hp) as (i & x & Ei & Hx & Hcase).
      destruct (selected_leads_row scored_df tiers rows p i x Htiers Ei Hx) as [Ht Hpr].
      rewrite Ht, Hpr. destruct Hcase as [->| ->]; [left|right]; split; reflexivity.
Qed.

Lemma where_true_prefix_from {A : Type} (R : A -> A -> Prop) (P : A -> bool) (xs : list A)
    (start : nat) :
  StronglySorted R xs ->
  (forall a b, R a b -> P b = true -> P a = true) ->
  map fst (List.filter snd (combine (seq start (length (map P xs))) (map P xs)))
  = seq start (length (List.filter P xs)).
Proof.
  intros Hsorted Hclosed. revert start.
  induction Hsorted as [|x xs Hxs IH Hall]; intros start; [reflexivity|].
  cbn [map length seq combine List.filter]. destruct (P x) eqn:Ex; cbn [snd map fst length seq].
  - f_equal. apply IH.
  - rewrite IH.
    assert (Hnone : List.filter P xs = []).
    { clear IH. induction Hall as [|y ys Hy Hys IHys]; [reflexivity|].
      cbn [List.filter]. destruct (P y) eqn:Ey.
      - rewrite (Hclosed x y Hy Ey) in Ex. discriminate.
      - apply StronglySorted_inv in Hxs. apply IHys, Hxs. }
    rewrite Hnone. reflexivity.
Qed.

Lemma where_true_prefix {A : Type} (R : A -> A -> Prop) (P : A -> bool) (xs : list A) :
  StronglySorted R xs ->
  (forall a b, R a b -> P b = true -> P a = true) ->
  where_true (map P xs) = seq 0 (length (List.filter P xs)).
Proof. intros Hs Hc. exact (where_true_prefix_from R P xs 0 Hs Hc). Qed.

Lemma high_or_top (v : float64) :
  existsb (cell_eqb (tier_cell (lead_tier v))) [Text "Top Tier"; Text "High Priority"]
  = flt (Fin 3.5) v.
Proof.
  destruct v as [| | |q]; try reflexivity.
  rewrite lead_tier_Fin. decide_flt; try reflexivity; exfalso; lra.
Qed.

Lemma above_cutoff_closed (a b : float64) :
  precedes a b = true -> flt (Fin 3.5) b = true -> flt (Fin 3.5) a = true.
Proof.
  unfold precedes. destruct a as [| | |qa], b as [| | |qb]; cbn [isna orb];
    try reflexivity; try discriminate.
  intros Hle Hb. apply fle_Fin in Hle. apply flt_Fin in Hb.
  destruct (flt (Fin 3.5) (Fin qa)) eqn:E; [reflexivity|].
  apply flt_Fin_false in E. exfalso. lra.
Qed.

Lemma firstn_seq_min (j start n : nat) : firstn j (seq start n) = seq start (Nat.min j n).
Proof.
  revert start n. induction j as [|j IH]; intros start [|n]; try reflexivity.
  cbn [seq firstn Nat.min]. f_equal. apply IH.
Qed.

Lemma slice_to_seq (k : Z) (n : nat) :
  slice_to k (seq 0 n) = seq 0 (length (slice_to k (seq 0 n))).
Proof.
  unfold slice_to. destruct (0 <=? k)%Z; rewrite ?length_seq, firstn_seq_min, length_seq; reflexivity.
Qed.

Lemma map_nth_seq_firstn {A : Type} (d : A) (xs : list A) (n : nat) :
  (n <= length xs)%nat -> map (fun i => nth i xs d) (seq 0 n) = firstn n xs.
Proof.
  intros Hn. rewrite <- (map_nth_seq d (firstn n xs)).
  rewrite length_firstn, Nat.min_l by exact Hn.
  apply map_ext_in. intros i Hi. apply in_seq in Hi.
  rewrite <- (firstn_skipn n xs) at 1. rewrite app_nth1; [reflexivity|].
  rewrite length_firstn. lia.
Qed.

Lemma ranked_tier_mask (argsort : list float64 -> list nat) (census_df : DataFrame)
    (total : option (list float64)) :
  exists tiers,
    lookup_column "lead_tier"
      (columns (reorder (argsort (composite_values census_df total))
                        (scored_frame census_df total))) = Some tiers /\
    isin [Text "Top Tier"; Text "High Priority"] tiers
    = map (fun v => flt (Fin 3.5) v)
          (map (fun j => nth j (composite_values census_df total) NaN)
               (argsort (composite_values census_df total))).
Proof.
  eexists. split.
  - rewrite lookup_reorder, scored_frame_tier. reflexivity.
  - unfold isin. rewrite cells_take. cbn [cells].
    rewrite (map_map (fun i => nth i _ (Val NaN))), (map_map (fun j => nth j _ NaN)).
    apply map_ext. intros j. rewrite nth_tiers. apply high_or_top.
Qed.

(** X10. The top leads are the head of the ranking. On the table that the
    scoring step returns, [get_top_leads] keeps the first [n] rows, for some
    [n] that is at most [max_leads] when that number is not negative: the
    index and every column of the result are the first [n] entries of the
    ranked table, each of these rows has a composite score above 3.5, and
    when fewer than [max_leads] rows are returned every other row of the
    ranked table has a score of 3.5 or less, or none. *)
Theorem top_leads_head_the_ranking
    (argsort : list float64 -> list nat) (census_df : DataFrame)
    (component_scores : list (string * list float64)) (out : DataFrame) (max_leads : Z) :
  sorts_descending argsort ->
  score_and_rank argsort census_df component_scores = Ok out ->
  exists top n,
    get_top_leads out max_leads = Ok top /\
    len top = n /\ (n <= len out)%nat /\
    ((0 <= max_leads)%Z -> (Z.of_nat n <= max_leads)%Z) /\
    index top = firstn n (index out) /\
    (forall key, key <> "priority" ->
       lookup_column key (columns top)
       = option_map (take (seq 0 n)) (lookup_column key (columns out))) /\
    (forall p, (p < n)%nat ->
       exists v, column_at out "composite_score" p = Some (Val v) /\ flt (Fin 3.5) v = true) /\
    ((0 <= max_leads)%Z -> (Z.of_nat n < max_leads)%Z ->
     forall p, (n <= p)%nat -> (p < len out)%nat ->
       exists v, column_at out "composite_score" p = Some (Val v) /\ flt (Fin 3.5) v = false).
Proof.
  intros Hsort Hout.
  apply score_and_rank_inv in Hout as (total & _ & ->).
  set (xs := composite_values census_df total).
  set (out := reorder (argsort xs) (scored_frame census_df total)).
  destruct (ranked_tier_mask argsort census_df total) as (tiers & Htiers & Hmask).
  fold xs in Htiers, Hmask. fold out in Htiers.
  set (vs := map (fun j => nth j xs NaN) (argsort xs)) in *.
  destruct (Hsort xs) as [Hperm Hsorted]. fold vs in Hsorted.
  assert (Hwhere : where_true (isin [Text "Top Tier"; Text "High Priority"] tiers)
                   = seq 0 (length (List.filter (fun v => flt (Fin 3.5) v) vs))).
  { rewrite Hmask.
    apply (where_true_prefix (fun a b => precedes a b = true) _ vs Hsorted).
    apply above_cutoff_closed. }
  set (k := length (List.filter (fun v => flt (Fin 3.5) v) vs)) in *.
  assert (Hlen_out : len out = length vs).
  { unfold out, len, reorder, vs. cbn [index]. rewrite !length_map. reflexivity. }
  assert (Hk : (k <= len out)%nat).
  { rewrite Hlen_out. apply List.filter_length_le. }
  rewrite (get_top_leads_ok out max_leads tiers Htiers), Hwhere.
  set (rows := slice_to max_leads (seq 0 k)).
  assert (Hrows : rows = seq 0 (length rows)) by apply slice_to_seq.
  assert (Hn : (length rows <= k)%nat).
  { destruct (slice_to_prefix max_leads (seq 0 k)) as [rest Hrest]. fold rows in Hrest.
    apply (f_equal (@length nat)) in Hrest. rewrite length_app, length_seq in Hrest. lia. }
  assert (Hvalue : forall p, (p < len out)%nat ->
                     column_at out "composite_score" p = Some (Val (nth p vs NaN))).
  { intros p Hp. destruct (ranked_row argsort census_df total p Hsort Hp)
      as (j & Ej & _ & Hcomp & _).
    fold xs in Ej, Hcomp. fold out in Hcomp. rewrite Hcomp. do 2 f_equal.
    unfold vs. symmetry. apply nth_error_nth. rewrite nth_error_map_nth, Ej. reflexivity. }
  assert (Hhigh : forall p, (p < length vs)%nat ->
                    (flt (Fin 3.5) (nth p vs NaN) = true <-> (p < k)%nat)).
  { intros p Hp.
    assert (Hin : In p (seq 0 k) <-> nth_error (map (fun v => flt (Fin 3.5) v) vs) p = Some true).
    { rewrite <- Hwhere, Hmask. apply where_true_In. }
    rewrite nth_error_map_nth, (nth_error_nth' vs NaN Hp) in Hin. cbn [option_map] in Hin.
    rewrite in_seq in Hin. split.
    - intros H. apply Hin. rewrite H. reflexivity.
    - intros H. assert (H' : (0 <= p < 0 + k)%nat) by lia. apply Hin in H'. congruence. }
  eexists. exists (length rows). split; [reflexivity|].
  split; [apply selected_leads_len|]. split; [lia|]. split; [|split; [|split; [|split]]].
  - intros Hmax. apply slice_to_length. exact Hmax.
  - unfold selected_leads, setitem, reorder. cbn [index]. rewrite Hrows at 1.
    apply map_nth_seq_firstn. fold (len out). lia.
  - intros key Hkey. rewrite selected_leads_other by exact Hkey. rewrite <- Hrows. reflexivity.
  - intros p Hp. exists (nth p vs NaN). split; [apply Hvalue; lia|].
    apply Hhigh; lia.
  - intros Hmax Hless p Hp1 Hp2. exists (nth p vs NaN). split; [apply Hvalue; exact Hp2|].
    assert (Hall : length rows = k).
    { unfold rows, slice_to in *. destruct (Z.leb_spec 0 max_leads) as [_|H]; [|lia].
      rewrite length_firstn, length_seq in *. lia. }
    destruct (flt (Fin 3.5) (nth p vs NaN)) eqn:E; [|reflexivity].
    apply Hhigh in E; lia.
Qed.

Lemma top_leads_head_the_ranking_witness :
  exists out top,
    score_and_rank stable_argsort sample_census
      (six_components [Fin 5; Fin 1; Fin 5] [Fin 5; Fin 1; Fin 5] [Fin 5; Fin 1; Fin 5]
                      [Fin 5; Fin 1; Fin 5] [Fin 5; Fin 1; Fin 5] [Fin 5; Fin 1; Fin 5]) = Ok out /\
    index out = [0; 2; 1]%nat /\
    get_top_leads out 1 = Ok top /\
    index top = [0%nat].
Proof.
  destruct (top_leads_head_the_ranking stable_argsort sample_census
              (six_components [Fin 5; Fin 1; Fin 5] [Fin 5; Fin 1; Fin 5] [Fin 5; Fin 1; Fin 5]
                              [Fin 5; Fin 1; Fin 5] [Fin 5; Fin 1; Fin 5] [Fin 5; Fin 1; Fin 5])
              _ 1 (insertion_argsort_sorts false) eq_refl)
    as (top & n & Htop & _).
  eexists. exists top. split; [reflexivity|]. split; [reflexivity|].
  split; [exact Htop|].
  vm_compute in Htop. injection Htop as <-. reflexivity.
Defined.

(** X11. [score_leads_template] never completes and never writes the file
    of top leads: for every file system and every input it raises, either
    from creating the directory or reading a file or, when all of that
    succeeds, from the scoring step, which raises on every table; the call to
    [to_csv] is never reached, so the outcome is the same whatever that call
    would do. *)
Theorem score_leads_template_never_completes
    (parse_float : string -> float64) (parse_datetime : cell -> option Z)
    (float_repr : float64 -> string) (now : Z) (argsort : list float64 -> list nat)
    (mkdir : string -> result unit) (path_exists : string -> bool)
    (read_csv : string -> result DataFrame) (to_csv to_csv' : DataFrame -> string -> result unit)
    (timestamp : string) (census_path : string) (sms_path li_path output_dir : option string) :
  raises (score_leads_template parse_float parse_datetime float_repr now argsort
            mkdir path_exists read_csv to_csv timestamp census_path sms_path li_path output_dir) /\
  score_leads_template parse_float parse_datetime float_repr now argsort
    mkdir path_exists read_csv to_csv timestamp census_path sms_path li_path output_dir
  = score_leads_template parse_float parse_datetime float_repr now argsort
      mkdir path_exists read_csv to_csv' timestamp census_path sms_path li_path output_dir.
Proof.
  unfold score_leads_template.
  destruct (mkdir _) as [[]|e]; cbn [Py.bind]; [|split; [eexists|]; reflexivity].
  destruct (read_csv census_path) as [census_df|e]; cbn [Py.bind];
    [|split; [eexists|]; reflexivity].
  destruct (read_optional path_exists read_csv sms_path) as [sms_df|e]; cbn [Py.bind];
    [|split; [eexists|]; reflexivity].
  destruct (read_optional path_exists read_csv li_path) as [li_df|e]; cbn [Py.bind];
    [|split; [eexists|]; reflexivity].
  destruct (scoring_raises parse_float parse_datetime float_repr now argsort
              census_df sms_df li_df) as [e ->].
  cbn [Py.bind]. split; [eexists|]; reflexivity.
Qed.

(** *** Growth: fleet sizes below zero, and the order of the scores *)

Lemma cat_astype_int_raises (cs : list (option Z)) :
  In None cs -> cat_astype_int cs = Raise (ValueError "Cannot convert float NaN to integer").
Proof.
  induction cs as [|[z|] cs IH]; cbn [cat_astype_int In].
  - intros [].
  - intros [H|H]; [discriminate|]. rewrite (IH H). reflexivity.
  - reflexivity.
Qed.

Lemma feq_Fin (a b : Q) : feq (Fin a) (Fin b) = true <-> (a == b)%Q.
Proof.
  unfold feq. rewrite andb_true_iff, !fle_Fin. split; [intros [H1 H2]|intros H; split]; lra.
Qed.

Lemma cut_fleet_negative (x : float64) :
  negative x -> cut_value fleet_bins fleet_labels true x = None.
Proof.
  unfold negative. intros Hx. destruct x as [| | |q]; try discriminate Hx; [reflexivity|].
  apply flt_Fin in Hx.
  unfold cut_value, fleet_bins, searchsorted_left. cbn [isna hd andb List.filter].
  assert (Hne : feq (Fin q) (Fin 0) = false).
  { apply not_true_is_false. intros H. apply feq_Fin in H. lra. }
  rewrite Hne. change (flt PInf (Fin q)) with false. cbv iota.
  decide_flt; try reflexivity; exfalso; lra.
Qed.

Lemma fillna_negative (d : float64) (x : float64) :
  negative x -> (if isna x then d else x) = x.
Proof. unfold negative. destruct x; try discriminate; reflexivity. Qed.

Lemma fleet_size_scores_negative (parse_float : string -> float64) (census_df : DataFrame)
    (c : column) (i : nat) (x : float64) :
  lookup_column "fleet_size" (columns census_df) = Some c ->
  nth_error (to_numeric parse_float c) i = Some x -> negative x ->
  fleet_size_scores parse_float census_df
  = Raise (ValueError "Cannot convert float NaN to integer").
Proof.
  intros Hc Hi Hx. unfold fleet_size_scores, numeric_filled, get, attr_of.
  rewrite Hc. cbn [option_map Py.bind]. apply cat_astype_int_raises.
  unfold cut, fillna. rewrite map_map.
  apply in_map_iff. exists x. split.
  - rewrite (fillna_negative _ _ Hx). apply cut_fleet_negative. exact Hx.
  - apply nth_error_In in Hi. exact Hi.
Qed.

(** X12. A fleet size below zero stops the scoring with [ValueError]: the
    value falls into no bin of [pd.cut], and the missing category cannot be
    cast to [int]. The error comes out of [_calculate_growth_score], with or
    without the safety table, and, growth being the first component
    computed, out of [calculate_comprehensive_score]. A census table without
    a [fleet_size] column stops both with [AttributeError]: the default 0 of
    [census_df.get] has no [fillna]. *)
Theorem growth_rejects_negative_fleet_size
    (parse_float : string -> float64) (parse_datetime : cell -> option Z)
    (float_repr : float64 -> string) (now : Z) (argsort : list float64 -> list nat)
    (census_df : DataFrame) (sms_df li_df : option DataFrame) :
  (forall c i x,
      lookup_column "fleet_size" (columns census_df) = Some c ->
      nth_error (to_numeric parse_float c) i = Some x -> negative x ->
      _calculate_growth_score parse_float census_df sms_df
      = Raise (ValueError "Cannot convert float NaN to integer") /\
      calculate_comprehensive_score parse_float parse_datetime float_repr now argsort
                                    census_df sms_df li_df
      = Raise (ValueError "Cannot convert float NaN to integer")) /\
  (lookup_column "fleet_size" (columns census_df) = None ->
   _calculate_growth_score parse_float census_df sms_df
   = Raise (AttributeError "'int' object has no attribute 'fillna'") /\
   calculate_comprehensive_score parse_float parse_datetime float_repr now argsort
                                 census_df sms_df li_df
   = Raise (AttributeError "'int' object has no attribute 'fillna'")).
Proof.
  split.
  - intros c i x Hc Hi Hx.
    assert (Hgrowth : _calculate_growth_score parse_float census_df sms_df
                      = Raise (ValueError "Cannot convert float NaN to integer")).
    { unfold _calculate_growth_score.
      rewrite (fleet_size_scores_negative parse_float census_df c i x Hc Hi Hx). reflexivity. }
    split; [exact Hgrowth|].
    unfold calculate_comprehensive_score, _calculate_all_components.
    rewrite Hgrowth. reflexivity.
  - intros Hc.
    assert (Hgrowth : _calculate_growth_score parse_float census_df sms_df
                      = Raise (AttributeError "'int' object has no attribute 'fillna'")).
    { unfold _calculate_growth_score, fleet_size_scores, numeric_filled, get, attr_of.
      rewrite Hc. reflexivity. }
    split; [exact Hgrowth|].
    unfold calculate_comprehensive_score, _calculate_all_components.
    rewrite Hgrowth. reflexivity.
Qed.

Lemma growth_rejects_negative_fleet_size_witness :
  _calculate_growth_score sample_parse_float census_negative_fleet None
  = Raise (ValueError "Cannot convert float NaN to integer") /\
  calculate_comprehensive_score sample_parse_float sample_parse_datetime sample_float_repr
                                sample_now stable_argsort census_negative_fleet None None
  = Raise (ValueError "Cannot convert float NaN to integer").
Proof.
  apply (proj1 (growth_rejects_negative_fleet_size sample_parse_float sample_parse_datetime
                  sample_float_repr sample_now stable_argsort census_negative_fleet None None)
           (Object [Text "12"; Val (Fin (-3))]) 1%nat (Fin (-3))).
  - reflexivity.
  - reflexivity.
  - reflexivity.
Defined.

Lemma cat_astype_int_nth (cs : list (option Z)) (ys : list float64) (i : nat) (c : option Z) :
  cat_astype_int cs = Ok ys -> nth_error cs i = Some c ->
  exists z, c = Some z /\ nth_error ys i = Some (of_Z z).
Proof.
  revert ys i. induction cs as [|[z|] cs IH]; intros ys i H Hi.
  - destruct i; discriminate.
  - cbn [cat_astype_int] in H. ok_step H. injection H as <-.
    destruct i as [|i]; cbn [nth_error] in *.
    + injection Hi as <-. exists z. split; reflexivity.
    + apply (IH x i eq_refl Hi).
  - discriminate.
Qed.

Lemma cat_astype_int_length (cs : list (option Z)) (ys : list float64) :
  cat_astype_int cs = Ok ys -> length ys = length cs.
Proof.
  revert ys. induction cs as [|[z|] cs IH]; intros ys H.
  - injection H as <-. reflexivity.
  - cbn [cat_astype_int] in H. ok_step H. injection H as <-.
    cbn [length]. f_equal. apply IH. reflexivity.
  - discriminate.
Qed.

Ltac decide_qle :=
  repeat match goal with
    | |- context [Qle_bool ?a ?b] =>
        let E := fresh "E" in
        destruct (Qle_bool a b) eqn:E;
        [apply Qle_bool_iff in E
        |apply (fle_Fin_false a b) in E]
    end.

Lemma cut_fleet_value (x : float64) (z : Z) :
  cut_value fleet_bins fleet_labels true (if isna x then Fin 0 else x) = Some z ->
  (inject_Z z == fleet_size_score x)%Q.
Proof.
  destruct x as [| | |q]; cbn [isna].
  - intros [= <-]. reflexivity.
  - discriminate.
  - intros [= <-]. reflexivity.
  - destruct (Qlt_le_dec q 0) as [Hneg|Hpos].
    { rewrite cut_fleet_negative; [discriminate|]. apply flt_Fin. exact Hneg. }
    unfold cut_value, fleet_bins, fleet_labels, searchsorted_left, fleet_size_score.
    cbn [isna hd andb List.filter].
    change (flt PInf (Fin q)) with false. cbv iota.
    destruct (feq (Fin q) (Fin 0)) eqn:Ez.
    + apply feq_Fin in Ez. intros [= <-]. decide_qle; try reflexivity; exfalso; lra.
    + assert (Hnz : ~ (q == 0)%Q).
      { intros H. apply feq_Fin in H. congruence. }
      decide_flt; cbn [length Nat.eqb orb Nat.sub nth_error];
        intros [= <-]; decide_qle; try reflexivity; exfalso; lra.
Qed.

Lemma fleet_size_score_monotone (x y : float64) :
  fle x y = true -> (fleet_size_score x <= fleet_size_score y)%Q.
Proof.
  destruct x as [| | |a], y as [| | |b]; cbn [fle]; try discriminate; intros H;
    unfold fleet_size_score; decide_qle; try lra.
  all: apply Qle_bool_iff in H; lra.
Qed.

(** X13. Without the safety table, the growth score of a row is read off its
    fleet size alone: 0 up to 1 vehicle, 1 up to 5, 2 up to 10, 3 up to 20,
    4 up to 50 and 5 above, each bin holding its upper edge; a fleet size
    that is missing or not a number counts as 0 vehicles. A larger fleet
    never scores lower. *)
Theorem growth_score_by_fleet_size
    (parse_float : string -> float64) (census_df : DataFrame) (sms_df : option DataFrame)
    (c : column) (scores : list float64) :
  enrichment_absent sms_df = true ->
  lookup_column "fleet_size" (columns census_df) = Some c ->
  _calculate_growth_score parse_float census_df sms_df = Ok scores ->
  length scores = length (cells c) /\
  (forall i x, nth_error (to_numeric parse_float c) i = Some x ->
     exists q, nth_error scores i = Some (Fin q) /\ (q == fleet_size_score x)%Q) /\
  (forall i j x y qi qj,
     nth_error (to_numeric parse_float c) i = Some x ->
     nth_error (to_numeric parse_float c) j = Some y ->
     nth_error scores i = Some (Fin qi) -> nth_error scores j = Some (Fin qj) ->
     fle x y = true -> (qi <= qj)%Q).
Proof.
  intros Habsent Hc H. rewrite (growth_without_enrichment _ _ _ Habsent) in H.
  unfold fleet_size_scores, numeric_filled, get, attr_of in H. rewrite Hc in H.
  cbn [option_map Py.bind] in H.
  assert (Hrow : forall i x, nth_error (to_numeric parse_float c) i = Some x ->
                   exists q, nth_error scores i = Some (Fin q) /\ (q == fleet_size_score x)%Q).
  { intros i x Hi.
    destruct (cat_astype_int_nth _ _ i
                (cut_value fleet_bins fleet_labels true (if isna x then Fin 0 else x)) H)
      as (z & Hz & Hscore).
    { unfold cut, fillna. rewrite !nth_error_map_nth, Hi. reflexivity. }
    exists (inject_Z z). split; [exact Hscore|]. apply cut_fleet_value. exact Hz. }
  split; [|split; [exact Hrow|]].
  - rewrite (cat_astype_int_length _ _ H). unfold cut, fillna.
    rewrite !length_map. apply length_to_numeric.
  - intros i j x y qi qj Hi Hj Hsi Hsj Hle.
    destruct (Hrow i x Hi) as (qi' & Hi' & Ei). destruct (Hrow j y Hj) as (qj' & Hj' & Ej).
    rewrite Hsi in Hi'. rewrite Hsj in Hj'. injection Hi' as <-. injection Hj' as <-.
    rewrite Ei, Ej. apply fleet_size_score_monotone. exact Hle.
Qed.

Lemma growth_score_by_fleet_size_witness :
  exists scores,
    _calculate_growth_score sample_parse_float sample_census None = Ok scores /\
    length scores = 3%nat /\
    exists q, nth_error scores 2 = Some (Fin q) /\ (q == 5)%Q.
Proof.
  eexists. split; [reflexivity|].
  match goal with
  | |- length ?scores = _ /\ _ =>
      destruct (growth_score_by_fleet_size sample_parse_float sample_census None
                  (Numeric [Fin 0; Fin 15; Fin 60]) scores eq_refl eq_refl eq_refl)
        as (Hlen & Hrow & _)
  end.
  split; [exact Hlen|]. apply (Hrow 2%nat (Fin 60)). reflexivity.
Defined.

(** *** Recency: the score of an age *)

Lemma cut_recency_value (d : Z) :
  (if isna (match cut_value recency_bins recency_labels true (of_Z d) with
            | Some q => Fin q
            | None => NaN
            end)
   then Fin 3
   else match cut_value recency_bins recency_labels true (of_Z d) with
        | Some q => Fin q
        | None => NaN
        end) = Fin (recency_of_days d).
Proof.
  unfold cut_value, recency_bins, recency_labels, searchsorted_left, recency_of_days, of_Z.
  cbn [isna hd andb List.filter].
  change (flt PInf (Fin (inject_Z d))) with false. cbv iota.
  destruct (Z.ltb_spec d 0) as [Hneg|Hpos].
  - assert (Hq : (inject_Z d < 0)%Q) by (unfold Qlt, Qle; simpl; lia).
    assert (Hne : feq (Fin (inject_Z d)) (Fin 0) = false).
    { apply not_true_is_false. intros H. apply feq_Fin in H. lra. }
    rewrite Hne. decide_flt; try reflexivity; exfalso; lra.
  - assert (Hq : (0 <= inject_Z d)%Q) by (unfold Qlt, Qle; simpl; lia).
    destruct (feq (Fin (inject_Z d)) (Fin 0)) eqn:Ez.
    + apply feq_Fin in Ez.
      assert (Hd : d = 0%Z) by (unfold Qeq in Ez; simpl in Ez; lia).
      subst d. reflexivity.
    + assert (Hnz : ~ (inject_Z d == 0)%Q).
      { intros H. apply feq_Fin in H. congruence. }
      destruct (Z.leb_spec d 30) as [H30|H30];
        [|destruct (Z.leb_spec d 90) as [H90|H90];
          [|destruct (Z.leb_spec d 365) as [H365|H365];
            [|destruct (Z.leb_spec d 730) as [H730|H730]]]].
      * assert ((inject_Z d <= 30)%Q) by (unfold Qlt, Qle; simpl; lia).
        decide_flt; try reflexivity; exfalso; lra.
      * assert ((30 < inject_Z d)%Q) by (unfold Qlt, Qle; simpl; lia).
        assert ((inject_Z d <= 90)%Q) by (unfold Qlt, Qle; simpl; lia).
        decide_flt; try reflexivity; exfalso; lra.
      * assert ((90 < inject_Z d)%Q) by (unfold Qlt, Qle; simpl; lia).
        assert ((inject_Z d <= 365)%Q) by (unfold Qlt, Qle; simpl; lia).
        decide_flt; try reflexivity; exfalso; lra.
      * assert ((365 < inject_Z d)%Q) by (unfold Qlt, Qle; simpl; lia).
        assert ((inject_Z d <= 730)%Q) by (unfold Qlt, Qle; simpl; lia).
        decide_flt; try reflexivity; exfalso; lra.
      * assert ((730 < inject_Z d)%Q) by (unfold Qlt, Qle; simpl; lia).
        decide_flt; try reflexivity; exfalso; lra.
Qed.

Lemma recency_of_days_monotone (d1 d2 : Z) :
  (0 <= d2)%Z -> (d2 <= d1)%Z -> (recency_of_days d1 <= recency_of_days d2)%Q.
Proof.
  intros H0 Hle. unfold recency_of_days.
  repeat match goal with
         | |- context [(?a <? ?b)%Z] => destruct (Z.ltb_spec a b)
         | |- context [(?a <=? ?b)%Z] => destruct (Z.leb_spec a b)
         end; try lra; lia.
Qed.

(** X14. The recency score of a row is read off the age of its registration
    in whole days: 5 up to 30 days, 4 up to 90, 3 up to 365, 2 up to 730 and
    1 beyond; a date that is missing, cannot be parsed or lies in the future
    gets the neutral 3. Of two dates that are not in the future the older
    never scores higher. Without an [add_date] column the subtraction from
    the current time raises [TypeError]. *)
Theorem recency_score_by_age (parse_datetime : cell -> option Z) (now : Z)
    (census_df : DataFrame) :
  (lookup_column "add_date" (columns census_df) = None ->
   _calculate_recency_score parse_datetime now census_df
   = Raise (TypeError "unsupported operand type(s) for -: 'Timestamp' and 'NoneType'")) /\
  (forall c,
      lookup_column "add_date" (columns census_df) = Some c ->
      exists scores,
        _calculate_recency_score parse_datetime now census_df = Ok scores /\
        length scores = length (cells c) /\
        forall i x, nth_error (cells c) i = Some x ->
          nth_error scores i
          = Some (Fin (match parse_datetime x with
                       | Some t => recency_of_days ((now - t) / nanoseconds_per_day)
                       | None => 3%Q
                       end))) /\
  (forall t1 t2, (t1 <= t2)%Z -> (t2 <= now)%Z ->
     (recency_of_days ((now - t1) / nanoseconds_per_day)
      <= recency_of_days ((now - t2) / nanoseconds_per_day))%Q) /\
  (forall t, (now < t)%Z -> recency_of_days ((now - t) / nanoseconds_per_day) = 3%Q).
Proof.
  unfold _calculate_recency_score, get. split; [intros ->; reflexivity|]. split; [|split].
  - intros c ->. cbn [Py.bind]. eexists. split; [reflexivity|]. split.
    + unfold fillna, cat_astype_float, cut, days_since, to_datetime.
      rewrite !length_map. reflexivity.
    + intros i x Hi. unfold fillna, cat_astype_float, cut, days_since, to_datetime.
      rewrite !nth_error_map_nth, Hi. cbn [option_map]. f_equal.
      destruct (parse_datetime x) as [t|]; [apply cut_recency_value|reflexivity].
  - intros t1 t2 H12 H2. apply recency_of_days_monotone.
    + apply Z.div_pos; [lia|reflexivity].
    + apply Z.div_le_mono; [reflexivity|lia].
  - intros t Hfuture. unfold recency_of_days.
    assert (Hneg : ((now - t) / nanoseconds_per_day < 0)%Z).
    { apply Z.div_lt_upper_bound; [reflexivity|]. lia. }
    destruct (Z.ltb_spec ((now - t) / nanoseconds_per_day) 0); [reflexivity|lia].
Qed.

(* ===================================================================== *)
(** ** parsers.py: the fixed-width parser *)
(* ===================================================================== *)

Lemma substring_nil (n m : nat) : String.substring n m EmptyString = EmptyString.
Proof. destruct n, m; reflexivity. Qed.

Lemma substring_beyond (n m : nat) (s : string) :
  (String.length s <= n)%nat -> String.substring n m s = EmptyString.
Proof.
  revert n. induction s as [|c s IH]; intros n Hn.
  - apply substring_nil.
  - destruct n as [|n]; [simpl in Hn; lia|]. simpl. apply IH. simpl in Hn. lia.
Qed.

Lemma substring_min (n m : nat) (s : string) :
  String.substring n (Nat.min m (String.length s - n)) s = String.substring n m s.
Proof.
  revert n m. induction s as [|c s IH]; intros n m.
  - rewrite !substring_nil. reflexivity.
  - destruct n as [|n].
    + destruct m as [|m]; [reflexivity|].
      cbn [String.length Nat.sub Nat.min String.substring]. f_equal.
      specialize (IH 0%nat m). rewrite Nat.sub_0_r in IH. exact IH.
    + cbn [String.length Nat.sub String.substring]. apply IH.
Qed.

Lemma slice_substring (line : string) (start_pos length : Z) :
  (0 <= start_pos)%Z -> (0 <= length)%Z ->
  (start_pos < Z.of_nat (String.length line))%Z ->
  Str.slice line start_pos (Z.min (start_pos + length) (Z.of_nat (String.length line)))
  = String.substring (Z.to_nat start_pos) (Z.to_nat length) line.
Proof.
  intros Hs Hl Hlt. unfold Str.slice, Str.slice_position.
  destruct (Z.ltb_spec start_pos 0) as [H|_]; [lia|].
  destruct (Z.ltb_spec (Z.min (start_pos + length) (Z.of_nat (String.length line))) 0)
    as [H|_]; [lia|].
  rewrite <- (substring_min (Z.to_nat start_pos) (Z.to_nat length)).
  f_equal; lia.
Qed.

Lemma field_value_substring (line : string) (start_pos length : Z) :
  (0 <= start_pos)%Z -> (0 <= length)%Z ->
  field_value line start_pos length
  = Str.strip (String.substring (Z.to_nat start_pos) (Z.to_nat length) line).
Proof.
  intros Hs Hl. unfold field_value.
  destruct (Z.ltb_spec start_pos (Z.of_nat (String.length line))) as [Hlt|Hge].
  - rewrite slice_substring by assumption. reflexivity.
  - rewrite substring_beyond by lia. reflexivity.
Qed.

Lemma record_get_set (key key' value : string) (record : list (string * string)) :
  record_get key' (record_set key value record)
  = if String.eqb key key' then Some value else record_get key' record.
Proof.
  induction record as [|[k v] rest IH]; cbn [record_set record_get].
  - reflexivity.
  - destruct (String.eqb_spec k key) as [->|Hne]; cbn [record_get].
    + destruct (String.eqb key key'); reflexivity.
    + rewrite IH. destruct (String.eqb_spec k key') as [->|Hk].
      * destruct (String.eqb_spec key key') as [->|_]; [contradiction|reflexivity].
      * reflexivity.
Qed.

Lemma keys_record_set (key value : string) (record : list (string * string)) :
  map fst (record_set key value record)
  = if existsb (String.eqb key) (map fst record) then map fst record
    else (map fst record ++ [key])%list.
Proof.
  induction record as [|[k v] rest IH]; cbn [record_set map fst existsb].
  - reflexivity.
  - rewrite (String.eqb_sym key k). destruct (String.eqb_spec k key) as [->|Hne]; cbn [map fst orb].
    + reflexivity.
    + rewrite IH. destruct (existsb _ _); reflexivity.
Qed.

Lemma parse_line_keys_from (specs : list (string * Z * Z)) (line : string)
    (row : list (string * string)) :
  map fst (fold_left (fun row spec =>
                        let '(field_name, start_pos, length) := spec in
                        record_set field_name (field_value line start_pos length) row)
                     specs row)
  = union_names (map fst row) (map spec_name specs).
Proof.
  unfold union_names. revert row.
  induction specs as [|[[name start_pos] length] specs IH]; intros row; [reflexivity|].
  cbn [fold_left map]. unfold spec_name at 1. cbn [fst].
  rewrite <- (keys_record_set name (field_value line start_pos length)). apply IH.
Qed.

Lemma parse_line_keys (specs : list (string * Z * Z)) (line : string) :
  map fst (parse_line specs line) = union_names [] (map spec_name specs).
Proof. apply (parse_line_keys_from specs line []). Qed.

Lemma parse_line_get (specs : list (string * Z * Z)) (line name : string)
    (start_pos length : Z) :
  List.NoDup (map spec_name specs) -> In (name, start_pos, length) specs ->
  record_get name (parse_line specs line) = Some (field_value line start_pos length).
Proof.
  unfold parse_line. intros Hnd Hin.
  induction specs as [|[[n s] l] specs IH] using rev_ind; [destruct Hin|].
  rewrite fold_left_app. cbn [fold_left]. rewrite record_get_set.
  rewrite map_app in Hnd. cbn [map] in Hnd. unfold spec_name at 2 in Hnd. cbn [fst] in Hnd.
  apply in_app_or in Hin. destruct Hin as [Hin|[[= <- <- <-]|[]]].
  - destruct (String.eqb_spec n name) as [->|Hne]; [|apply IH].
    + exfalso. apply NoDup_remove_2 in Hnd. apply Hnd. rewrite app_nil_r.
      apply (in_map spec_name) in Hin. exact Hin.
    + apply NoDup_remove_1 in Hnd. rewrite app_nil_r in Hnd. exact Hnd.
    + exact Hin.
  - rewrite String.eqb_refl. reflexivity.
Qed.

Lemma existsb_eqb_In (name : string) (seen : list string) :
  existsb (String.eqb name) seen = true <-> In name seen.
Proof.
  rewrite existsb_exists. split.
  - intros [x [Hx Heq]]. apply String.eqb_eq in Heq. subst x. exact Hx.
  - intros H. exists name. split; [exact H|apply String.eqb_refl].
Qed.

Lemma union_names_known (seen more : list string) :
  (forall name, In name more -> In name seen) -> union_names seen more = seen.
Proof.
  unfold union_names. revert seen. induction more as [|name more IH]; intros seen H; [reflexivity|].
  cbn [fold_left].
  assert (Hin : existsb (String.eqb name) seen = true).
  { apply existsb_eqb_In. apply H. left. reflexivity. }
  rewrite Hin. apply IH. intros n Hn. apply H. right. exact Hn.
Qed.

Lemma union_names_fresh (seen more : list string) :
  List.NoDup (seen ++ more) -> union_names seen more = (seen ++ more)%list.
Proof.
  unfold union_names. revert seen. induction more as [|name more IH]; intros seen H.
  - rewrite app_nil_r. reflexivity.
  - cbn [fold_left].
    assert (Hout : existsb (String.eqb name) seen = false).
    { apply not_true_is_false. intros Hin. apply existsb_eqb_In in Hin.
      apply NoDup_remove_2 in H. apply H. apply in_or_app. left. exact Hin. }
    rewrite Hout.
    change (seen ++ name :: more)%list with (seen ++ [name] ++ more)%list.
    rewrite app_assoc. apply IH. rewrite <- app_assoc. exact H.
Qed.

Lemma uniform_names_known (K : list string) (data : list (list (string * string))) :
  Forall (fun record => map fst record = K) data ->
  fold_left (fun seen record => union_names seen (map fst record)) data K = K.
Proof.
  intros H. induction H as [|record data Hr Hdata IH]; [reflexivity|].
  cbn [fold_left]. rewrite Hr, union_names_known by auto. exact IH.
Qed.

Lemma uniform_names (K : list string) (data : list (list (string * string))) :
  List.NoDup K -> Forall (fun record => map fst record = K) data ->
  fold_left (fun seen record => union_names seen (map fst record)) data []
  = match data with [] => [] | _ => K end.
Proof.
  intros Hnd H. destruct H as [|record data Hr Hdata]; [reflexivity|].
  cbn [fold_left]. rewrite Hr, (union_names_fresh [] K Hnd).
  apply uniform_names_known. exact Hdata.
Qed.

Lemma parse_lines_keys (specs : list (string * Z * Z)) (lines : list string) :
  Forall (fun record => map fst record = union_names [] (map spec_name specs))
         (parse_lines specs lines).
Proof.
  unfold parse_lines. apply List.Forall_forall. intros record Hin.
  apply in_map_iff in Hin. destruct Hin as (line & <- & _). apply parse_line_keys.
Qed.

Lemma lookup_named_column (f : string -> column) (name : string) (names : list string) :
  In name names ->
  lookup_column name (map (fun n => (n, f n)) names) = Some (f name).
Proof.
  induction names as [|n names IH]; [intros []|].
  cbn [map lookup_column]. destruct (String.eqb_spec n name) as [->|Hne]; [reflexivity|].
  intros [H|H]; [contradiction|]. apply IH. exact H.
Qed.

Lemma lstrip_length (s : string) : (String.length (Str.lstrip s) <= String.length s)%nat.
Proof.
  induction s as [|c s IH]; [simpl; lia|].
  cbn [Str.lstrip]. destruct (Str.is_space c); cbn [String.length]; lia.
Qed.

Lemma rev_onto_length (s acc : string) :
  String.length (Str.rev_onto s acc) = (String.length s + String.length acc)%nat.
Proof.
  revert acc. induction s as [|c s IH]; intros acc; [reflexivity|].
  cbn [Str.rev_onto String.length]. rewrite IH. cbn [String.length]. lia.
Qed.

Lemma reverse_length (s : string) : String.length (Str.reverse s) = String.length s.
Proof. unfold Str.reverse. rewrite rev_onto_length. simpl. lia. Qed.

Lemma strip_length (s : string) : (String.length (Str.strip s) <= String.length s)%nat.
Proof.
  unfold Str.strip, Str.rstrip. rewrite reverse_length.
  etransitivity; [apply lstrip_length|]. rewrite reverse_length. apply lstrip_length.
Qed.

Lemma substring_length_le (n m : nat) (s : string) :
  (String.length (String.substring n m s) <= m)%nat.
Proof.
  revert n m. induction s as [|c s IH]; intros n m.
  - rewrite substring_nil. simpl. lia.
  - destruct n as [|n]; [destruct m as [|m]|]; cbn [String.substring String.length].
    + lia.
    + specialize (IH 0%nat m). lia.
    + apply IH.
Qed.

(** X15. [_parse_chunk] makes one row of every line that is not empty (a
    line of blanks counts), in the order of the lines. When the field names
    are distinct the columns are the fields in the order of the layout, and
    the value of a field with a start and a length that are not negative is
    what the line holds from the start position on, at most [length]
    characters of it, with the blanks at both ends removed: a line that ends
    inside the field gives what is there, a line that ends before it gives
    the empty string. The value is never longer than the field. *)
Theorem fixed_width_rows (self : FMCSAFixedWidthParser) (lines : list string) :
  List.NoDup (map spec_name (field_specs self)) ->
  len (_parse_chunk self lines)
  = length (List.filter (fun line => negb (String.length line =? 0)%nat) lines) /\
  (List.filter (fun line => negb (String.length line =? 0)%nat) lines <> [] ->
   column_names (_parse_chunk self lines) = map spec_name (field_specs self)) /\
  forall name start_pos length p line,
    In (name, start_pos, length) (field_specs self) ->
    (0 <= start_pos)%Z -> (0 <= length)%Z ->
    nth_error (List.filter (fun line => negb (String.length line =? 0)%nat) lines) p = Some line ->
    column_at (_parse_chunk self lines) name p
    = Some (Text (Str.strip (String.substring (Z.to_nat start_pos) (Z.to_nat length) line))) /\
    (String.length (Str.strip (String.substring (Z.to_nat start_pos) (Z.to_nat length) line))
     <= Z.to_nat length)%nat.
Proof.
  intros Hnd. unfold _parse_chunk, from_records.
  set (kept := List.filter _ lines).
  assert (Hdata : parse_lines (field_specs self) lines = map (parse_line (field_specs self)) kept)
    by reflexivity.
  rewrite (uniform_names (union_names [] (map spec_name (field_specs self))))
    by (try apply parse_lines_keys; rewrite (union_names_fresh [] _ Hnd); exact Hnd).
  rewrite (union_names_fresh [] _ Hnd). cbn [app].
  split; [|split].
  - unfold len. cbn [index]. rewrite length_seq, Hdata. apply length_map.
  - intros Hne. unfold column_names. cbn [columns]. rewrite Hdata.
    destruct kept as [|l kept']; [contradiction|]. cbn [map].
    rewrite map_map. cbn [fst]. apply map_id.
  - intros name start_pos length p line Hin Hs Hl Hp. split.
    + unfold column_at. cbn [columns]. rewrite Hdata.
      destruct kept as [|l kept'] eqn:Ek; [destruct p; discriminate|]. rewrite <- Ek in *.
      assert (Hmap : map (parse_line (field_specs self)) (l :: kept')
                     = parse_line (field_specs self) l
                       :: map (parse_line (field_specs self)) kept') by reflexivity.
      rewrite Ek, Hmap, <- Hmap, <- Ek.
      rewrite (lookup_named_column
                 (fun n => Object (map (fun record => match record_get n record with
                                                      | Some v => Text v
                                                      | None => Val NaN
                                                      end)
                                       (map (parse_line (field_specs self)) kept)))).
      * cbn [cells]. rewrite !nth_error_map_nth, Hp. cbn [option_map].
        rewrite (parse_line_get _ _ _ _ _ Hnd Hin), field_value_substring by assumption.
        reflexivity.
      * apply (in_map spec_name) in Hin. exact Hin.
    + etransitivity; [apply strip_length|apply substring_length_le].
Qed.

Lemma fixed_width_rows_witness :
  len (_parse_chunk sample_layout sample_lines) = 2%nat /\
  column_at (_parse_chunk sample_layout sample_lines) "dot_number" 0 = Some (Text "12") /\
  column_at (_parse_chunk sample_layout sample_lines) "state" 0 = Some (Text "TX") /\
  column_at (_parse_chunk sample_layout sample_lines) "dot_number" 1 = Some (Text "345") /\
  column_at (_parse_chunk sample_layout sample_lines) "state" 1 = Some (Text "").
Proof.
  assert (Hnd : List.NoDup (map spec_name (field_specs sample_layout))).
  { repeat constructor; simpl; intuition discriminate. }
  destruct (fixed_width_rows sample_layout sample_lines Hnd) as (Hlen & _ & Hcell).
  split; [exact Hlen|].
  split; [apply (Hcell "dot_number" 0%Z 4%Z 0%nat "  12  TX"); [left; reflexivity|lia|lia|reflexivity]|].
  split; [apply (Hcell "state" 6%Z 2%Z 0%nat "  12  TX");
          [right; left; reflexivity|lia|lia|reflexivity]|].
  split; [apply (Hcell "dot_number" 0%Z 4%Z 1%nat "345"); [left; reflexivity|lia|lia|reflexivity]|].
  apply (Hcell "state" 6%Z 2%Z 1%nat "345"); [right; left; reflexivity|lia|lia|reflexivity].
Defined.

(** *** Chunks *)

Lemma read_chunks_pieces (self : FMCSAFixedWidthParser) (chunk_size : Z)
    (lines chunk_lines : list string) (chunks : list DataFrame) :
  exists pieces,
    fst (read_chunks self chunk_size lines chunk_lines chunks)
    = (chunks ++ map (_parse_chunk self) pieces)%list /\
    (concat pieces ++ snd (read_chunks self chunk_size lines chunk_lines chunks))%list
    = (chunk_lines
       ++ map (Str.rstrip_chars (String "010" (String "013" EmptyString))) lines)%list.
Proof.
  revert chunk_lines chunks. induction lines as [|line rest IH]; intros chunk_lines chunks.
  - exists []. cbn [read_chunks fst snd map concat app]. rewrite !app_nil_r. split; reflexivity.
  - cbn [read_chunks map].
    set (stripped := Str.rstrip_chars _ line).
    destruct (chunk_size <=? Z.of_nat (length (chunk_lines ++ [stripped])))%Z.
    + destruct (IH [] (chunks ++ [_parse_chunk self (chunk_lines ++ [stripped])])%list)
        as (pieces & Hfst & Hsnd).
      exists ((chunk_lines ++ [stripped])%list :: pieces). split.
      * rewrite Hfst, <- app_assoc. reflexivity.
      * cbn [concat]. rewrite <- !app_assoc. cbn [app] in *. rewrite Hsnd. reflexivity.
    + destruct (IH (chunk_lines ++ [stripped])%list chunks) as (pieces & Hfst & Hsnd).
      exists pieces. split; [exact Hfst|]. rewrite Hsnd, <- app_assoc. reflexivity.
Qed.

Lemma parse_lines_concat (specs : list (string * Z * Z)) (pieces : list (list string)) :
  parse_lines specs (concat pieces) = concat (map (parse_lines specs) pieces).
Proof.
  unfold parse_lines. induction pieces as [|piece pieces IH]; [reflexivity|].
  cbn [concat map]. rewrite List.filter_app, map_app, IH. reflexivity.
Qed.

(** The column a frame built from records holds for a name. *)
Lemma from_records_uniform (K : list string) (data : list (list (string * string))) :
  List.NoDup K -> Forall (fun record => map fst record = K) data ->
  from_records data
  = {| index := seq 0 (length data);
       columns :=
         map (fun name =>
                (name, Object (map (fun record =>
                                      match record_get name record with
                                      | Some v => Text v
                                      | None => Val NaN
                                      end) data)))
             (match data with [] => [] | _ => K end) |}.
Proof.
  intros Hnd H. unfold from_records. rewrite (uniform_names K data Hnd H). reflexivity.
Qed.

Lemma concat_names (K : list string) (datas : list (list (list (string * string)))) (seen : list string) :
  List.NoDup K ->
  Forall (Forall (fun record => map fst record = K)) datas ->
  seen = [] \/ seen = K ->
  fold_left (fun seen df => union_names seen (column_names df)) (map from_records datas) seen
  = match concat datas with
    | [] => seen
    | _ => K
    end.
Proof.
  intros Hnd H. revert seen. induction H as [|data datas Hdata Hrest IH]; intros seen Hseen.
  - reflexivity.
  - cbn [map fold_left concat].
    assert (Hcn : column_names (from_records data) = match data with [] => [] | _ => K end).
    { rewrite (from_records_uniform K data Hnd Hdata). unfold column_names. cbn [columns].
      rewrite map_map. cbn [fst]. apply map_id. }
    rewrite Hcn.
    destruct data as [|record data'].
    + cbn [app]. rewrite (union_names_known seen []) by (intros n []). apply IH. exact Hseen.
    + cbn [app].
      assert (Hunion : union_names seen K = K).
      { destruct Hseen as [->| ->].
        - apply (union_names_fresh [] K Hnd).
        - apply union_names_known. auto. }
      rewrite Hunion, IH by (right; reflexivity).
      destruct (concat datas); reflexivity.
Qed.

Lemma concat_column (K : list string) (datas : list (list (list (string * string))))
    (name : string) :
  List.NoDup K -> In name K ->
  Forall (Forall (fun record => map fst record = K)) datas ->
  flat_map (fun df => match lookup_column name (columns df) with
                      | Some c => cells c
                      | None => repeat (Val NaN) (len df)
                      end) (map from_records datas)
  = map (fun record => match record_get name record with
                       | Some v => Text v
                       | None => Val NaN
                       end) (concat datas) /\
  forallb (fun df => is_numeric_or_absent (lookup_column name (columns df)))
          (map from_records datas)
  = match concat datas with [] => true | _ => false end.
Proof.
  intros Hnd Hin H. induction H as [|data datas Hdata Hrest [IH1 IH2]]; [split; reflexivity|].
  cbn [map flat_map forallb concat]. rewrite IH1, IH2, map_app.
  rewrite (from_records_uniform K data Hnd Hdata). cbn [columns].
  destruct data as [|record data'].
  - cbn [map lookup_column is_numeric_or_absent andb app]. split; reflexivity.
  - rewrite (lookup_named_column
               (fun n => Object (map (fun r => match record_get n r with
                                               | Some v => Text v
                                               | None => Val NaN
                                               end) (record :: data'))) name K Hin).
    cbn [cells is_numeric_or_absent andb app]. split; reflexivity.
Qed.

Lemma length_flat_map_index (datas : list (list (list (string * string)))) :
  length (flat_map index (map from_records datas)) = length (concat datas).
Proof.
  induction datas as [|data datas IH]; [reflexivity|].
  cbn [map flat_map concat]. rewrite !length_app, IH.
  unfold from_records at 1. cbn [index]. rewrite length_seq. reflexivity.
Qed.

Lemma pd_concat_from_records (K : list string) (datas : list (list (list (string * string)))) :
  List.NoDup K ->
  Forall (Forall (fun record => map fst record = K)) datas ->
  pd_concat (map from_records datas) = from_records (concat datas).
Proof.
  intros Hnd H.
  assert (Hall : Forall (fun record => map fst record = K) (concat datas)).
  { induction H as [|data datas Hdata Hrest IH]; [constructor|].
    cbn [concat]. apply List.Forall_app. split; assumption. }
  rewrite (from_records_uniform K (concat datas) Hnd Hall).
  unfold pd_concat. rewrite (concat_names K datas [] Hnd H) by (left; reflexivity).
  rewrite length_flat_map_index. f_equal.
  destruct (concat datas) as [|record rest] eqn:Ec; [reflexivity|].
  apply map_ext_in. intros name Hin.
  destruct (concat_column K datas name Hnd Hin H) as [Hcells Hnumeric].
  rewrite Hnumeric, Hcells, Ec. reflexivity.
Qed.

Lemma union_names_NoDup (seen more : list string) :
  List.NoDup seen -> List.NoDup (union_names seen more).
Proof.
  unfold union_names. revert seen. induction more as [|name more IH]; intros seen H; [exact H|].
  cbn [fold_left]. destruct (existsb (String.eqb name) seen) eqn:E; apply IH; [exact H|].
  apply List.NoDup_app; [exact H|repeat constructor; intros []|].
  intros x Hx [<-|[]]. apply existsb_eqb_In in Hx. congruence.
Qed.

Lemma parse_chunks_concat (self : FMCSAFixedWidthParser) (pieces : list (list string)) :
  pd_concat (map (_parse_chunk self) pieces) = _parse_chunk self (concat pieces).
Proof.
  unfold _parse_chunk. rewrite parse_lines_concat, <- map_map.
  apply (pd_concat_from_records (union_names [] (map spec_name (field_specs self)))).
  - apply union_names_NoDup. constructor.
  - apply List.Forall_forall. intros data Hin. apply in_map_iff in Hin.
    destruct Hin as (piece & <- & _). apply parse_lines_keys.
Qed.

(** X16. The chunk size never changes what the fixed-width parser returns:
    whatever [chunk_size] is, also zero or negative (one line per chunk), the
    frame is the one [_parse_chunk] makes of all lines of the file at once,
    each stripped of its line end; a file without lines gives the empty
    frame, and a failure to read the file is raised again. *)
Theorem chunk_size_is_immaterial
    (read_lines : string -> string -> result (list string))
    (self : FMCSAFixedWidthParser) (chunk_size : Z) :
  (forall lines,
      read_lines (fw_file_path self) (fw_encoding self) = Ok lines ->
      parse_fixed_width read_lines self chunk_size
      = Ok (_parse_chunk self
              (map (Str.rstrip_chars (String "010" (String "013" EmptyString))) lines))) /\
  (forall e,
      read_lines (fw_file_path self) (fw_encoding self) = Raise e ->
      parse_fixed_width read_lines self chunk_size = Raise e).
Proof.
  unfold parse_fixed_width. split; [|intros e ->; reflexivity].
  intros lines ->. cbn [Py.bind].
  destruct (read_chunks_pieces self chunk_size lines [] []) as (pieces & Hfst & Hsnd).
  destruct (read_chunks self chunk_size lines [] []) as [chunks chunk_lines].
  cbn [fst snd app] in Hfst, Hsnd. subst chunks.
  set (all := map _ lines) in *.
  assert (Hfinal : exists pieces', concat pieces' = all /\
                     match chunk_lines with
                     | [] => map (_parse_chunk self) pieces
                     | _ => (map (_parse_chunk self) pieces ++ [_parse_chunk self chunk_lines])%list
                     end = map (_parse_chunk self) pieces').
  { destruct chunk_lines as [|l ls].
    - exists pieces. rewrite app_nil_r in Hsnd. split; [exact Hsnd|reflexivity].
    - exists (pieces ++ [l :: ls])%list. split.
      + rewrite concat_app. cbn [concat]. rewrite app_nil_r. exact Hsnd.
      + rewrite map_app. reflexivity. }
  destruct Hfinal as (pieces' & Hall & ->). rewrite <- Hall.
  rewrite <- parse_chunks_concat.
  destruct (map (_parse_chunk self) pieces') eqn:E; reflexivity.
Qed.

Lemma chunk_size_is_immaterial_witness :
  parse_fixed_width (fun _ _ => Ok ["  12  TX" +:+ String "010" EmptyString;
                                    String "010" EmptyString; "345"])
                    sample_layout 1
  = Ok (_parse_chunk sample_layout sample_lines) /\
  parse_fixed_width (fun _ _ => Ok ["  12  TX" +:+ String "010" EmptyString;
                                    String "010" EmptyString; "345"])
                    sample_layout 10000
  = Ok (_parse_chunk sample_layout sample_lines).
Proof.
  split;
    apply (proj1 (chunk_size_is_immaterial
                    (fun _ _ => Ok ["  12  TX" +:+ String "010" EmptyString;
                                    String "010" EmptyString; "345"])
                    sample_layout _)
             ["  12  TX" +:+ String "010" EmptyString; String "010" EmptyString; "345"]);
    reflexivity.
Defined.

(* ===================================================================== *)
(** ** parsers.py: validation *)
(* ===================================================================== *)

Lemma count_zero {A : Type} (p : A -> bool) (xs : list A) :
  count p xs = 0%nat <-> forallb (fun x => negb (p x)) xs = true.
Proof.
  unfold count. induction xs as [|x xs IH]; cbn [List.filter forallb length].
  - split; reflexivity.
  - destruct (p x); cbn [negb andb length].
    + split; discriminate.
    + exact IH.
Qed.

Lemma forallb_pointwise {A : Type} (f g : A -> bool) (l : list A) :
  (forall x, f x = g x) -> forallb f l = forallb g l.
Proof.
  intros H. induction l as [|x l IH]; [reflexivity|]. cbn [forallb]. rewrite H, IH. reflexivity.
Qed.

Lemma report_empty (errors : list string) (n : nat) (msg : string) :
  (if (0 <? n)%nat then (errors ++ [msg])%list else errors) = []
  <-> errors = [] /\ n = 0%nat.
Proof.
  destruct n as [|n]; cbn [Nat.ltb Nat.leb].
  - split; [intros ->; split; reflexivity|intros [-> _]; reflexivity].
  - split; [intros H; destruct errors; discriminate|intros [_ H]; discriminate].
Qed.

Lemma validate_field_verdict (float_repr : float64 -> string) (name : string)
    (series : column) (r : rules) :
  snd (_validate_field float_repr name series r) = [] /\
  (fst (_validate_field float_repr name series r) = [] <->
   match pattern r with
   | Some p => forallb (fun s => Str.re_match p s) (series_astype_str float_repr series) = true
   | None => True
   end /\
   match max_length r with
   | Some n => forallb (fun s => (String.length s <=? n)%nat)
                       (series_astype_str float_repr series) = true
   | None => True
   end /\
   (required r = true -> forallb (fun c => negb (is_missing c)) (cells series) = true)).
Proof.
  split; [reflexivity|]. unfold _validate_field. cbn [fst].
  assert (E1 : forall p l,
             forallb (fun x => negb (negb (Str.re_match p x))) l
             = forallb (fun s => Str.re_match p s) l).
  { intros p l. apply forallb_pointwise. intros x. apply negb_involutive. }
  assert (E2 : forall n l,
             forallb (fun x => negb (n <? String.length x)%nat) l
             = forallb (fun s => (String.length s <=? n)%nat) l).
  { intros n l. apply forallb_pointwise. intros x.
    rewrite Nat.ltb_antisym. apply negb_involutive. }
  destruct r as [[p|] [n|] [|]]; cbn [pattern max_length required];
    rewrite ?report_empty, ?count_zero, ?E1, ?E2; intuition congruence.
Qed.

Lemma text_cells_lookup (df : DataFrame) (key : string) (c : column) :
  read_as_text df -> lookup_column key (columns df) = Some c -> text_cells c.
Proof.
  unfold read_as_text. intros H. induction H as [|[k c0] rest Hc Hrest IH]; [discriminate|].
  cbn [lookup_column]. destruct (String.eqb k key); [intros [= <-]; exact Hc|exact IH].
Qed.

Lemma text_column_verdict (float_repr : float64 -> string) (q : string -> bool)
    (required : bool) (c : column) :
  float_repr NaN = "nan" -> text_cells c ->
  required = true \/ q "nan" = false ->
  (forallb q (series_astype_str float_repr c) = true /\
   (required = true -> forallb (fun x => negb (is_missing x)) (cells c) = true))
  <-> forallb (cell_satisfies q) (cells c) = true.
Proof.
  intros Hnan Htext Hcase. unfold series_astype_str, text_cells in *.
  induction Htext as [|x xs Hx Hxs IH]; cbn [map forallb].
  - tauto.
  - rewrite !andb_true_iff, <- IH. destruct Hx as [Hx| ->].
    + destruct x as [v|s]; [discriminate|]. cbn [cell_satisfies is_missing negb]. tauto.
    + cbn [cell_satisfies is_missing negb]. rewrite Hnan.
      destruct Hcase as [->| ->]; intuition discriminate.
Qed.

Lemma app_empty_iff {A : Type} (a b : list A) : (a ++ b)%list = [] <-> a = [] /\ b = [].
Proof.
  split; [apply app_eq_nil|intros [-> ->]; reflexivity].
Qed.

Lemma field_verdict (float_repr : float64 -> string) (name : string) (c : column)
    (r : rules) (q : string -> bool) :
  float_repr NaN = "nan" -> text_cells c ->
  required r = true \/ q "nan" = false ->
  (match pattern r, max_length r with
   | Some p, None => forall s, q s = Str.re_match p s
   | None, Some n => forall s, q s = (String.length s <=? n)%nat
   | _, _ => False
   end) ->
  fst (_validate_field float_repr name c r) = []
  <-> forallb (cell_satisfies q) (cells c) = true.
Proof.
  intros Hnan Htext Hcase Hq.
  rewrite (proj2 (validate_field_verdict float_repr name c r)).
  rewrite <- (text_column_verdict float_repr q (required r) c Hnan Htext Hcase).
  destruct (pattern r) as [p|], (max_length r) as [n|]; try contradiction.
  - rewrite (forallb_pointwise q (fun s => Str.re_match p s) _ Hq). tauto.
  - rewrite (forallb_pointwise q (fun s => (String.length s <=? n)%nat) _ Hq). tauto.
Qed.

(** X17. The verdict of [validate_data] on a table read as text. No error
    is reported exactly when every row has a DOT number of one to eight
    digits and a carrier name of at most 255 characters and, where the table
    has a state column, two capital letters in it: a missing value in the
    optional state column is an error too, since [astype(str)] turns it into
    the text [nan]. The list of warnings is always empty, and the row count
    is the length of the table. *)
Theorem validation_verdict (float_repr : float64 -> string) (df : DataFrame) :
  float_repr NaN = "nan" -> read_as_text df ->
  total_rows (validate_data float_repr df) = len df /\
  warnings (validate_data float_repr df) = [] /\
  (errors (validate_data float_repr df) = [] <-> conforms df = true).
Proof.
  intros Hnan Htext. unfold validate_data, VALIDATION_RULES, conforms, column_satisfies.
  cbn [fold_left required andb]. rewrite !has_column_lookup.
  pose proof (fun c => text_cells_lookup df "dot_number" c Htext) as Hdot.
  pose proof (fun c => text_cells_lookup df "carrier_name" c Htext) as Hname.
  pose proof (fun c => text_cells_lookup df "state" c Htext) as Hstate.
  destruct (lookup_column "dot_number" (columns df)) as [dot|];
    destruct (lookup_column "carrier_name" (columns df)) as [name|];
    destruct (lookup_column "state" (columns df)) as [state|];
    cbn [negb andb total_rows warnings errors app];
    (split; [reflexivity|]); (split; [reflexivity|]).
  all: rewrite ?app_empty_iff, ?andb_true_iff.
  all: pose proof (fun c H =>
                     field_verdict float_repr "dot_number" c
                       {| pattern := Some (Str.DigitRun 1 8); max_length := None;
                          required := true |}
                       (Str.re_match (Str.DigitRun 1 8)) Hnan H
                       (or_introl eq_refl) (fun s => eq_refl)) as Vdot.
  all: pose proof (fun c H =>
                     field_verdict float_repr "carrier_name" c
                       {| pattern := None; max_length := Some 255%nat; required := true |}
                       (fun s => (String.length s <=? 255)%nat) Hnan H
                       (or_introl eq_refl) (fun s => eq_refl)) as Vname.
  all: pose proof (fun c H =>
                     field_verdict float_repr "state" c
                       {| pattern := Some (Str.UpperRun 2); max_length := None;
                          required := false |}
                       (Str.re_match (Str.UpperRun 2)) Hnan H
                       (or_intror eq_refl) (fun s => eq_refl)) as Vstate.
  all: cbv beta in Vdot, Vname, Vstate.
  all: rewrite ?Vdot, ?Vname, ?Vstate by auto.
  all: intuition discriminate.
Qed.

Lemma validation_verdict_witness :
  errors (validate_data sample_float_repr carriers_missing_state)
  = ["1 values don't match pattern for state"] /\
  conforms carriers_missing_state = false /\
  warnings (validate_data sample_float_repr carriers_missing_state) = [].
Proof.
  assert (Htext : read_as_text carriers_missing_state).
  { repeat constructor; (left; reflexivity) || (right; reflexivity). }
  destruct (validation_verdict sample_float_repr carriers_missing_state eq_refl Htext)
    as (_ & Hwarn & _).
  split; [reflexivity|]. split; [reflexivity|exact Hwarn].
Defined.

(* ===================================================================== *)
(** ** parsers.py: the row filters of the census parser *)
(* ===================================================================== *)

Lemma enumerate_filter_sorted {A : Type} (p : nat * A -> bool) (xs : list A) (start : nat) :
  StronglySorted lt (map fst (List.filter p (combine (seq start (length xs)) xs))) /\
  Forall (fun i => (start <= i)%nat) (map fst (List.filter p (combine (seq start (length xs)) xs))).
Proof.
  revert start. induction xs as [|x xs IH]; intros start; cbn [length seq combine List.filter].
  - split; constructor.
  - destruct (IH (S start)) as [Hs Hall].
    assert (Hall' : Forall (fun i => (start < i)%nat)
                      (map fst (List.filter p (combine (seq (S start) (length xs)) xs)))).
    { eapply List.Forall_impl; [|exact Hall]. cbn beta. intros i Hi. lia. }
    destruct (p (start, x)); cbn [map fst].
    + split; [constructor; assumption|].
      constructor; [lia|]. eapply List.Forall_impl; [|exact Hall']. cbn beta. intros i Hi. lia.
    + split; [exact Hs|]. eapply List.Forall_impl; [|exact Hall']. cbn beta. intros i Hi. lia.
Qed.

Lemma where_true_sorted (mask : list bool) : StronglySorted lt (where_true mask).
Proof. apply (enumerate_filter_sorted snd mask 0). Qed.

Lemma str_text_or_missing (cs : list cell) :
  text_or_missing cs -> str (Object cs) = Ok (map text_of cs).
Proof.
  intros H. unfold str.
  assert (Hok : forallb is_missing cs || existsb is_text cs = true).
  { induction H as [|x xs Hx Hxs IH]; [reflexivity|].
    cbn [forallb existsb]. destruct Hx as [Hx| ->].
    - rewrite Hx. cbn [orb]. apply orb_true_r.
    - cbn [is_missing is_text andb orb]. exact IH. }
  rewrite Hok. reflexivity.
Qed.

Lemma mask_of_cells (f : cell -> bool) (g : option string -> bool) (cs : list cell) (i : nat) :
  (forall x, g (text_of x) = f x) ->
  (nth_error (map g (map text_of cs)) i = Some true
   <-> exists x, nth_error cs i = Some x /\ f x = true).
Proof.
  intros Hfg. rewrite !nth_error_map_nth.
  destruct (nth_error cs i) as [x|]; cbn [option_map].
  - rewrite Hfg. split; [intros [= H]; eauto|intros (y & [= <-] & H); congruence].
  - split; [discriminate|intros (y & H & _); discriminate].
Qed.

(** X18. [filter_by_state] keeps, in the order of the file, exactly the rows
    whose state, put in capitals, is the code put in capitals; rows without a
    state are dropped, and the case of the code does not matter. A file
    without a [phy_state] column makes the call raise [KeyError]. *)
Theorem filter_by_state_rows
    (read_file : string -> string -> result string) (sniff_delimiter : string -> result string)
    (read_csv : string -> string -> string -> result DataFrame)
    (self : FMCSACSVParser) (df : DataFrame) (state_code : string) :
  parse_to_dataframe read_file sniff_delimiter read_csv self = Ok df ->
  (lookup_column "phy_state" (columns df) = None ->
   filter_by_state read_file sniff_delimiter read_csv self state_code
   = Raise (KeyError "phy_state")) /\
  (forall cs,
      lookup_column "phy_state" (columns df) = Some (Object cs) -> text_or_missing cs ->
      exists rows,
        filter_by_state read_file sniff_delimiter read_csv self state_code
        = Ok (reorder rows df) /\
        StronglySorted lt rows /\
        (forall i, In i rows <->
                   exists s, nth_error cs i = Some (Text s) /\
                             Str.upper s = Str.upper state_code) /\
        (forall code',
            Str.upper code' = Str.upper state_code ->
            filter_by_state read_file sniff_delimiter read_csv self code'
            = Ok (reorder rows df))).
Proof.
  intros Hparse. unfold filter_by_state, getitem. rewrite Hparse. cbn [Py.bind]. split.
  - intros ->. reflexivity.
  - intros cs Hc Htext. rewrite Hc. cbn [Py.bind].
    rewrite (str_text_or_missing cs Htext). cbn [Py.bind]. unfold boolean_index.
    exists (where_true (equals_upper state_code (map text_of cs))).
    split; [reflexivity|]. split; [apply where_true_sorted|]. split.
    + intros i. rewrite where_true_In. unfold equals_upper, str_map. rewrite map_map.
      rewrite (mask_of_cells
                 (fun x => match x with
                           | Text s => String.eqb (Str.upper s) (Str.upper state_code)
                           | Val _ => false
                           end)).
      * split.
        -- intros (x & Hx & Hm). destruct x as [v|s]; [discriminate|].
           exists s. split; [exact Hx|]. apply String.eqb_eq. exact Hm.
        -- intros (s & Hs & Hm). exists (Text s). split; [exact Hs|].
           apply String.eqb_eq. exact Hm.
      * intros [v|s]; reflexivity.
    + intros code' Hcode. unfold equals_upper. rewrite Hcode. reflexivity.
Qed.

Lemma filter_by_state_rows_witness :
  filter_by_state census_file sniff_comma read_census_rows (new_parser "census.csv") "tx"
  = Ok (reorder [0; 3]%nat census_rows) /\
  exists rows,
    filter_by_state census_file sniff_comma read_census_rows (new_parser "census.csv") "tx"
    = Ok (reorder rows census_rows) /\
    In 3%nat rows /\ ~ In 1%nat rows.
Proof.
  split; [reflexivity|].
  destruct (proj2 (filter_by_state_rows census_file sniff_comma read_census_rows
                     (new_parser "census.csv") census_rows "tx" eq_refl)
              [Text "TX"; Text "nv"; Val NaN; Text "tx"] eq_refl)
    as (rows & Hrows & _ & Hin & _).
  - repeat constructor; (left; reflexivity) || (right; reflexivity).
  - exists rows. split; [exact Hrows|]. split.
    + apply Hin. exists "tx". split; reflexivity.
    + intros H. apply Hin in H. destruct H as (s & [= <-] & Hs). discriminate Hs.
Defined.

Lemma where_true_none (mask : list bool) :
  Forall (fun b => b = false) mask -> where_true mask = [].
Proof.
  intros H. destruct (where_true mask) as [|i rest] eqn:E; [reflexivity|].
  assert (Hin : In i (where_true mask)) by (rewrite E; left; reflexivity).
  apply where_true_In, nth_error_In in Hin.
  rewrite List.Forall_forall in H. specialize (H true Hin). discriminate.
Qed.

(** X19. [filter_by_region] keeps, in the order of the file, exactly the
    rows whose state, put in capitals, is one of the given codes put in
    capitals. With a single code it returns what [filter_by_state] returns
    for that code, and with no code at all it returns no row. *)
Theorem filter_by_region_rows
    (read_file : string -> string -> result string) (sniff_delimiter : string -> result string)
    (read_csv : string -> string -> string -> result DataFrame)
    (self : FMCSACSVParser) (df : DataFrame) (cs : list cell) (states : list string) :
  parse_to_dataframe read_file sniff_delimiter read_csv self = Ok df ->
  lookup_column "phy_state" (columns df) = Some (Object cs) -> text_or_missing cs ->
  (exists rows,
      filter_by_region read_file sniff_delimiter read_csv self states = Ok (reorder rows df) /\
      StronglySorted lt rows /\
      forall i, In i rows <->
                exists s code, nth_error cs i = Some (Text s) /\ In code states /\
                               Str.upper s = Str.upper code) /\
  (forall code,
      filter_by_region read_file sniff_delimiter read_csv self [code]
      = filter_by_state read_file sniff_delimiter read_csv self code) /\
  filter_by_region read_file sniff_delimiter read_csv self [] = Ok (reorder [] df).
Proof.
  intros Hparse Hc Htext. unfold filter_by_region, filter_by_state, getitem.
  rewrite Hparse. cbn [Py.bind]. rewrite Hc. cbn [Py.bind].
  rewrite (str_text_or_missing cs Htext). cbn [Py.bind]. unfold boolean_index.
  split; [|split].
  - exists (where_true (upper_isin states (map text_of cs))).
    split; [reflexivity|]. split; [apply where_true_sorted|].
    intros i. rewrite where_true_In. unfold upper_isin, str_map. rewrite map_map.
    rewrite (mask_of_cells
               (fun x => match x with
                         | Text s => existsb (String.eqb (Str.upper s)) (map Str.upper states)
                         | Val _ => false
                         end)).
    + split.
      * intros (x & Hx & Hm). destruct x as [v|s]; [discriminate|].
        apply existsb_exists in Hm. destruct Hm as (u & Hu & Heq).
        apply in_map_iff in Hu. destruct Hu as (code & <- & Hcode).
        apply String.eqb_eq in Heq. exists s, code. repeat split; assumption.
      * intros (s & code & Hs & Hcode & Heq). exists (Text s). split; [exact Hs|].
        apply existsb_exists. exists (Str.upper code). split.
        -- apply in_map. exact Hcode.
        -- apply String.eqb_eq. exact Heq.
    + intros [v|s]; reflexivity.
  - intros code. do 3 f_equal. unfold upper_isin, equals_upper.
    apply map_ext. intros [s|]; [|reflexivity]. cbn [map existsb]. apply orb_false_r.
  - do 2 f_equal. apply where_true_none. unfold upper_isin.
    apply List.Forall_forall. intros b Hb. apply in_map_iff in Hb.
    destruct Hb as ([s|] & <- & _); reflexivity.
Qed.

Lemma filter_by_region_rows_witness :
  filter_by_region census_file sniff_comma read_census_rows (new_parser "census.csv")
                   ["tx"; "NV"]
  = Ok (reorder [0; 1; 3]%nat census_rows) /\
  filter_by_region census_file sniff_comma read_census_rows (new_parser "census.csv") ["tx"]
  = filter_by_state census_file sniff_comma read_census_rows (new_parser "census.csv") "tx".
Proof.
  split; [reflexivity|].
  assert (Htext : text_or_missing [Text "TX"; Text "nv"; Val NaN; Text "tx"]).
  { repeat constructor; (left; reflexivity) || (right; reflexivity). }
  apply (proj1 (proj2 (filter_by_region_rows census_file sniff_comma read_census_rows
                         (new_parser "census.csv") census_rows
                         [Text "TX"; Text "nv"; Val NaN; Text "tx"] [] eq_refl eq_refl Htext))).
Defined.

Lemma align_bool_same_length (f : bool -> bool -> bool) (xs ys : list bool) :
  length xs = length ys ->
  align_bool f xs ys = map (fun p => f (fst p) (snd p)) (combine xs ys).
Proof.
  revert ys. induction xs as [|x xs IH]; intros [|y ys] H; try discriminate; [reflexivity|].
  cbn [align_bool combine map fst snd]. f_equal. apply IH. injection H as H. exact H.
Qed.

Lemma nth_error_combine {A B : Type} (xs : list A) (ys : list B) (i : nat) :
  nth_error (combine xs ys) i
  = match nth_error xs i, nth_error ys i with
    | Some x, Some y => Some (x, y)
    | _, _ => None
    end.
Proof.
  revert ys i. induction xs as [|x xs IH]; intros [|y ys] [|i]; cbn [combine nth_error];
    try reflexivity.
  - destruct (nth_error xs i); reflexivity.
  - apply IH.
Qed.

Lemma contains_broker_cells (cs : list cell) :
  contains_broker (map text_of cs) = map mentions_broker cs.
Proof.
  unfold contains_broker. rewrite map_map. apply map_ext. intros [v|s]; reflexivity.
Qed.

(** X20. Brokers and carriers do not split the file. [filter_brokers] keeps
    the rows whose [carrier_operation] mentions a broker; [filter_carriers]
    keeps the rows where neither [carrier_operation] nor [entity_type]
    mentions one. No row is in both tables, and a row whose entity type
    mentions a broker while its operation does not is in neither. *)
Theorem brokers_and_carriers
    (read_file : string -> string -> result string) (sniff_delimiter : string -> result string)
    (read_csv : string -> string -> string -> result DataFrame)
    (self : FMCSACSVParser) (df : DataFrame) (operations entities : list cell) :
  parse_to_dataframe read_file sniff_delimiter read_csv self = Ok df ->
  lookup_column "carrier_operation" (columns df) = Some (Object operations) ->
  lookup_column "entity_type" (columns df) = Some (Object entities) ->
  text_or_missing operations -> text_or_missing entities ->
  length operations = length entities ->
  exists brokers carriers,
    filter_brokers read_file sniff_delimiter read_csv self = Ok (reorder brokers df) /\
    filter_carriers read_file sniff_delimiter read_csv self = Ok (reorder carriers df) /\
    StronglySorted lt brokers /\ StronglySorted lt carriers /\
    (forall i, In i brokers <->
               exists x, nth_error operations i = Some x /\ mentions_broker x = true) /\
    (forall i, In i carriers <->
               exists x y, nth_error operations i = Some x /\ nth_error entities i = Some y /\
                           mentions_broker x = false /\ mentions_broker y = false) /\
    (forall i, In i brokers -> ~ In i carriers) /\
    (forall i x y, nth_error operations i = Some x -> nth_error entities i = Some y ->
                   mentions_broker x = false -> mentions_broker y = true ->
                   ~ In i brokers /\ ~ In i carriers).
Proof.
  intros Hparse Hop Hent Htop Htent Hlen.
  unfold filter_brokers, filter_carriers, getitem. rewrite Hparse. cbn [Py.bind].
  rewrite Hop, Hent. cbn [Py.bind].
  rewrite (str_text_or_missing operations Htop), (str_text_or_missing entities Htent).
  cbn [Py.bind]. unfold boolean_index. rewrite !contains_broker_cells.
  rewrite align_bool_same_length by (rewrite !length_map; exact Hlen).
  set (brokers := where_true (map mentions_broker operations)).
  set (carriers := where_true _).
  assert (Hb : forall i, In i brokers <->
                 exists x, nth_error operations i = Some x /\ mentions_broker x = true).
  { intros i. unfold brokers. rewrite where_true_In, nth_error_map_nth.
    destruct (nth_error operations i) as [x|]; cbn [option_map].
    - split; [intros [= H]; eauto|intros (y & [= <-] & H); congruence].
    - split; [discriminate|intros (y & H & _); discriminate]. }
  assert (Hc : forall i, In i carriers <->
                 exists x y, nth_error operations i = Some x /\ nth_error entities i = Some y /\
                             mentions_broker x = false /\ mentions_broker y = false).
  { intros i. unfold carriers.
    rewrite where_true_In, !nth_error_map_nth, nth_error_combine, !nth_error_map_nth.
    destruct (nth_error operations i) as [x|], (nth_error entities i) as [y|];
      cbn [option_map fst snd].
    - split.
      + intros [= H]. apply negb_true_iff, orb_false_iff in H. exists x, y. tauto.
      + intros (x' & y' & [= <-] & [= <-] & Hx & Hy). rewrite Hx, Hy. reflexivity.
    - split; [discriminate|intros (x' & y' & _ & H & _); discriminate].
    - split; [discriminate|intros (x' & y' & H & _); discriminate].
    - split; [discriminate|intros (x' & y' & H & _); discriminate]. }
  exists brokers, carriers. split; [reflexivity|]. split; [reflexivity|].
  split; [apply where_true_sorted|]. split; [apply where_true_sorted|].
  split; [exact Hb|]. split; [exact Hc|]. split.
  - intros i Hi Hi'. apply Hb in Hi. apply Hc in Hi'.
    destruct Hi as (x & Hx & Hm). destruct Hi' as (x' & y' & Hx' & _ & Hm' & _). congruence.
  - intros i x y Hx Hy Hmx Hmy. split.
    + intros Hi. apply Hb in Hi. destruct Hi as (x' & Hx' & Hm). congruence.
    + intros Hi. apply Hc in Hi. destruct Hi as (x' & y' & _ & Hy' & _ & Hm). congruence.
Qed.

Lemma brokers_and_carriers_witness :
  filter_brokers census_file sniff_comma read_census_rows (new_parser "census.csv")
  = Ok (reorder [1%nat] census_rows) /\
  filter_carriers census_file sniff_comma read_census_rows (new_parser "census.csv")
  = Ok (reorder [0; 3]%nat census_rows) /\
  exists brokers carriers,
    filter_brokers census_file sniff_comma read_census_rows (new_parser "census.csv")
    = Ok (reorder brokers census_rows) /\
    filter_carriers census_file sniff_comma read_census_rows (new_parser "census.csv")
    = Ok (reorder carriers census_rows) /\
    ~ In 2%nat brokers /\ ~ In 2%nat carriers.
Proof.
  split; [reflexivity|]. split; [reflexivity|].
  assert (Htext : forall cs, forallb (fun x => is_text x || is_missing x) cs = true ->
                             text_or_missing cs).
  { intros cs H. apply List.Forall_forall. intros x Hx.
    rewrite forallb_forall in H. specialize (H x Hx).
    destruct x as [[| | |q]|s]; try discriminate; [right|left]; reflexivity. }
  destruct (brokers_and_carriers census_file sniff_comma read_census_rows
              (new_parser "census.csv") census_rows
              [Text "Interstate"; Text "Property Broker"; Val NaN; Text "Intrastate"]
              [Text "CARRIER"; Text "BROKER"; Text "Broker"; Val NaN]
              eq_refl eq_refl eq_refl
              (Htext [Text "Interstate"; Text "Property Broker"; Val NaN; Text "Intrastate"]
                     eq_refl)
              (Htext [Text "CARRIER"; Text "BROKER"; Text "Broker"; Val NaN] eq_refl)
              eq_refl)
    as (brokers & carriers & Hb & Hc & _ & _ & _ & _ & _ & Hneither).
  exists brokers, carriers. split; [exact Hb|]. split; [exact Hc|].
  apply (Hneither 2%nat (Val NaN) (Text "Broker")); reflexivity.
Defined.

Lemma align_bool_maps {A : Type} (f g : A -> bool) (xs : list A) :
  align_bool andb (map f xs) (map g xs) = map (fun x => f x && g x) xs.
Proof. induction xs as [|x xs IH]; [reflexivity|]. cbn [map align_bool]. rewrite IH. reflexivity. Qed.

(** X21. [filter_by_fleet_size] keeps, in the order of the file, exactly the
    rows whose fleet size, read as a number with 0 for what is missing or
    not a number, is at least [min_size] and, when [max_size] is given and
    is not 0, at most [max_size]; the returned table holds the fleet size as
    that number. An upper bound of 0 is no bound: the call returns what it
    returns without one. A file without a [fleet_size] column makes the call
    raise [AttributeError]. *)
Theorem filter_by_fleet_size_rows
    (read_file : string -> string -> result string) (sniff_delimiter : string -> result string)
    (read_csv : string -> string -> string -> result DataFrame)
    (parse_float : string -> float64)
    (self : FMCSACSVParser) (df : DataFrame) (min_size : Z) (max_size : option Z) :
  parse_to_dataframe read_file sniff_delimiter read_csv self = Ok df ->
  (lookup_column "fleet_size" (columns df) = None ->
   filter_by_fleet_size read_file sniff_delimiter read_csv parse_float self min_size max_size
   = Raise (AttributeError "'int' object has no attribute 'fillna'")) /\
  (forall c,
      lookup_column "fleet_size" (columns df) = Some c -> length (cells c) = len df ->
      exists rows,
        filter_by_fleet_size read_file sniff_delimiter read_csv parse_float self
                             min_size max_size
        = Ok (reorder rows
                (setitem df "fleet_size"
                         (Numeric (fillna (Fin 0) (to_numeric parse_float c))))) /\
        StronglySorted lt rows /\
        forall i, In i rows <->
                  exists x, nth_error (to_numeric parse_float c) i = Some x /\
                            in_fleet_range min_size max_size (if isna x then Fin 0 else x)
                            = true) /\
  filter_by_fleet_size read_file sniff_delimiter read_csv parse_float self min_size (Some 0%Z)
  = filter_by_fleet_size read_file sniff_delimiter read_csv parse_float self min_size None.
Proof.
  intros Hparse. unfold filter_by_fleet_size, get, attr_of. rewrite Hparse. cbn [Py.bind].
  split; [|split; [|reflexivity]].
  - intros ->. reflexivity.
  - intros c Hc Hlen. rewrite Hc. cbn [option_map Py.bind].
    set (fleet := fillna (Fin 0) (to_numeric parse_float c)).
    assert (Hfleet : length fleet = len df).
    { unfold fleet, fillna. rewrite length_map, length_to_numeric. exact Hlen. }
    unfold getitem, setitem. cbn [columns]. rewrite lookup_set_column_eq. cbn [Py.bind].
    rewrite <- Hfleet, reindex_same_length. cbn [to_numeric]. unfold boolean_index.
    eexists. split; [reflexivity|]. split; [apply where_true_sorted|].
    intros i. rewrite where_true_In.
    assert (Hmask : match max_size with
                    | Some m =>
                        if negb (m =? 0)%Z
                        then align_bool andb (map (fun x => fge x (of_Z min_size)) fleet)
                               (map (fun x => fle x (of_Z m)) fleet)
                        else map (fun x => fge x (of_Z min_size)) fleet
                    | None => map (fun x => fge x (of_Z min_size)) fleet
                    end = map (in_fleet_range min_size max_size) fleet).
    { unfold in_fleet_range. destruct max_size as [m|].
      - destruct (m =? 0)%Z; cbn [negb].
        + apply map_ext. intros x. rewrite andb_true_r. reflexivity.
        + apply align_bool_maps.
      - apply map_ext. intros x. rewrite andb_true_r. reflexivity. }
    rewrite Hmask. unfold fleet, fillna. rewrite !nth_error_map_nth.
    destruct (nth_error (to_numeric parse_float c) i) as [x|]; cbn [option_map].
    + split; [intros [= H]; eauto|intros (y & [= <-] & H); congruence].
    + split; [discriminate|intros (y & H & _); discriminate].
Qed.

Lemma filter_by_fleet_size_rows_witness :
  exists out,
    filter_by_fleet_size census_file sniff_comma read_census_rows sample_parse_float
                         (new_parser "census.csv") 10 (Some 0%Z) = Ok out /\
    index out = [0; 3]%nat /\
    exists rows,
      filter_by_fleet_size census_file sniff_comma read_census_rows sample_parse_float
                           (new_parser "census.csv") 10 (Some 20%Z)
      = Ok (reorder rows
              (setitem census_rows "fleet_size"
                 (Numeric (fillna (Fin 0)
                             (to_numeric sample_parse_float
                                (Object [Text "12"; Text ""; Text "3"; Text "40"])))))) /\
      In 0%nat rows /\ ~ In 3%nat rows.
Proof.
  eexists. split; [reflexivity|]. split; [reflexivity|].
  destruct (proj1 (proj2 (filter_by_fleet_size_rows census_file sniff_comma read_census_rows
                            sample_parse_float (new_parser "census.csv") census_rows
                            10 (Some 20%Z) eq_refl))
              (Object [Text "12"; Text ""; Text "3"; Text "40"]) eq_refl eq_refl)
    as (rows & Hrows & _ & Hin).
  exists rows. split; [exact Hrows|]. split.
  - apply Hin. exists (Fin 12). split; reflexivity.
  - intros H. apply Hin in H. destruct H as (x & [= <-] & Hx). discriminate Hx.
Defined.

(* ===================================================================== *)
(** ** parsers.py: what the CSV parser returns when it succeeds *)
(* ===================================================================== *)

Lemma lower_char_clean (c : ascii) : Str.is_upper (Str.lower_char c) = false.
Proof.
  unfold Str.is_upper, Str.lower_char, Str.code.
  destruct ((65 <=? nat_of_ascii c) && (nat_of_ascii c <=? 90))%nat eqn:E.
  - apply andb_true_iff in E. destruct E as [H1 H2].
    apply Nat.leb_le in H1, H2.
    rewrite nat_ascii_embedding by lia.
    apply andb_false_iff. right. apply Nat.leb_gt. lia.
  - exact E.
Qed.

Lemma clean_column_name_chars (name : string) :
  Str.forall_chars is_clean_char (clean_column_name name) = true.
Proof.
  unfold clean_column_name. induction (Str.strip name) as [|c s IH]; [reflexivity|].
  cbn [Str.lower Str.replace_char Str.forall_chars]. rewrite IH, andb_true_r.
  destruct (Ascii.eqb (Str.lower_char c) " ") eqn:E; [reflexivity|].
  unfold is_clean_char. rewrite lower_char_clean, E. reflexivity.
Qed.

(** X22. When the sniffer finds a (non-empty) delimiter and reading
    succeeds, [parse_to_dataframe] returns the table that [pd.read_csv]
    reads with the sniffed delimiter: the same index and the same cells,
    under column names that are trimmed, put in lower case and have every
    space replaced by an underscore, so that no name holds a capital letter
    or a space. The delimiter given to the constructor is then not used:
    with any other one the result is the same. *)
Theorem parse_to_dataframe_result
    (read_file : string -> string -> result string) (sniff_delimiter : string -> result string)
    (read_csv : string -> string -> string -> result DataFrame)
    (self : FMCSACSVParser) (content detected : string) (raw : DataFrame) :
  read_file (file_path self) (encoding self) = Ok content ->
  sniff_delimiter (String.substring 0 1024 content) = Ok detected ->
  detected <> EmptyString ->
  read_csv (file_path self) detected (encoding self) = Ok raw ->
  exists df,
    parse_to_dataframe read_file sniff_delimiter read_csv self = Ok df /\
    index df = index raw /\
    map snd (columns df) = map snd (columns raw) /\
    column_names df = map clean_column_name (column_names raw) /\
    Forall (fun name => Str.forall_chars is_clean_char name = true) (column_names df) /\
    forall delimiter',
      parse_to_dataframe read_file sniff_delimiter read_csv
        {| file_path := file_path self; encoding := encoding self; delimiter := delimiter' |}
      = Ok df.
Proof.
  intros Hread Hsniff Hne Hcsv.
  assert (Hdet : negb (String.eqb detected EmptyString) = true).
  { apply negb_true_iff. apply String.eqb_neq. exact Hne. }
  exists (clean_columns raw). unfold parse_to_dataframe. cbn [file_path encoding delimiter].
  rewrite Hread. cbn [Py.bind]. rewrite Hsniff. cbn [Py.bind]. rewrite Hdet, Hcsv.
  cbn [Py.bind log_and_reraise].
  split; [reflexivity|]. split; [reflexivity|].
  unfold clean_columns, column_names. cbn [columns]. rewrite !map_map. cbn [fst snd].
  split; [reflexivity|]. split; [reflexivity|]. split; [|reflexivity].
  apply List.Forall_forall. intros name Hin. apply in_map_iff in Hin.
  destruct Hin as (kc & <- & _). apply clean_column_name_chars.
Qed.

Lemma parse_to_dataframe_result_witness :
  exists df,
    parse_to_dataframe fs_one_file sniff_semicolon read_headed_frame (new_parser "census.csv")
    = Ok df /\
    column_names df = ["dot_number"; "phy_state"].
Proof.
  destruct (parse_to_dataframe_result fs_one_file sniff_semicolon read_headed_frame
              (new_parser "census.csv") one_column_file ";" headed_frame
              eq_refl eq_refl ltac:(discriminate) eq_refl)
    as (df & Hdf & _ & _ & Hnames & _).
  exists df. split; [exact Hdf|]. rewrite Hnames. reflexivity.
Defined.

(* ===================================================================== *)
(** ** parsers.py: food safety violations *)
(* ===================================================================== *)

Lemma search_from_skip (pat front s : string) :
  Str.search_from pat s = true -> Str.search_from pat (front +:+ s) = true.
Proof.
  intros H. induction front as [|c front IH]; [exact H|].
  change (Str.search_from pat (String c (front +:+ s)) = true).
  unfold Str.search_from at 1. fold Str.search_from. rewrite IH. apply orb_true_r.
Qed.

Lemma search_from_here (pat s : string) :
  Str.match_here pat s = true -> Str.search_from pat s = true.
Proof. intros H. destruct s; unfold Str.search_from; rewrite H; reflexivity. Qed.

Lemma contains_ignore_case_cells (pattern : string) (cs : list cell) :
  contains_ignore_case pattern (map text_of cs)
  = map (cell_satisfies (Str.re_search_dots pattern)) cs.
Proof.
  unfold contains_ignore_case. rewrite map_map. apply map_ext. intros [v|s]; reflexivity.
Qed.

(** X23. [parse_food_safety_violations] keeps, in the order of the file,
    exactly the rows whose violation code matches the pattern [390.3] or
    whose description mentions one of the food safety keywords, in any case.
    The dot of [390.3] is not escaped, so it stands for any character: a
    code that holds 390, any one character but a newline, and 3, anywhere,
    is taken for a food safety violation. *)
Theorem food_safety_rows
    (read_file : string -> string -> result string) (sniff_delimiter : string -> result string)
    (read_csv : string -> string -> string -> result DataFrame)
    (self : FMCSACSVParser) (df : DataFrame) (codes descriptions : list cell) :
  parse_to_dataframe read_file sniff_delimiter read_csv self = Ok df ->
  lookup_column "violation_code" (columns df) = Some (Object codes) ->
  lookup_column "violation_description" (columns df) = Some (Object descriptions) ->
  text_or_missing codes -> text_or_missing descriptions ->
  length codes = length descriptions ->
  (exists rows,
      parse_food_safety_violations read_file sniff_delimiter read_csv self
      = Ok (reorder rows df) /\
      StronglySorted lt rows /\
      forall i, In i rows <->
                exists x y, nth_error codes i = Some x /\ nth_error descriptions i = Some y /\
                            (cell_satisfies (Str.re_search_dots "390.3") x = true \/
                             cell_satisfies
                               (Str.re_search_dots
                                  "food|perishable|refrigerated|temperature|sanitary|contamination|pest")
                               y = true)) /\
  (forall front c back,
      c <> "010"%char ->
      Str.re_search_dots "390.3" (front +:+ "390" +:+ String c ("3" +:+ back)) = true).
Proof.
  intros Hparse Hcodes Hdesc Htc Htd Hlen. split.
  - unfold parse_food_safety_violations, getitem. rewrite Hparse. cbn [Py.bind].
    rewrite Hcodes, Hdesc. cbn [Py.bind].
    rewrite (str_text_or_missing codes Htc), (str_text_or_missing descriptions Htd).
    cbn [Py.bind]. unfold boolean_index. rewrite !contains_ignore_case_cells.
    rewrite align_bool_same_length by (rewrite !length_map; exact Hlen).
    eexists. split; [reflexivity|]. split; [apply where_true_sorted|].
    intros i. rewrite where_true_In, nth_error_map_nth, nth_error_combine, !nth_error_map_nth.
    change (Str.join "|" violation_codes) with "390.3".
    change (Str.join "|" food_safety_keywords)
      with "food|perishable|refrigerated|temperature|sanitary|contamination|pest".
    destruct (nth_error codes i) as [x|], (nth_error descriptions i) as [y|];
      cbn [option_map fst snd].
    + split.
      * intros [= H]. apply orb_true_iff in H. exists x, y. tauto.
      * intros (x' & y' & [= <-] & [= <-] & H). f_equal. apply orb_true_iff. exact H.
    + split; [discriminate|intros (x' & y' & _ & H & _); discriminate].
    + split; [discriminate|intros (x' & y' & H & _); discriminate].
    + split; [discriminate|intros (x' & y' & H & _); discriminate].
  - intros front c back Hc. unfold Str.re_search_dots.
    change (Str.split_on "|" "390.3") with ["390.3"]. cbn [existsb]. rewrite orb_false_r.
    apply search_from_skip, search_from_here.
    change ("390" +:+ String c ("3" +:+ back))
      with (String "3" (String "9" (String "0" (String c (String "3" back))))).
    assert (Hdot : Str.char_matches "." c = true).
    { unfold Str.char_matches. cbn [Ascii.eqb Bool.eqb andb].
      apply negb_true_iff. apply Ascii.eqb_neq. exact Hc. }
    unfold Str.match_here. rewrite Hdot. reflexivity.
Qed.

Lemma food_safety_rows_witness :
  parse_food_safety_violations fs_one_file sniff_comma read_inspection_rows
                               (new_parser "census.csv")
  = Ok (reorder [0; 1; 2]%nat inspection_rows) /\
  Str.re_search_dots "390.3" "39013" = true.
Proof.
  split; [reflexivity|].
  assert (Htext : forall cs, forallb (fun x => is_text x || is_missing x) cs = true ->
                             text_or_missing cs).
  { intros cs H. apply List.Forall_forall. intros x Hx.
    rewrite forallb_forall in H. specialize (H x Hx).
    destruct x as [[| | |q]|s]; try discriminate; [right|left]; reflexivity. }
  apply (proj2 (food_safety_rows fs_one_file sniff_comma read_inspection_rows
                  (new_parser "census.csv") inspection_rows
                  [Text "390.3"; Text "39013"; Text "392.2"]
                  [Text "Sanitary transport"; Text "Brake hose"; Text "Unsafe TEMPERATURE log"]
                  eq_refl eq_refl eq_refl
                  (Htext [Text "390.3"; Text "39013"; Text "392.2"] eq_refl)
                  (Htext [Text "Sanitary transport"; Text "Brake hose";
                          Text "Unsafe TEMPERATURE log"] eq_refl)
                  eq_refl) "" "1"%char "").
  discriminate.
Defined.

(* ===================================================================== *)
(** ** parsers.py: the lead scoring data of the census parser *)
(* ===================================================================== *)

Lemma select_available (df : DataFrame) (keys : list string) :
  exists cols,
    select_columns (columns df) (List.filter (fun col => has_column col df) keys) = Ok cols /\
    forall key,
      lookup_column key cols
      = if existsb (String.eqb key) keys then lookup_column key (columns df) else None.
Proof.
  induction keys as [|k keys IH].
  - exists []. split; reflexivity.
  - destruct IH as (cols & Hcols & Hlookup). cbn [List.filter].
    rewrite has_column_lookup.
    destruct (lookup_column k (columns df)) as [c|] eqn:Ek.
    + exists ((k, c) :: cols). split.
      * cbn [select_columns]. rewrite Ek, Hcols. reflexivity.
      * intros key. cbn [lookup_column existsb]. rewrite (String.eqb_sym key k).
        destruct (String.eqb_spec k key) as [->|Hne]; [symmetry; exact Ek|].
        cbn [orb]. apply Hlookup.
    + exists cols. split; [exact Hcols|].
      intros key. cbn [existsb]. rewrite (String.eqb_sym key k).
      destruct (String.eqb_spec k key) as [->|Hne]; cbn [orb]; [|apply Hlookup].
      rewrite Hlookup, Ek. destruct (existsb _ keys); reflexivity.
Qed.

Lemma cut_lead_fleet (x : float64) :
  match cut_value lead_fleet_bins lead_fleet_labels false (if isna x then Fin 0 else x) with
  | Some q => Fin q
  | None => NaN
  end = lead_fleet_score x.
Proof.
  destruct x as [| | |q]; try reflexivity.
  unfold cut_value, lead_fleet_bins, lead_fleet_labels, searchsorted_left, lead_fleet_score.
  cbn [isna hd andb List.filter].
  change (flt PInf (Fin q)) with false. cbv iota.
  decide_flt; cbn [length Nat.eqb orb Nat.sub nth_error]; decide_qle;
    try reflexivity; exfalso; lra.
Qed.

Lemma lead_fleet_scores (sizes : list float64) :
  cat_astype_float (cut (fillna (Fin 0) sizes) lead_fleet_bins lead_fleet_labels false)
  = map lead_fleet_score sizes.
Proof.
  unfold cat_astype_float, cut, fillna. rewrite !map_map.
  apply map_ext. intros x. apply cut_lead_fleet.
Qed.

Lemma mean_of_fleet_score (x : float64) :
  mean_skipna [lead_fleet_score x] = lead_fleet_score x.
Proof.
  destruct x as [| | |q]; try reflexivity.
  unfold lead_fleet_score. decide_qle; reflexivity.
Qed.

Lemma add_lead_score_result (parse_float : string -> float64)
    (argsort : list float64 -> list nat) (leads_df : DataFrame) (fleet_scores : list float64) :
  lookup_column "fleet_size_score" (columns leads_df) = Some (Numeric fleet_scores) ->
  exists lead_score,
    add_lead_score parse_float argsort leads_df
    = Ok (reorder (argsort lead_score) (setitem leads_df "lead_score" (Numeric lead_score))) /\
    length lead_score = len leads_df /\
    (lookup_column "recency_score" (columns leads_df) = None ->
     lead_score
     = map (fun i => mean_skipna [nth i fleet_scores NaN]) (seq 0 (len leads_df))).
Proof.
  intros Hfleet. unfold add_lead_score. cbn [List.filter].
  rewrite !has_column_lookup, Hfleet.
  assert (Hsorted : forall lead_score,
             length lead_score = len leads_df ->
             LeadScoring.sort_values_descending argsort
               (setitem leads_df "lead_score" (Numeric lead_score)) "lead_score"
             = Ok (reorder (argsort lead_score)
                     (setitem leads_df "lead_score" (Numeric lead_score)))).
  { intros lead_score Hlen. unfold LeadScoring.sort_values_descending, getitem, setitem.
    cbn [columns]. rewrite lookup_set_column_eq. cbn [Py.bind].
    rewrite <- Hlen, reindex_same_length. reflexivity. }
  destruct (lookup_column "recency_score" (columns leads_df)) as [recency|] eqn:Er.
  - unfold select. cbn [select_columns]. rewrite Hfleet, Er. cbn [Py.bind columns map snd to_numeric].
    eexists. split; [apply Hsorted; apply length_mean_axis1|].
    split; [apply length_mean_axis1|discriminate].
  - unfold select. cbn [select_columns]. rewrite Hfleet. cbn [Py.bind columns map snd to_numeric].
    eexists. split; [apply Hsorted; apply length_mean_axis1|].
    split; [apply length_mean_axis1|]. intros _. reflexivity.
Qed.

Lemma lookup_setitem_ne (df : DataFrame) (key key' : string) (c : column) :
  key <> key' ->
  lookup_column key' (columns (setitem df key c)) = lookup_column key' (columns df).
Proof. intros H. unfold setitem. cbn [columns]. apply lookup_set_column_ne. exact H. Qed.

Lemma add_recency_score_result (parse_datetime : cell -> option Z) (leads_df : DataFrame) :
  exists leads_df',
    add_recency_score parse_datetime leads_df = Ok leads_df' /\
    index leads_df' = index leads_df /\
    (forall key, key <> "add_date" -> key <> "recency_score" ->
                 lookup_column key (columns leads_df') = lookup_column key (columns leads_df)) /\
    (lookup_column "add_date" (columns leads_df) = None -> leads_df' = leads_df).
Proof.
  unfold add_recency_score. rewrite has_column_lookup. unfold getitem.
  destruct (lookup_column "add_date" (columns leads_df)) as [dates|] eqn:Ed.
  - cbn [Py.bind]. eexists. split; [reflexivity|]. split; [reflexivity|]. split.
    + intros key H1 H2. rewrite !lookup_setitem_ne by congruence. reflexivity.
    + discriminate.
  - exists leads_df. split; [reflexivity|]. split; [reflexivity|]. split; reflexivity.
Qed.

(** X24. [get_lead_scoring_data] never fails on a parsed census file with a
    fleet size column, and returns its rows reordered by descending lead
    score, rows without one last. The fleet size score of a row is 1 for a
    fleet of up to 1, 2 up to 5, 3 up to 20, 4 up to 100 and 5 above; since
    [pd.cut] is called without [include_lowest], a fleet size that is zero,
    negative, missing or not a number gets no score at all. In a file
    without registration dates the lead score is the fleet size score, so
    such carriers have no lead score and come last. *)
Theorem lead_data_fleet_scores
    (read_file : string -> string -> result string) (sniff_delimiter : string -> result string)
    (read_csv : string -> string -> string -> result DataFrame)
    (parse_float : string -> float64) (parse_datetime : cell -> option Z)
    (argsort : list float64 -> list nat)
    (self : FMCSACSVParser) (df : DataFrame) (c : column) :
  parse_to_dataframe read_file sniff_delimiter read_csv self = Ok df ->
  sorts_descending argsort ->
  lookup_column "fleet_size" (columns df) = Some c ->
  length (cells c) = len df ->
  exists out perm,
    get_lead_scoring_data read_file sniff_delimiter read_csv parse_float parse_datetime
                          argsort self = Ok out /\
    Permutation perm (seq 0 (len df)) /\
    index out = map (fun i => nth i (index df) 0%nat) perm /\
    lookup_column "fleet_size_score" (columns out)
    = Some (Numeric (map (fun i => lead_fleet_score (nth i (to_numeric parse_float c) NaN))
                         perm)) /\
    (exists lead_scores,
        lookup_column "lead_score" (columns out) = Some (Numeric lead_scores) /\
        StronglySorted (fun a b => precedes a b = true) lead_scores) /\
    (lookup_column "add_date" (columns df) = None ->
     lookup_column "lead_score" (columns out)
     = lookup_column "fleet_size_score" (columns out)).
Proof.
  intros Hparse Hsort Hc Hlen.
  unfold get_lead_scoring_data. rewrite Hparse. cbn [Py.bind].
  destruct (select_available df lead_columns) as (cols & Hcols & Hlookup).
  unfold select. rewrite Hcols. cbn [Py.bind].
  set (leads0 := {| index := index df; columns := cols |}).
  assert (Hfleet0 : lookup_column "fleet_size" (columns leads0) = Some c).
  { cbn [leads0 columns]. rewrite Hlookup. exact Hc. }
  set (sizes := to_numeric parse_float c).
  set (fleet_scores := map lead_fleet_score sizes).
  assert (Hlen_scores : length fleet_scores = len df).
  { unfold fleet_scores, sizes. rewrite length_map, length_to_numeric. exact Hlen. }
  assert (Hstep1 : add_fleet_size_score parse_float leads0
                   = Ok (setitem leads0 "fleet_size_score" (Numeric fleet_scores))).
  { unfold add_fleet_size_score, getitem. rewrite has_column_lookup, Hfleet0. cbn [Py.bind].
    rewrite lead_fleet_scores. reflexivity. }
  rewrite Hstep1. cbn [Py.bind].
  set (leads1 := setitem leads0 "fleet_size_score" (Numeric fleet_scores)).
  assert (Hfleet1 : lookup_column "fleet_size_score" (columns leads1) = Some (Numeric fleet_scores)).
  { unfold leads1, setitem. cbn [columns]. rewrite lookup_set_column_eq.
    change (len leads0) with (len df). rewrite <- Hlen_scores, reindex_same_length. reflexivity. }
  destruct (add_recency_score_result parse_datetime leads1)
    as (leads2 & Hstep2 & Hindex2 & Hother2 & Hsame2).
  rewrite Hstep2. cbn [Py.bind].
  assert (Hfleet2 : lookup_column "fleet_size_score" (columns leads2) = Some (Numeric fleet_scores)).
  { rewrite Hother2 by discriminate. exact Hfleet1. }
  assert (Hlen2 : len leads2 = len df).
  { unfold len. rewrite Hindex2. reflexivity. }
  destruct (add_lead_score_result parse_float argsort leads2 fleet_scores Hfleet2)
    as (lead_score & Hstep3 & Hlen3 & Halone).
  rewrite Hstep3. rewrite Hlen2 in Hlen3.
  destruct (Hsort lead_score) as [Hperm Hsorted]. rewrite Hlen3 in Hperm.
  eexists. exists (argsort lead_score). split; [reflexivity|]. split; [exact Hperm|].
  split; [cbn [reorder index setitem]; rewrite Hindex2; reflexivity|].
  assert (Hout_fleet :
            lookup_column "fleet_size_score"
              (columns (reorder (argsort lead_score)
                          (setitem leads2 "lead_score" (Numeric lead_score))))
            = Some (Numeric (map (fun i => lead_fleet_score (nth i sizes NaN))
                                 (argsort lead_score)))).
  { rewrite lookup_reorder, lookup_setitem_ne by discriminate. rewrite Hfleet2.
    cbn [option_map take]. do 2 f_equal. apply map_ext. intros i.
    unfold fleet_scores. apply (nth_map_NaN lead_fleet_score). reflexivity. }
  assert (Hout_lead :
            lookup_column "lead_score"
              (columns (reorder (argsort lead_score)
                          (setitem leads2 "lead_score" (Numeric lead_score))))
            = Some (Numeric (map (fun i => nth i lead_score NaN) (argsort lead_score)))).
  { rewrite lookup_reorder. unfold setitem. cbn [columns]. rewrite lookup_set_column_eq.
    rewrite Hlen2, <- Hlen3, reindex_same_length. reflexivity. }
  split; [exact Hout_fleet|]. split.
  - eexists. split; [exact Hout_lead|exact Hsorted].
  - intros Hno_date. rewrite Hout_lead, Hout_fleet.
    assert (Hleads : leads2 = leads1).
    { apply Hsame2. unfold leads1. rewrite lookup_setitem_ne by discriminate.
      cbn [leads0 columns]. rewrite Hlookup. exact Hno_date. }
    assert (Hno_recency : lookup_column "recency_score" (columns leads2) = None).
    { rewrite Hleads. unfold leads1. rewrite lookup_setitem_ne by discriminate.
      cbn [leads0 columns]. rewrite Hlookup. reflexivity. }
    do 2 f_equal. apply map_ext_in. intros i Hi.
    assert (Hin : (i < len df)%nat).
    { apply (Permutation_in _ Hperm), in_seq in Hi. lia. }
    rewrite (Halone Hno_recency), Hlen2.
    rewrite (nth_indep _ NaN ((fun j => mean_skipna [nth j fleet_scores NaN]) 0%nat))
      by (rewrite length_map, length_seq; exact Hin).
    rewrite (map_nth (fun j => mean_skipna [nth j fleet_scores NaN])).
    rewrite seq_nth by exact Hin. cbn [Nat.add].
    unfold fleet_scores. rewrite (nth_map_NaN lead_fleet_score) by reflexivity.
    apply mean_of_fleet_score.
Qed.

Lemma lead_data_fleet_scores_witness :
  exists out,
    get_lead_scoring_data fs_one_file sniff_comma read_fleet_rows sample_parse_float
                          sample_parse_datetime stable_argsort (new_parser "census.csv")
    = Ok out /\
    index out = [0; 2; 1]%nat /\
    lookup_column "lead_score" (columns out) = Some (Numeric [Fin 3; Fin 2; NaN]) /\
    exists perm,
      lookup_column "fleet_size_score" (columns out)
      = Some (Numeric (map (fun i => lead_fleet_score
                                       (nth i (to_numeric sample_parse_float
                                                 (Object [Text "12"; Text ""; Text "3"])) NaN))
                           perm)).
Proof.
  destruct (lead_data_fleet_scores fs_one_file sniff_comma read_fleet_rows sample_parse_float
              sample_parse_datetime stable_argsort (new_parser "census.csv") fleet_rows
              (Object [Text "12"; Text ""; Text "3"])
              eq_refl (insertion_argsort_sorts false) eq_refl eq_refl)
    as (out & perm & Hout & _ & _ & Hfleet & _).
  exists out. split; [exact Hout|].
  assert (Hvalue := Hout). vm_compute in Hvalue. injection Hvalue as <-.
  split; [reflexivity|]. split; [reflexivity|]. exists perm. exact Hfleet.
Defined.

(** *** The recency score of the lead scoring data *)

Lemma max_timestamp_from (ts : list (option Z)) (acc : option Z) :
  (forall t, acc = Some t \/ In (Some t) ts ->
     exists m, fold_left (fun acc t =>
                            match acc, t with
                            | Some a, Some b => Some (Z.max a b)
                            | None, _ => t
                            | _, None => acc
                            end) ts acc = Some m /\ (t <= m)%Z) /\
  (forall m, fold_left (fun acc t =>
                          match acc, t with
                          | Some a, Some b => Some (Z.max a b)
                          | None, _ => t
                          | _, None => acc
                          end) ts acc = Some m ->
             acc = Some m \/ In (Some m) ts).
Proof.
  revert acc. induction ts as [|t0 ts IH]; intros acc; cbn [fold_left In].
  - split.
    + intros t [H|[]]. exists t. split; [exact H|lia].
    + intros m H. left. exact H.
  - destruct (IH (match acc, t0 with
                  | Some a, Some b => Some (Z.max a b)
                  | None, _ => t0
                  | _, None => acc
                  end)) as [IH1 IH2].
    split.
    + intros t [Hacc|[Ht0|Hin]].
      * subst acc. destruct t0 as [b|].
        -- destruct (IH1 (Z.max t b) (or_introl eq_refl)) as (m & Hm & Hle).
           exists m. split; [exact Hm|lia].
        -- apply IH1. left. reflexivity.
      * subst t0. destruct acc as [a|].
        -- destruct (IH1 (Z.max a t) (or_introl eq_refl)) as (m & Hm & Hle).
           exists m. split; [exact Hm|lia].
        -- apply IH1. left. reflexivity.
      * apply IH1. right. exact Hin.
    + intros m Hm. destruct (IH2 m Hm) as [Hacc|Hin]; [|right; right; exact Hin].
      destruct acc as [a|], t0 as [b|].
      * injection Hacc as <-. destruct (Z.max_spec a b) as [[_ ->]|[_ ->]].
        -- right. left. reflexivity.
        -- left. reflexivity.
      * left. exact Hacc.
      * right. left. exact Hacc.
      * discriminate.
Qed.

Lemma max_timestamp_bounds (ts : list (option Z)) (t : Z) :
  In (Some t) ts -> exists m, max_timestamp ts = Some m /\ (t <= m)%Z.
Proof.
  intros H. apply (proj1 (max_timestamp_from ts None)). right. exact H.
Qed.

Lemma max_timestamp_member (ts : list (option Z)) (m : Z) :
  max_timestamp ts = Some m -> In (Some m) ts.
Proof.
  intros H. destruct (proj2 (max_timestamp_from ts None) m H) as [H'|H']; [discriminate|exact H'].
Qed.

Lemma recency_years_value (m t : Z) :
  recency_years (Some m) (Some t)
  = if flt (Fin 0) (Fin (5 + - (inject_Z ((m - t) / nanoseconds_per_day) / 365.25)))
    then Fin (5 + - (inject_Z ((m - t) / nanoseconds_per_day) / 365.25))
    else Fin 0.
Proof. reflexivity. Qed.

Lemma recency_years_range (m t : Z) :
  (t <= m)%Z ->
  exists q, recency_years (Some m) (Some t) = Fin q /\ (0 <= q)%Q /\ (q <= 5)%Q.
Proof.
  intros Hle. rewrite recency_years_value.
  assert (Hd : (0 <= (m - t) / nanoseconds_per_day)%Z).
  { apply Z.div_pos; [lia|reflexivity]. }
  assert (Hq : (0 <= inject_Z ((m - t) / nanoseconds_per_day) / 365.25)%Q).
  { apply Qle_shift_div_l; [reflexivity|]. rewrite Qmult_0_l.
    unfold Qle. simpl. lia. }
  destruct (flt (Fin 0) _) eqn:E.
  - apply flt_Fin in E. eexists. split; [reflexivity|]. split; lra.
  - exists 0%Q. split; [reflexivity|]. split; lra.
Qed.

Lemma recency_years_newest (m : Z) :
  exists q, recency_years (Some m) (Some m) = Fin q /\ (q == 5)%Q.
Proof.
  rewrite recency_years_value, Z.sub_diag.
  change (0 / nanoseconds_per_day)%Z with 0%Z.
  eexists. split; reflexivity.
Qed.

Lemma recency_years_missing (newest : option Z) : recency_years newest None = Fin 0.
Proof. destruct newest; reflexivity. Qed.

Lemma add_fleet_size_score_result (parse_float : string -> float64) (leads_df : DataFrame) :
  exists leads_df',
    add_fleet_size_score parse_float leads_df = Ok leads_df' /\
    index leads_df' = index leads_df /\
    forall key, key <> "fleet_size_score" ->
                lookup_column key (columns leads_df') = lookup_column key (columns leads_df).
Proof.
  unfold add_fleet_size_score, getitem. rewrite has_column_lookup.
  destruct (lookup_column "fleet_size" (columns leads_df)) as [c|].
  - cbn [Py.bind]. eexists. split; [reflexivity|]. split; [reflexivity|].
    intros key Hkey. apply lookup_setitem_ne. congruence.
  - exists leads_df. split; [reflexivity|]. split; reflexivity.
Qed.

Lemma add_recency_score_dated (parse_datetime : cell -> option Z) (leads_df : DataFrame)
    (dates : column) :
  lookup_column "add_date" (columns leads_df) = Some dates ->
  length (cells dates) = len leads_df ->
  exists leads_df',
    add_recency_score parse_datetime leads_df = Ok leads_df' /\
    index leads_df' = index leads_df /\
    lookup_column "recency_score" (columns leads_df')
    = Some (Numeric (map (recency_years (max_timestamp (to_datetime parse_datetime dates)))
                         (to_datetime parse_datetime dates))).
Proof.
  intros Hd Hlen. unfold add_recency_score, getitem. rewrite has_column_lookup, Hd.
  cbn [Py.bind]. eexists. split; [reflexivity|]. split; [reflexivity|].
  unfold setitem at 1. cbn [columns]. rewrite lookup_set_column_eq.
  rewrite len_setitem, <- Hlen. do 2 f_equal.
  set (ts := to_datetime parse_datetime dates).
  replace (length (cells dates)) with (length (map (recency_years (max_timestamp ts)) ts))
    by (unfold ts, to_datetime; rewrite !length_map; reflexivity).
  apply reindex_same_length.
Qed.

Lemma add_lead_score_sorted (parse_float : string -> float64)
    (argsort : list float64 -> list nat) (leads_df : DataFrame) (recency : list float64) :
  lookup_column "recency_score" (columns leads_df) = Some (Numeric recency) ->
  exists lead_score,
    add_lead_score parse_float argsort leads_df
    = Ok (reorder (argsort lead_score) (setitem leads_df "lead_score" (Numeric lead_score))) /\
    length lead_score = len leads_df.
Proof.
  intros Hr. unfold add_lead_score. cbn [List.filter]. rewrite !has_column_lookup, Hr.
  assert (Hsorted : forall lead_score,
             length lead_score = len leads_df ->
             LeadScoring.sort_values_descending argsort
               (setitem leads_df "lead_score" (Numeric lead_score)) "lead_score"
             = Ok (reorder (argsort lead_score)
                     (setitem leads_df "lead_score" (Numeric lead_score)))).
  { intros lead_score Hlen. unfold LeadScoring.sort_values_descending, getitem, setitem.
    cbn [columns]. rewrite lookup_set_column_eq. cbn [Py.bind].
    rewrite <- Hlen, reindex_same_length. reflexivity. }
  destruct (lookup_column "fleet_size_score" (columns leads_df)) as [fleet|] eqn:Ef.
  - unfold select. cbn [select_columns]. rewrite Ef, Hr. cbn [Py.bind columns].
    eexists. split; [apply Hsorted; apply length_mean_axis1|apply length_mean_axis1].
  - unfold select. cbn [select_columns]. rewrite Hr. cbn [Py.bind columns].
    eexists. split; [apply Hsorted; apply length_mean_axis1|apply length_mean_axis1].
Qed.

(** X25. On a parsed census file with registration dates,
    [get_lead_scoring_data] gives every row the recency score
    max(0, 5 - age / 365.25), the age being the whole days between the row's
    date and the newest date of the file: the score lies between 0 and 5, a
    row that carries the newest date scores 5, and a row whose date is
    missing or cannot be parsed scores 0. *)
Theorem lead_data_recency_scores
    (read_file : string -> string -> result string) (sniff_delimiter : string -> result string)
    (read_csv : string -> string -> string -> result DataFrame)
    (parse_float : string -> float64) (parse_datetime : cell -> option Z)
    (argsort : list float64 -> list nat)
    (self : FMCSACSVParser) (df : DataFrame) (dates : column) :
  parse_to_dataframe read_file sniff_delimiter read_csv self = Ok df ->
  sorts_descending argsort ->
  lookup_column "add_date" (columns df) = Some dates ->
  length (cells dates) = len df ->
  exists out perm,
    get_lead_scoring_data read_file sniff_delimiter read_csv parse_float parse_datetime
                          argsort self = Ok out /\
    Permutation perm (seq 0 (len df)) /\
    index out = map (fun i => nth i (index df) 0%nat) perm /\
    lookup_column "recency_score" (columns out)
    = Some (Numeric (map (fun i =>
                            recency_years (max_timestamp (to_datetime parse_datetime dates))
                                          (nth i (to_datetime parse_datetime dates) None))
                         perm)) /\
    (forall t, In (Some t) (to_datetime parse_datetime dates) ->
       exists q, recency_years (max_timestamp (to_datetime parse_datetime dates)) (Some t)
                 = Fin q /\ (0 <= q)%Q /\ (q <= 5)%Q) /\
    (forall newest, max_timestamp (to_datetime parse_datetime dates) = Some newest ->
       In (Some newest) (to_datetime parse_datetime dates) /\
       exists q, recency_years (Some newest) (Some newest) = Fin q /\ (q == 5)%Q) /\
    recency_years (max_timestamp (to_datetime parse_datetime dates)) None = Fin 0.
Proof.
  intros Hparse Hsort Hd Hlen.
  unfold get_lead_scoring_data. rewrite Hparse. cbn [Py.bind].
  destruct (select_available df lead_columns) as (cols & Hcols & Hlookup).
  unfold select. rewrite Hcols. cbn [Py.bind].
  set (leads0 := {| index := index df; columns := cols |}).
  destruct (add_fleet_size_score_result parse_float leads0)
    as (leads1 & Hstep1 & Hindex1 & Hother1).
  rewrite Hstep1. cbn [Py.bind].
  assert (Hd1 : lookup_column "add_date" (columns leads1) = Some dates).
  { rewrite Hother1 by discriminate. cbn [leads0 columns]. rewrite Hlookup. exact Hd. }
  assert (Hlen1 : len leads1 = len df).
  { unfold len. rewrite Hindex1. reflexivity. }
  set (ts := to_datetime parse_datetime dates) in *.
  destruct (add_recency_score_dated parse_datetime leads1 dates Hd1)
    as (leads2 & Hstep2 & Hindex2 & Hrecency); [rewrite Hlen1; exact Hlen|].
  fold ts in Hrecency. rewrite Hstep2. cbn [Py.bind].
  assert (Hlen2 : len leads2 = len df).
  { unfold len. rewrite Hindex2. exact Hlen1. }
  destruct (add_lead_score_sorted parse_float argsort leads2 _ Hrecency)
    as (lead_score & Hstep3 & Hlen3).
  rewrite Hstep3. rewrite Hlen2 in Hlen3.
  destruct (Hsort lead_score) as [Hperm _]. rewrite Hlen3 in Hperm.
  eexists. exists (argsort lead_score). split; [reflexivity|]. split; [exact Hperm|].
  split; [cbn [reorder index setitem]; rewrite Hindex2, Hindex1; reflexivity|].
  split; [|split; [|split]].
  - rewrite lookup_reorder, lookup_setitem_ne by discriminate. rewrite Hrecency.
    cbn [option_map take]. do 2 f_equal. apply map_ext_in. intros i Hi.
    assert (Hin : (i < length ts)%nat).
    { apply (Permutation_in _ Hperm), in_seq in Hi.
      unfold ts, to_datetime. rewrite length_map, Hlen. lia. }
    rewrite (nth_indep _ NaN (recency_years (max_timestamp ts) None))
      by (rewrite length_map; exact Hin).
    apply (map_nth (recency_years (max_timestamp ts))).
  - intros t Ht. destruct (max_timestamp_bounds ts t Ht) as (m & -> & Hle).
    apply recency_years_range. exact Hle.
  - intros newest Hnewest. split; [apply max_timestamp_member; exact Hnewest|].
    apply recency_years_newest.
  - apply recency_years_missing.
Qed.

Lemma lead_data_recency_scores_witness :
  exists out,
    get_lead_scoring_data fs_one_file sniff_comma read_dated_rows sample_parse_float
                          sample_parse_datetime stable_argsort (new_parser "census.csv")
    = Ok out /\
    index out = [2; 0; 1]%nat /\
    max_timestamp (to_datetime sample_parse_datetime
                     (Object [Val (Fin 864000000000000); Val NaN;
                              Val (Fin 32400000000000000)]))
    = Some 32400000000000000%Z /\
    exists q, recency_years (Some 32400000000000000%Z) (Some 32400000000000000%Z) = Fin q /\
              (q == 5)%Q.
Proof.
  destruct (lead_data_recency_scores fs_one_file sniff_comma read_dated_rows sample_parse_float
              sample_parse_datetime stable_argsort (new_parser "census.csv") dated_rows
              (Object [Val (Fin 864000000000000); Val NaN; Val (Fin 32400000000000000)])
              eq_refl (insertion_argsort_sorts false) eq_refl eq_refl)
    as (out & perm & Hout & _ & _ & _ & _ & Hnewest & _).
  exists out. split; [exact Hout|].
  assert (Hvalue := Hout). vm_compute in Hvalue. injection Hvalue as <-.
  split; [reflexivity|]. split; [reflexivity|].
  apply (Hnewest 32400000000000000%Z). reflexivity.
Defined.

(* ===================================================================== *)
(** ** lead_scoring.py: the specialization score as a formula *)
(* ===================================================================== *)

Lemma nth_bools (ms : list bool) (i : nat) :
  (i < length ms)%nat -> nth i (bool_astype_int ms) NaN = of_bool (nth i ms false).
Proof.
  intros Hi. unfold bool_astype_int.
  rewrite (nth_indep _ NaN (of_bool false)) by (rewrite length_map; exact Hi).
  apply (map_nth of_bool).
Qed.

Lemma nth_add_matches (k : Q) (xs : list float64) (ms : list bool) (i : nat) (q : Q) :
  (i < length ms)%nat -> nth i xs NaN = Fin q ->
  nth i (add_matches k xs ms) NaN = Fin (q + (if nth i ms false then 1 else 0) * k).
Proof.
  intros Hi Hq. unfold add_matches. rewrite nth_add, nth_scale, nth_bools, Hq by exact Hi.
  reflexivity.
Qed.

Lemma nth_add_bools (xs : list float64) (ms : list bool) (i : nat) (q : Q) :
  (i < length ms)%nat -> nth i xs NaN = Fin q ->
  nth i (add_bools xs ms) NaN = Fin (q + (if nth i ms false then 1 else 0)).
Proof.
  intros Hi Hq. unfold add_bools. rewrite nth_add, nth_bools, Hq by exact Hi. reflexivity.
Qed.

Lemma nth_str_contains (pattern : string) (ss : list string) (i : nat) :
  (i < length ss)%nat ->
  nth i (str_contains pattern ss) false = Str.re_search_words pattern (nth i ss EmptyString).
Proof.
  intros Hi. unfold str_contains.
  rewrite (nth_indep _ false (Str.re_search_words pattern EmptyString))
    by (rewrite length_map; exact Hi).
  apply (map_nth (Str.re_search_words pattern)).
Qed.

Lemma lower_text_cells (df : DataFrame) (key : string) (cs : list cell) :
  lookup_column key (columns df) = Some (Object cs) -> text_or_missing cs ->
  lower_text df key = Ok (map (fun x => Str.lower (text_or_empty x)) cs).
Proof.
  intros Hc Htext. unfold lower_text, get, attr_of. rewrite Hc. cbn [Py.bind].
  rewrite (str_text_or_missing cs Htext). cbn [Py.bind].
  unfold str_fillna, str_map. rewrite !map_map. f_equal.
  apply map_ext. intros [v|s]; reflexivity.
Qed.

(** X26. The specialization score as a formula. For a census table whose
    cargo column holds text, every row scores
    min(5, 1 + 2 h + 1.5 s + v + t + 0.5 i + 0.5 n), where h, s, v and t tell
    (1 or 0) whether the cargo description, in lower case, holds a keyword
    of the hazardous, specialized, valuable and time-sensitive lists, and i
    and n whether it holds the words intermodal and international; a row
    without a description scores 1. Without a [cargo_carried] column the
    function raises [AttributeError]. *)
Theorem specialization_score_formula (census_df : DataFrame) :
  (lookup_column "cargo_carried" (columns census_df) = None ->
   _calculate_specialization_score census_df
   = Raise (AttributeError "'str' object has no attribute 'str'")) /\
  (forall cs,
      lookup_column "cargo_carried" (columns census_df) = Some (Object cs) ->
      text_or_missing cs -> length cs = len census_df ->
      exists scores,
        _calculate_specialization_score census_df = Ok scores /\
        forall i x, nth_error cs i = Some x ->
          exists q, nth i scores NaN = Fin q /\
                    (q == specialization_formula (Str.lower (text_or_empty x)))%Q).
Proof.
  split.
  - intros Hc. unfold _calculate_specialization_score, lower_text, get, attr_of.
    rewrite Hc. reflexivity.
  - intros cs Hc Htext Hlen. unfold _calculate_specialization_score.
    rewrite (lower_text_cells census_df "cargo_carried" cs Hc Htext). cbn [Py.bind].
    eexists. split; [reflexivity|]. intros i x Hx.
    set (cargo := map (fun x => Str.lower (text_or_empty x)) cs).
    assert (Hi : (i < length cs)%nat) by (apply nth_error_Some; congruence).
    assert (Hcargo : length cargo = length cs) by apply length_map.
    assert (Htext_i : nth i cargo EmptyString = Str.lower (text_or_empty x)).
    { unfold cargo. apply nth_error_nth. rewrite nth_error_map_nth, Hx. reflexivity. }
    unfold high_value_cargo. cbn [fold_left].
    change (cargo_step cargo ?s ("hazardous_materials", ?kw))
      with (add_matches 2 s (str_contains (Str.join "|" kw) cargo)).
    change (cargo_step cargo ?s ("specialized", ?kw))
      with (add_matches 1.5 s (str_contains (Str.join "|" kw) cargo)).
    change (cargo_step cargo ?s ("valuable", ?kw))
      with (add_bools s (str_contains (Str.join "|" kw) cargo)).
    change (cargo_step cargo ?s ("time_sensitive", ?kw))
      with (add_bools s (str_contains (Str.join "|" kw) cargo)).
    assert (Hbase : nth i (full (len census_df) 1) NaN = Fin 1).
    { unfold full. apply nth_repeat_lt. lia. }
    rewrite nth_clip.
    erewrite nth_add_matches; [|rewrite length_str_contains; lia|].
    2: { erewrite nth_add_matches; [reflexivity|rewrite length_str_contains; lia|].
         erewrite nth_add_bools; [reflexivity|rewrite length_str_contains; lia|].
         erewrite nth_add_bools; [reflexivity|rewrite length_str_contains; lia|].
         erewrite nth_add_matches; [reflexivity|rewrite length_str_contains; lia|].
         erewrite nth_add_matches; [reflexivity|rewrite length_str_contains; lia|].
         exact Hbase. }
    rewrite !nth_str_contains, Htext_i by lia.
    set (s := Str.lower (text_or_empty x)).
    unfold Str.re_search_words.
    change (Str.split_on "|" (Str.join "|" ?kw)) with kw.
    change (Str.split_on "|" "intermodal") with ["intermodal"].
    change (Str.split_on "|" "international") with ["international"].
    unfold specialization_formula, keyword_hit, clip_value. cbn [isna].
    set (h := existsb _ ["hazmat"; "hazardous"; "chemical"; "explosive"; "radioactive"]).
    set (sp := existsb _ ["refrigerated"; "reefer"; "temperature_controlled"; "oversized";
                          "heavy_haul"]).
    set (v := existsb _ ["household_goods"; "electronics"; "pharmaceutical"; "automotive";
                         "machinery"]).
    set (t := existsb _ ["perishable"; "fresh_produce"; "dairy"; "meat"; "bakery"]).
    set (im := existsb _ ["intermodal"]).
    set (it := existsb _ ["international"]).
    destruct h, sp, v, t, im, it; eexists; (split; [reflexivity|reflexivity]).
Qed.

Lemma specialization_score_formula_witness :
  exists scores q,
    _calculate_specialization_score sample_census = Ok scores /\
    nth 0 scores NaN = Fin q /\ (q == 4.5)%Q.
Proof.
  destruct (specialization_score_formula sample_census) as [_ Hrows].
  destruct (Hrows [Text "Hazmat, Refrigerated"; Text "general freight"; Val NaN] eq_refl)
    as (scores & Hrun & Hrow).
  - repeat constructor; (left; reflexivity) || (right; reflexivity).
  - reflexivity.
  - destruct (Hrow 0%nat (Text "Hazmat, Refrigerated") eq_refl) as (q & Hq & Hval).
    exists scores, q. split; [exact Hrun|]. split; [exact Hq|].
    rewrite Hval. vm_compute. split; reflexivity.
Defined.

(* ===================================================================== *)
(** ** parsers.py: the safety ratings of a measurement file *)
(* ===================================================================== *)

Lemma lookup_column_In (key : string) (cols : list (string * column)) :
  In key (map fst cols) -> exists c, lookup_column key cols = Some c.
Proof.
  induction cols as [|[k c] cols IH]; [intros []|].
  cbn [map fst lookup_column]. destruct (String.eqb_spec k key) as [->|Hne].
  - intros _. exists c. reflexivity.
  - intros [H|H]; [contradiction|]. apply IH. exact H.
Qed.

Lemma select_columns_present (cols : list (string * column)) (keys : list string) :
  (forall key, In key keys -> In key (map fst cols)) ->
  exists selected, select_columns cols keys = Ok selected /\ map fst selected = keys.
Proof.
  induction keys as [|k keys IH]; intros Hall.
  - exists []. split; reflexivity.
  - destruct (lookup_column_In k cols (Hall k (or_introl eq_refl))) as (c & Hc).
    destruct IH as (rest & Hrest & Hnames).
    { intros key Hin. apply Hall. right. exact Hin. }
    exists ((k, c) :: rest). cbn [select_columns]. rewrite Hc, Hrest. cbn [Py.bind].
    split; [reflexivity|]. cbn [map fst]. rewrite Hnames. reflexivity.
Qed.

Lemma select_columns_missing (cols : list (string * column)) (keys : list string) (key : string) :
  In key keys -> lookup_column key cols = None ->
  exists missing, select_columns cols keys = Raise (KeyError missing).
Proof.
  induction keys as [|k keys IH]; [intros []|]. intros Hin Hnone. cbn [select_columns].
  destruct (lookup_column k cols) as [c|] eqn:Ek; [|exists k; reflexivity].
  destruct Hin as [->|Hin]; [congruence|].
  destruct (IH Hin Hnone) as (missing & ->). exists missing. reflexivity.
Qed.

(** X27. The safety ratings of a parsed measurement file. A score column is
    one whose name holds [basic] or [score], in any case. Without any score
    column [get_safety_ratings] returns the whole file. With one, it
    returns the columns [dot_number] and [carrier_name] followed by the
    score columns in the order of the file, with the rows of the file
    (column names being distinct); and
    it raises [KeyError] when the file lacks a [dot_number] or a
    [carrier_name] column. *)
Theorem safety_ratings_columns
    (read_file : string -> string -> result string) (sniff_delimiter : string -> result string)
    (read_csv : string -> string -> string -> result DataFrame)
    (self : FMCSACSVParser) (df : DataFrame) :
  parse_to_dataframe read_file sniff_delimiter read_csv self = Ok df ->
  let ratings := get_safety_ratings read_file sniff_delimiter read_csv self in
  let score_columns := List.filter is_basic_column (column_names df) in
  (score_columns = [] -> ratings = Ok df) /\
  (score_columns <> [] ->
   has_column "dot_number" df = false \/ has_column "carrier_name" df = false ->
   exists missing, ratings = Raise (KeyError missing)) /\
  (score_columns <> [] -> List.NoDup (column_names df) ->
   has_column "dot_number" df = true -> has_column "carrier_name" df = true ->
   exists out,
     ratings = Ok out /\
     index out = index df /\
     column_names out = "dot_number" :: "carrier_name" :: score_columns /\
     forall key, In key (column_names out) ->
       lookup_column key (columns out) = lookup_column key (columns df)).
Proof.
  intros Hparse ratings score_columns. subst ratings.
  unfold get_safety_ratings. rewrite Hparse. cbn [Py.bind].
  fold score_columns. split; [|split].
  - intros ->. reflexivity.
  - intros Hne Hmissing.
    destruct score_columns as [|col rest] eqn:E; [contradiction|]. rewrite <- E.
    unfold select.
    assert (Hkey : exists key, In key (["dot_number"; "carrier_name"] ++ score_columns)%list /\
                               lookup_column key (columns df) = None).
    { rewrite !has_column_lookup in Hmissing. destruct Hmissing as [H|H].
      - exists "dot_number". split; [left; reflexivity|].
        destruct (lookup_column "dot_number" (columns df)); [discriminate|reflexivity].
      - exists "carrier_name". split; [right; left; reflexivity|].
        destruct (lookup_column "carrier_name" (columns df)); [discriminate|reflexivity]. }
    destruct Hkey as (key & Hin & Hnone).
    destruct (select_columns_missing (columns df) _ key Hin Hnone) as (missing & ->).
    exists missing. reflexivity.
  - intros Hne _ Hdot Hname.
    destruct score_columns as [|col rest] eqn:E; [contradiction|]. rewrite <- E.
    destruct (select_columns_present (columns df)
                (["dot_number"; "carrier_name"] ++ score_columns)%list)
      as (selected & Hsel & Hnames).
    { intros key [<-|[<-|Hin]].
      - unfold has_column in Hdot. apply existsb_exists in Hdot.
        destruct Hdot as (x & Hx & Heq). apply String.eqb_eq in Heq. subst x. exact Hx.
      - unfold has_column in Hname. apply existsb_exists in Hname.
        destruct Hname as (x & Hx & Heq). apply String.eqb_eq in Heq. subst x. exact Hx.
      - unfold score_columns in Hin. apply List.filter_In in Hin. apply Hin. }
    unfold select. rewrite Hsel. cbn [Py.bind].
    eexists. split; [reflexivity|]. split; [reflexivity|]. split; [exact Hnames|].
    unfold column_names. cbn [columns]. rewrite Hnames. intros key Hin.
    apply (select_columns_lookup _ _ _ _ Hsel Hin).
Qed.

Lemma safety_ratings_columns_witness :
  exists out,
    get_safety_ratings census_file sniff_comma read_sms_rows (new_parser "census.csv") = Ok out /\
    column_names out = ["dot_number"; "carrier_name"; "unsafe_driving_basic"; "total_score"].
Proof.
  destruct (safety_ratings_columns census_file sniff_comma read_sms_rows
              (new_parser "census.csv") (clean_columns sms_rows) eq_refl)
    as (_ & _ & Hok).
  destruct (Hok ltac:(discriminate)) as (out & Hout & _ & Hnames & _);
    [repeat (constructor; [cbn; intuition discriminate|]); constructor
    |reflexivity|reflexivity|].
  exists out. split; [exact Hout|]. rewrite Hnames. reflexivity.
Defined.

(* ===================================================================== *)
(** ** lead_scoring.py: the legitimacy score of a census without licensing data *)
(* ===================================================================== *)

Lemma nth_align_bool (f : bool -> bool -> bool) (xs ys : list bool) (i : nat) :
  length xs = length ys -> (i < length xs)%nat ->
  nth i (align_bool f xs ys) false = f (nth i xs false) (nth i ys false).
Proof.
  revert ys i. induction xs as [|x xs IH]; intros [|y ys] i Hlen Hi; try discriminate.
  - simpl in Hi. lia.
  - cbn [align_bool]. destruct i as [|i]; [reflexivity|].
    cbn [nth]. apply IH; simpl in *; lia.
Qed.

(** X28. The legitimacy score without licensing data. When the licensing
    table is absent or has no [dot_number] column, and the census holds its
    entity type and carrier operation as text, every row scores
    3 + c + b, where c tells (1 or 0) whether the entity type or the
    operation mentions a carrier and b whether one of them mentions a
    broker, in any case: no row scores less than 3. *)
Theorem legitimacy_score_formula (parse_float : string -> float64) (census_df : DataFrame)
    (li_df : option DataFrame) (entities operations : list cell) :
  enrichment_absent li_df = true ->
  lookup_column "entity_type" (columns census_df) = Some (Object entities) ->
  lookup_column "carrier_operation" (columns census_df) = Some (Object operations) ->
  text_or_missing entities -> text_or_missing operations ->
  length entities = len census_df -> length operations = len census_df ->
  exists scores,
    _calculate_legitimacy_score parse_float census_df li_df = Ok scores /\
    forall i e o, nth_error entities i = Some e -> nth_error operations i = Some o ->
      exists q, nth i scores NaN = Fin q /\
                (q == 3 + mentions "carrier" e o + mentions "broker" e o)%Q /\
                (3 <= q)%Q.
Proof.
  intros Habsent He Ho Hte Hto Hle Hlo.
  rewrite (legitimacy_without_enrichment parse_float census_df li_df Habsent).
  unfold entity_base_scores.
  rewrite (lower_text_cells census_df "entity_type" entities He Hte). cbn [Py.bind].
  rewrite (lower_text_cells census_df "carrier_operation" operations Ho Hto). cbn [Py.bind].
  eexists. split; [reflexivity|]. intros i e o Hei Hoi.
  set (entity_type := map (fun x => Str.lower (text_or_empty x)) entities).
  set (operation := map (fun x => Str.lower (text_or_empty x)) operations).
  assert (Hi : (i < len census_df)%nat) by (rewrite <- Hle; apply nth_error_Some; congruence).
  assert (Hl1 : length entity_type = len census_df) by (unfold entity_type; rewrite length_map; exact Hle).
  assert (Hl2 : length operation = len census_df) by (unfold operation; rewrite length_map; exact Hlo).
  assert (He_i : nth i entity_type EmptyString = Str.lower (text_or_empty e)).
  { unfold entity_type. apply nth_error_nth. rewrite nth_error_map_nth, Hei. reflexivity. }
  assert (Ho_i : nth i operation EmptyString = Str.lower (text_or_empty o)).
  { unfold operation. apply nth_error_nth. rewrite nth_error_map_nth, Hoi. reflexivity. }
  assert (Hmask : forall word,
             (i < length (align_bool orb (str_contains word entity_type)
                                         (str_contains word operation)))%nat /\
             nth i (align_bool orb (str_contains word entity_type)
                                   (str_contains word operation)) false
             = Str.re_search_words word (Str.lower (text_or_empty e))
               || Str.re_search_words word (Str.lower (text_or_empty o))).
  { intros word. split.
    - rewrite length_align_bool, !length_str_contains. lia.
    - rewrite nth_align_bool, !nth_str_contains, He_i, Ho_i
        by (rewrite ?length_str_contains; lia).
      reflexivity. }
  assert (Hbase : nth i (full (len census_df) 3) NaN = Fin 3).
  { unfold full. apply nth_repeat_lt. lia. }
  rewrite nth_clip.
  erewrite nth_add_bools; [|apply Hmask|].
  2: { erewrite nth_add_bools; [reflexivity|apply Hmask|exact Hbase]. }
  rewrite !(proj2 (Hmask _)).
  unfold Str.re_search_words.
  change (Str.split_on "|" "carrier") with ["carrier"].
  change (Str.split_on "|" "broker") with ["broker"].
  cbn [existsb]. rewrite !orb_false_r.
  unfold mentions, clip_value. cbn [isna].
  destruct (Str.contains "carrier" (Str.lower (text_or_empty e))
            || Str.contains "carrier" (Str.lower (text_or_empty o)));
    destruct (Str.contains "broker" (Str.lower (text_or_empty e))
              || Str.contains "broker" (Str.lower (text_or_empty o)));
    eexists; (split; [reflexivity|split; [reflexivity|discriminate]]).
Qed.

Lemma legitimacy_score_formula_witness :
  exists scores q,
    _calculate_legitimacy_score sample_parse_float sample_census None = Ok scores /\
    nth 1 scores NaN = Fin q /\ (q == 4)%Q.
Proof.
  destruct (legitimacy_score_formula sample_parse_float sample_census None
              [Text "CARRIER"; Text "Broker"; Val NaN]
              [Text "Interstate carrier"; Val NaN; Text "intrastate"]
              eq_refl eq_refl eq_refl)
    as (scores & Hrun & Hrow).
  - repeat constructor; (left; reflexivity) || (right; reflexivity).
  - repeat constructor; (left; reflexivity) || (right; reflexivity).
  - reflexivity.
  - reflexivity.
  - destruct (Hrow 1%nat (Text "Broker") (Val NaN) eq_refl eq_refl) as (q & Hq & Hval & _).
    exists scores, q. split; [exact Hrun|]. split; [exact Hq|].
    rewrite Hval. vm_compute. split; reflexivity.
Defined.
